(** * Student management console (main.py): a shallow embedding

    The program is a Python console application over an ODBC connection to a
    Microsoft Access file.  The embedding keeps the program's own text:
    every function of [main.py] is a definition of the same name, written in
    a small monad that threads the console, the database file and the host,
    and that carries Python's exceptions.  The script [check_drivers.py] is
    the definition [check_drivers] in the same monad.

    What lies outside the repository is modelled as follows.
    - [str] values are [string]s whose characters are code points below 256.
    - [float] values are binary64 numbers ([PrimFloat.float]).
    - The builtin [float(s)] is a parameter [py_float] of the operations
      that call it.
    - The console is the list of the lines that will be typed; [input] at
      its end raises [EOFError].  What is printed is kept as the literal or
      the f-string of the [print] with the values of its fields.
    - [pyodbc.drivers()] is a list of names of the host; whether a
      [pyodbc.connect] opens is decided by the host.
    - The database engine is given the relational meaning of the statements
      the program issues: a table is the list of its rows in insertion
      order, [=] on text is equality of strings, comparisons on DOUBLE are
      the binary64 ones, a UNIQUE column refuses a second equal value with
      [IntegrityError], a statement on a missing table raises
      [pyodbc.Error].  Column widths are not enforced.
    - A connection works on a copy of the file; [conn.commit()] writes the
      copy back, and leaving the [with] block gives the connection back. *)

From Stdlib Require Import List String Ascii ZArith Lia Bool Arith.
From Stdlib Require Import Permutation.
From Stdlib Require Import Floats.
Import ListNotations.

Local Open Scope string_scope.
Local Open Scope list_scope.
Local Open Scope nat_scope.

Set Implicit Arguments.

(* ================================================================= *)
(** ** Python strings *)

Module PyStr.

Definition code (c : ascii) : nat := nat_of_ascii c.

(** [c.isspace()] for a code point below 256. *)
Definition isspace (c : ascii) : bool :=
  let n := code c in
  ((9 <=? n) && (n <=? 13)) || ((28 <=? n) && (n <=? 32))
  || (n =? 133) || (n =? 160).

(** [c.lower()] for a code point below 256: the ASCII capitals and the
    Latin-1 capitals 0xC0..0xDE (0xD7, the multiplication sign, apart). *)
Definition lower_char (c : ascii) : ascii :=
  let n := code c in
  if ((65 <=? n) && (n <=? 90))
     || ((192 <=? n) && (n <=? 222) && negb (n =? 215))
  then ascii_of_nat (n + 32) else c.

Fixpoint lower (s : string) : string :=
  match s with
  | EmptyString => EmptyString
  | String c t => String (lower_char c) (lower t)
  end.

Fixpoint lstrip (s : string) : string :=
  match s with
  | EmptyString => EmptyString
  | String c t => if isspace c then lstrip t else s
  end.

Fixpoint rstrip (s : string) : string :=
  match s with
  | EmptyString => EmptyString
  | String c t =>
      match rstrip t with
      | EmptyString => if isspace c then EmptyString else String c EmptyString
      | t' => String c t'
      end
  end.

(** [s.strip()] *)
Definition strip (s : string) : string := rstrip (lstrip s).

(** [needle in hay] *)
Fixpoint contains (needle hay : string) : bool :=
  prefix needle hay
  || match hay with
     | EmptyString => false
     | String _ t => contains needle t
     end.

(** Truth value of a string: [if s:] *)
Definition nonempty (s : string) : bool :=
  match s with EmptyString => false | _ => true end.

(** [x in xs] for a list of strings. *)
Definition mem (x : string) (xs : list string) : bool :=
  existsb (String.eqb x) xs.

End PyStr.

(* ================================================================= *)
(** ** The driver resolver *)

(** [d] passes the filter of the list comprehension of [find_access_driver]. *)
Definition is_access_driver (d : string) : bool :=
  PyStr.contains "access" (PyStr.lower d) || PyStr.contains "mdb" (PyStr.lower d).

Definition preferred_drivers : list string :=
  [ "Microsoft Access Driver (*.mdb, *.accdb)";
    "Microsoft Access Driver (*.mdb)";
    "Driver do Microsoft Access (*.mdb)" ].

(** The [for driver in preferred_drivers: if driver in drivers: return driver]
    loop; [None] when it falls through. *)
Fixpoint first_preferred (preferred drivers : list string) : option string :=
  match preferred with
  | [] => None
  | driver :: rest =>
      if PyStr.mem driver drivers then Some driver
      else first_preferred rest drivers
  end.

(** [find_access_driver()], as a function of what [pyodbc.drivers()] lists. *)
Definition find_access_driver (available : list string) : option string :=
  let drivers := filter is_access_driver available in
  match first_preferred preferred_drivers drivers with
  | Some driver => Some driver
  | None =>
      match drivers with
      | d :: _ => Some d
      | [] => None
      end
  end.

(* ================================================================= *)
(** ** Exceptions, printed lines *)

Inductive exn : Type :=
| PyodbcError               (* pyodbc.Error other than IntegrityError *)
| IntegrityError            (* pyodbc.IntegrityError *)
| ValueError
| TypeError
| EOFError                  (* input() at the end of the console input *)
| SystemExit (status : Z).  (* sys.exit(status) *)

(** The classes named by the program's [except] clauses. *)
Inductive except_clause : Type :=
| ExceptException
| ExceptPyodbcError
| ExceptIntegrityError
| ExceptValueError.

(** [isinstance(e, cls)]: [SystemExit] is not an [Exception];
    [IntegrityError] is a [pyodbc.Error]. *)
Definition catches (c : except_clause) (e : exn) : bool :=
  match c, e with
  | _, SystemExit _ => false
  | ExceptException, _ => true
  | ExceptPyodbcError, (PyodbcError | IntegrityError) => true
  | ExceptIntegrityError, IntegrityError => true
  | ExceptValueError, ValueError => true
  | _, _ => false
  end.

Inductive pyval : Type :=
| VStr (s : string)
| VInt (z : Z)
| VFloat (x : float)
| VExn (e : exn)
| VPath (relative : string).   (* os.path.abspath(relative) *)

(** What the program writes: [print] of a literal, [print] of an f-string
    (its text and the values of its fields, in order), and the prompts of
    [input] and [getpass.getpass]. *)
Inductive line : Type :=
| Print (text : string)
| Printf (template : string) (args : list pyval)
| Prompt (text : string)
| Getpass (text : string).

(* ================================================================= *)
(** ** The database file *)

Module Users.
Record row : Type := { id : Z; username : string; password : string }.
End Users.

Module Students.
Record row : Type :=
  { id : Z; student_id : string; name : string; score : float }.
End Students.

(** A table: its rows in insertion order and the AUTOINCREMENT counter. *)
Record table (R : Type) : Type := { rows : list R; next_id : Z }.

Record database : Type :=
  { tbl_Users : option (table Users.row);
    tbl_Students : option (table Students.row) }.

Definition empty_database : database :=
  {| tbl_Users := None; tbl_Students := None |}.

Definition new_table (R : Type) : table R := {| rows := []; next_id := 1 |}.

(** The WHERE clauses of the SELECTs on Students. *)
Inductive where_clause : Type :=
| Everything
| StudentIdIs (student_id : string)    (* WHERE student_id = ? *)
| NameLike (pattern : string)          (* WHERE name LIKE ? *)
| ScoreGe (pass_mark : float)          (* WHERE score >= ? *)
| ScoreLt (pass_mark : float).         (* WHERE score < ? *)

(** The statements of the program, indexed by the type of a fetched row. *)
Inductive stmt : Type -> Type :=
| ProbeTable (table_name : string) : stmt unit
| CreateUsers : stmt unit
| CreateStudents : stmt unit
| InsertUser (username password : string) : stmt unit
| SelectUserId (username password : string) : stmt Z
| InsertStudent (student_id name : string) (score : float) : stmt unit
| SelectStudents (w : where_clause) : stmt Students.row
| UpdateStudent (name : string) (score : float) (student_id : string) : stmt unit
| DeleteStudent (student_id : string) : stmt unit
| CountStudents : stmt Z
| AvgScore : stmt (option float).

Record cursor (R : Type) : Type := { fetched : list R; rowcount : Z }.

Definition fetchone {R} (cur : cursor R) : option R := hd_error (fetched cur).
Definition fetchall {R} (cur : cursor R) : list R := fetched cur.

Module Sql.

(** [s LIKE pattern], with the wildcards [%] and [_]. *)
Fixpoint like (pattern s : string) {struct pattern} : bool :=
  match pattern with
  | EmptyString => negb (PyStr.nonempty s)
  | String c p =>
      if Ascii.eqb c "%" then
        (fix skip (s : string) : bool :=
           like p s
           || match s with
              | EmptyString => false
              | String _ s' => skip s'
              end) s
      else
        match s with
        | EmptyString => false
        | String d s' => (Ascii.eqb c "_" || Ascii.eqb c d) && like p s'
        end
  end.

Definition holds (w : where_clause) (r : Students.row) : bool :=
  match w with
  | Everything => true
  | StudentIdIs sid => String.eqb (Students.student_id r) sid
  | NameLike pattern => like pattern (Students.name r)
  | ScoreGe pass_mark => PrimFloat.leb pass_mark (Students.score r)
  | ScoreLt pass_mark => PrimFloat.ltb (Students.score r) pass_mark
  end.

Definition user_matches (username password : string) (r : Users.row) : bool :=
  String.eqb (Users.username r) username
  && String.eqb (Users.password r) password.

Definition float_of_nat (n : nat) : float :=
  PrimFloat.of_uint63 (Uint63.of_Z (Z.of_nat n)).

(** AVG(score): NULL over no rows, else the sum over the count. *)
Definition avg (xs : list float) : option float :=
  match xs with
  | [] => None
  | _ => Some (PrimFloat.div (fold_left PrimFloat.add xs PrimFloat.zero)
                             (float_of_nat (List.length xs)))
  end.

Definition no_rows {R} (n : Z) : cursor R := {| fetched := []; rowcount := n |}.
Definition result {R} (xs : list R) : cursor R :=
  {| fetched := xs; rowcount := (-1)%Z |}.

Definition on_Users {A} (d : database)
  (k : table Users.row -> exn + A) : exn + A :=
  match tbl_Users d with Some t => k t | None => inl PyodbcError end.

Definition on_Students {A} (d : database)
  (k : table Students.row -> exn + A) : exn + A :=
  match tbl_Students d with Some t => k t | None => inl PyodbcError end.

Definition set_Users (d : database) (t : table Users.row) : database :=
  {| tbl_Users := Some t; tbl_Students := tbl_Students d |}.

Definition set_Students (d : database) (t : table Students.row) : database :=
  {| tbl_Users := tbl_Users d; tbl_Students := Some t |}.

Definition table_present (d : database) (table_name : string) : bool :=
  (String.eqb table_name "Users"
   && match tbl_Users d with Some _ => true | None => false end)
  || (String.eqb table_name "Students"
      && match tbl_Students d with Some _ => true | None => false end).

Definition update_row (name : string) (score : float) (sid : string)
  (r : Students.row) : Students.row :=
  if String.eqb (Students.student_id r) sid
  then {| Students.id := Students.id r;
          Students.student_id := Students.student_id r;
          Students.name := name;
          Students.score := score |}
  else r.

Definition count_where {R} (p : R -> bool) (xs : list R) : Z :=
  Z.of_nat (List.length (filter p xs)).

(** One statement on the working copy [d] of a connection: the exception
    it raises, or its cursor and the working copy after it. *)
Definition run {R} (q : stmt R) (d : database) : exn + (cursor R * database) :=
  match q in stmt R return exn + (cursor R * database) with
  | ProbeTable table_name =>
      if table_present d table_name then inr (no_rows (-1), d)
      else inl PyodbcError
  | CreateUsers =>
      match tbl_Users d with
      | Some _ => inl PyodbcError
      | None => inr (no_rows (-1), set_Users d (new_table _))
      end
  | CreateStudents =>
      match tbl_Students d with
      | Some _ => inl PyodbcError
      | None => inr (no_rows (-1), set_Students d (new_table _))
      end
  | InsertUser username password =>
      on_Users d (fun t =>
        if existsb (fun r => String.eqb (Users.username r) username) (rows t)
        then inl IntegrityError
        else
          let r := {| Users.id := next_id t;
                      Users.username := username;
                      Users.password := password |} in
          inr (no_rows 1,
               set_Users d {| rows := rows t ++ [r];
                              next_id := (next_id t + 1)%Z |}))
  | SelectUserId username password =>
      on_Users d (fun t =>
        inr (result (map Users.id
                       (filter (user_matches username password) (rows t))),
             d))
  | InsertStudent student_id name score =>
      on_Students d (fun t =>
        if existsb (fun r => String.eqb (Students.student_id r) student_id)
             (rows t)
        then inl IntegrityError
        else
          let r := {| Students.id := next_id t;
                      Students.student_id := student_id;
                      Students.name := name;
                      Students.score := score |} in
          inr (no_rows 1,
               set_Students d {| rows := rows t ++ [r];
                                 next_id := (next_id t + 1)%Z |}))
  | SelectStudents w =>
      on_Students d (fun t => inr (result (filter (holds w) (rows t)), d))
  | UpdateStudent name score sid =>
      on_Students d (fun t =>
        inr (no_rows (count_where (holds (StudentIdIs sid)) (rows t)),
             set_Students d
               {| rows := map (update_row name score sid) (rows t);
                  next_id := next_id t |}))
  | DeleteStudent sid =>
      on_Students d (fun t =>
        inr (no_rows (count_where (holds (StudentIdIs sid)) (rows t)),
             set_Students d
               {| rows := filter (fun r => negb (holds (StudentIdIs sid) r))
                            (rows t);
                  next_id := next_id t |}))
  | CountStudents =>
      on_Students d (fun t => inr (result [Z.of_nat (List.length (rows t))], d))
  | AvgScore =>
      on_Students d (fun t =>
        inr (result [avg (map Students.score (rows t))], d))
  end.

End Sql.

(* ================================================================= *)
(** ** The world of a run, and the monad of the program *)

(** One call of the program into pyodbc. *)
Inductive dbcall : Type :=
| Connect (driver : string)              (* pyodbc.connect(conn_str) *)
| Execute {R : Type} (q : stmt R)        (* cur.execute(...) *)
| Commit.                                (* conn.commit() *)

Record world : Type :=
  { host_drivers : list string;   (* what pyodbc.drivers() lists *)
    connects : list bool;         (* whether the coming pyodbc.connect calls
                                     open, in order; they open once the list
                                     is used up *)
    file : option database;       (* the database file; None: no such file *)
    session : option database;    (* working copy of the open connection *)
    stdin : list string;          (* the lines the user will type *)
    console : list line;          (* what was written, oldest first *)
    calls : list dbcall }.        (* the calls into pyodbc, oldest first *)

Inductive outcome (A : Type) : Type :=
| Returned (a : A)
| Raised (e : exn)
| OutOfFuel.

Arguments Returned {A} a.
Arguments Raised {A} e.
Arguments OutOfFuel {A}.

Definition M (A : Type) : Type := world -> outcome A * world.

Definition ret {A} (a : A) : M A := fun w => (Returned a, w).

Definition bind {A B} (m : M A) (k : A -> M B) : M B :=
  fun w =>
    match m w with
    | (Returned a, w') => k a w'
    | (Raised e, w') => (Raised e, w')
    | (OutOfFuel, w') => (OutOfFuel, w')
    end.

Definition raise {A} (e : exn) : M A := fun w => (Raised e, w).

Declare Scope py_scope.
Delimit Scope py_scope with py.
Notation "x <- m ;; k" := (bind m (fun x => k))
  (at level 61, m at next level, right associativity) : py_scope.
Notation "m ;; k" := (bind m (fun _ => k))
  (at level 61, right associativity) : py_scope.
Local Open Scope py_scope.

Definition set_console (w : world) (c : list line) : world :=
  {| host_drivers := host_drivers w; connects := connects w; file := file w;
     session := session w; stdin := stdin w; console := c; calls := calls w |}.

Definition set_stdin (w : world) (i : list string) : world :=
  {| host_drivers := host_drivers w; connects := connects w; file := file w;
     session := session w; stdin := i; console := console w; calls := calls w |}.

Definition set_session (w : world) (s : option database) : world :=
  {| host_drivers := host_drivers w; connects := connects w; file := file w;
     session := s; stdin := stdin w; console := console w; calls := calls w |}.

Definition set_file (w : world) (f : option database) : world :=
  {| host_drivers := host_drivers w; connects := connects w; file := f;
     session := session w; stdin := stdin w; console := console w;
     calls := calls w |}.

Definition set_connects (w : world) (l : list bool) : world :=
  {| host_drivers := host_drivers w; connects := l; file := file w;
     session := session w; stdin := stdin w; console := console w;
     calls := calls w |}.

Definition log (w : world) (c : dbcall) : world :=
  {| host_drivers := host_drivers w; connects := connects w; file := file w;
     session := session w; stdin := stdin w; console := console w;
     calls := calls w ++ [c] |}.

(** [print(...)] *)
Definition emit (l : line) : M unit :=
  fun w => (Returned tt, set_console w (console w ++ [l])).

Definition print (text : string) : M unit := emit (Print text).
Definition printf (template : string) (args : list pyval) : M unit :=
  emit (Printf template args).

Definition readline : M string :=
  fun w =>
    match stdin w with
    | [] => (Raised EOFError, w)
    | l :: rest => (Returned l, set_stdin w rest)
    end.

(** [input(prompt)] and [getpass.getpass(prompt)] *)
Definition input (prompt : string) : M string := emit (Prompt prompt) ;; readline.
Definition getpass (prompt : string) : M string := emit (Getpass prompt) ;; readline.

(** [try: body except c1 as e: h1 e except c2 as e: h2 e ...] *)
Definition try_ {A} (body : M A) (handlers : list (except_clause * (exn -> M A)))
  : M A :=
  fun w =>
    match body w with
    | (Raised e, w') =>
        match find (fun h => catches (fst h) e) handlers with
        | Some h => snd h e w'
        | None => (Raised e, w')
        end
    | r => r
    end.

(** [for x in xs: body x] *)
Fixpoint for_each {A} (xs : list A) (body : A -> M unit) : M unit :=
  match xs with
  | [] => ret tt
  | x :: rest => body x ;; for_each rest body
  end.

(** *** pyodbc *)

(** [pyodbc.connect(conn_str)]: the next entry of [connects] decides; an
    opening connection on a missing file creates it, without tables. *)
Definition connect (driver : string) : M unit :=
  fun w =>
    let w := log w (Connect driver) in
    match connects w with
    | false :: rest => (Raised PyodbcError, set_connects w rest)
    | l =>
        let d := match file w with Some d => d | None => empty_database end in
        (Returned tt,
         set_session (set_file (set_connects w (tl l)) (Some d)) (Some d))
    end.

(** [cur.execute(q)] on the open connection. *)
Definition execute {R} (q : stmt R) : M (cursor R) :=
  fun w =>
    let w := log w (Execute q) in
    match session w with
    | None => (Raised PyodbcError, w)
    | Some d =>
        match Sql.run q d with
        | inl e => (Raised e, w)
        | inr (cur, d') => (Returned cur, set_session w (Some d'))
        end
    end.

(** [conn.commit()]: the working copy becomes the file. *)
Definition commit : M unit :=
  fun w =>
    let w := log w Commit in
    match session w with
    | None => (Raised PyodbcError, w)
    | Some d => (Returned tt, set_file w (Some d))
    end.

(** [with acquire as conn: body]: on every way out of the body the
    connection is given back, and what it did not commit is not in the file. *)
Definition with_ {A} (acquire : M unit) (body : M A) : M A :=
  acquire ;;
  fun w =>
    match body w with
    | (r, w') => (r, set_session w' None)
    end.

(* ================================================================= *)
(** ** The program *)

Definition ACCESS_DB_PATH : string := "studenst.accdb".

Definition double_quote : string := String (ascii_of_nat 34) EmptyString.

(** [get_connection()].  A driver that [find_access_driver] returns
    contains "access" or "mdb" and is not the empty string
    ([find_access_driver_nonempty]), so that [not driver] is [driver is None]. *)
Definition get_connection : M unit :=
  fun w =>
    match find_access_driver (host_drivers w) with
    | None =>
        (print "\nERROR: Microsoft Access ODBC Driver not found!" ;;
         print "\nPlease install Microsoft Access Database Engine:" ;;
         print "Download from: https://www.microsoft.com/en-us/download/details.aspx?id=54920" ;;
         print "\nIMPORTANT: Install the version (32-bit or 64-bit) that matches your Python installation." ;;
         print ("To check your Python version, run: python -c " ++ double_quote
                ++ "import platform; print(platform.architecture()[0])"
                ++ double_quote) ;;
         raise (SystemExit 1)) w
    | Some driver =>
        let db_path := VPath ACCESS_DB_PATH in
        ((match file w with
          | None =>
              printf "\nWARNING: Database file not found at: {db_path}" [db_path] ;;
              print "Creating new database file..."
          | Some _ => ret tt
          end) ;;
         try_ (connect driver)
           [ (ExceptPyodbcError, fun e =>
                printf "\nERROR connecting to database: {e}" [VExn e] ;;
                printf "Driver used: {driver}" [VStr driver] ;;
                printf "Database path: {db_path}" [db_path] ;;
                raise e) ]) w
    end.

(** [table_exists(cursor, table_name)] *)
Definition table_exists (table_name : string) : M bool :=
  try_ (execute (ProbeTable table_name) ;; ret true)
    [ (ExceptPyodbcError, fun _ => ret false) ].

(** [init_db()] *)
Definition init_db : M unit :=
  try_
    (with_ get_connection
       (users <- table_exists "Users" ;;
        (if negb users
         then execute CreateUsers ;; print "Created Users table."
         else ret tt) ;;
        students <- table_exists "Students" ;;
        (if negb students
         then execute CreateStudents ;; print "Created Students table."
         else ret tt) ;;
        commit))
    [ (ExceptException, fun e =>
         printf "Error initializing database: {e}" [VExn e] ;;
         raise e) ].

(** *** Accounts *)

(** [register()] *)
Definition register : M unit :=
  u <- input "Enter new username: " ;;
  let username := PyStr.strip u in
  p <- getpass "Enter new password: " ;;
  let password := PyStr.strip p in
  if negb (PyStr.nonempty username) || negb (PyStr.nonempty password)
  then print "Username and password cannot be empty."
  else
    try_
      (with_ get_connection
         (execute (InsertUser username password) ;;
          commit) ;;
       print "User registered successfully.")
      [ (ExceptIntegrityError, fun _ => print "Username already exists.");
        (ExceptException, fun e =>
           printf "Error during registration: {e}" [VExn e]) ].

(** [login()] *)
Definition login : M bool :=
  u <- input "Username: " ;;
  let username := PyStr.strip u in
  p <- getpass "Password: " ;;
  let password := PyStr.strip p in
  try_
    (with_ get_connection
       (cur <- execute (SelectUserId username password) ;;
        match fetchone cur with
        | Some _ =>
            printf "Welcome, {username}!" [VStr username] ;;
            ret true
        | None =>
            print "Invalid username or password." ;;
            ret false
        end))
    [ (ExceptException, fun e =>
         printf "Error during login: {e}" [VExn e] ;;
         ret false) ].

Section StudentOperations.

(** The builtin [float(s)]: the number a text denotes, or [None] when
    Python raises [ValueError]. *)
Variable py_float : string -> option float.

Definition float_ (s : string) : M float :=
  match py_float s with
  | Some x => ret x
  | None => raise ValueError
  end.

(** [add_student()]; [None] stands for the early [return]. *)
Definition add_student : M unit :=
  i <- input "Student ID: " ;;
  let student_id := PyStr.strip i in
  n <- input "Name: " ;;
  let name := PyStr.strip n in
  parsed <- try_ (s <- input "Score (0-100): " ;;
                  x <- float_ (PyStr.strip s) ;;
                  ret (Some x))
              [ (ExceptValueError, fun _ => print "Invalid score." ;; ret None) ] ;;
  match parsed with
  | None => ret tt
  | Some score =>
      try_
        (with_ get_connection
           (execute (InsertStudent student_id name score) ;;
            commit) ;;
         print "Student added.")
        [ (ExceptIntegrityError, fun _ => print "Student ID already exists.");
          (ExceptException, fun e =>
             printf "Error adding student: {e}" [VExn e]) ]
  end.

Definition dashes (n : nat) : string := String.concat "" (repeat "-" n).

(** [show_all_students()] *)
Definition show_all_students : M unit :=
  try_
    (with_ get_connection
       (cur <- execute (SelectStudents Everything) ;;
        let rows := fetchall cur in
        match rows with
        | [] => print "No students found."
        | _ =>
            printf "{'DB_ID':<6} {'StuID':<10} {'Name':<25} {'Score':>6}"
              [VStr "DB_ID"; VStr "StuID"; VStr "Name"; VStr "Score"] ;;
            print (dashes 55) ;;
            for_each rows (fun r =>
              printf "{r.id:<6} {r.student_id:<10} {r.name:<25} {r.score:>6.2f}"
                [VInt (Students.id r); VStr (Students.student_id r);
                 VStr (Students.name r); VFloat (Students.score r)])
        end))
    [ (ExceptException, fun e =>
         printf "Error fetching students: {e}" [VExn e]) ].

(** [search_student_by_id()] *)
Definition search_student_by_id : M unit :=
  i <- input "Enter Student ID to search: " ;;
  let student_id := PyStr.strip i in
  try_
    (with_ get_connection
       (cur <- execute (SelectStudents (StudentIdIs student_id)) ;;
        match fetchone cur with
        | Some row =>
            printf "Found: ID={row.student_id}, Name={row.name}, Score={row.score}"
              [VStr (Students.student_id row); VStr (Students.name row);
               VFloat (Students.score row)]
        | None => print "Student not found."
        end))
    [ (ExceptException, fun e =>
         printf "Error searching student: {e}" [VExn e]) ].

(** The line the three listings print for a row. *)
Definition print_row (r : Students.row) : M unit :=
  printf "ID={r.student_id}, Name={r.name}, Score={r.score}"
    [VStr (Students.student_id r); VStr (Students.name r);
     VFloat (Students.score r)].

(** [search_students_by_name()] *)
Definition search_students_by_name : M unit :=
  n <- input "Enter (part of) name to search: " ;;
  let name := PyStr.strip n in
  try_
    (with_ get_connection
       (cur <- execute (SelectStudents (NameLike ("%" ++ name ++ "%"))) ;;
        let rows := fetchall cur in
        match rows with
        | [] => print "No matching students."
        | _ => for_each rows print_row
        end))
    [ (ExceptException, fun e =>
         printf "Error searching students: {e}" [VExn e]) ].

(** [update_student()] *)
Definition update_student : M unit :=
  i <- input "Enter Student ID to update: " ;;
  let student_id := PyStr.strip i in
  try_
    (with_ get_connection
       (cur <- execute (SelectStudents (StudentIdIs student_id)) ;;
        match fetchone cur with
        | None => print "Student not found."
        | Some row =>
            printf "Current Name: {row.name}, Score: {row.score}"
              [VStr (Students.name row); VFloat (Students.score row)] ;;
            n <- input "New name (leave blank to keep): " ;;
            let new_name := PyStr.strip n in
            s <- input "New score (leave blank to keep): " ;;
            let new_score_input := PyStr.strip s in
            let name_final :=
              if PyStr.nonempty new_name then new_name else Students.name row in
            score_final <-
              (if PyStr.nonempty new_score_input
               then try_ (float_ new_score_input)
                      [ (ExceptValueError, fun _ =>
                           print "Invalid score. Keeping old value." ;;
                           ret (Students.score row)) ]
               else ret (Students.score row)) ;;
            execute (UpdateStudent name_final score_final student_id) ;;
            commit ;;
            print "Student updated."
        end))
    [ (ExceptException, fun e =>
         printf "Error updating student: {e}" [VExn e]) ].

(** [delete_student()] *)
Definition delete_student : M unit :=
  i <- input "Enter Student ID to delete: " ;;
  let student_id := PyStr.strip i in
  try_
    (with_ get_connection
       (cur <- execute (DeleteStudent student_id) ;;
        if Z.eqb (rowcount cur) 0
        then print "Student not found."
        else commit ;; print "Student deleted."))
    [ (ExceptException, fun e =>
         printf "Error deleting student: {e}" [VExn e]) ].

(** [cur.fetchone()[0]] *)
Definition first_column {R} (cur : cursor R) : M R :=
  match fetchone cur with
  | Some v => ret v
  | None => raise TypeError
  end.

(** [count_students()] *)
Definition count_students : M unit :=
  try_
    (with_ get_connection
       (cur <- execute CountStudents ;;
        count <- first_column cur ;;
        printf "Total students: {count}" [VInt count]))
    [ (ExceptException, fun e =>
         printf "Error counting students: {e}" [VExn e]) ].

(** [calculate_average_score()] *)
Definition calculate_average_score : M unit :=
  try_
    (with_ get_connection
       (cur <- execute AvgScore ;;
        avg <- first_column cur ;;
        match avg with
        | None => print "No students to calculate average."
        | Some avg => printf "Average score: {avg:.2f}" [VFloat avg]
        end))
    [ (ExceptException, fun e =>
         printf "Error calculating average score: {e}" [VExn e]) ].

(** [show_passed_students(pass_mark=50.0)] *)
Definition show_passed_students (pass_mark : float) : M unit :=
  try_
    (with_ get_connection
       (cur <- execute (SelectStudents (ScoreGe pass_mark)) ;;
        let rows := fetchall cur in
        match rows with
        | [] => print "No passed students."
        | _ => print "Passed students:" ;; for_each rows print_row
        end))
    [ (ExceptException, fun e =>
         printf "Error fetching passed students: {e}" [VExn e]) ].

(** [show_failed_students(pass_mark=50.0)] *)
Definition show_failed_students (pass_mark : float) : M unit :=
  try_
    (with_ get_connection
       (cur <- execute (SelectStudents (ScoreLt pass_mark)) ;;
        let rows := fetchall cur in
        match rows with
        | [] => print "No failed students."
        | _ => print "Failed students:" ;; for_each rows print_row
        end))
    [ (ExceptException, fun e =>
         printf "Error fetching failed students: {e}" [VExn e]) ].

(** *** Menus *)

Definition print_main_menu : M unit :=
  print "\n=== Student Management System ===" ;;
  print "1. Register" ;;
  print "2. Login" ;;
  print "3. Exit".

Definition print_student_menu : M unit :=
  print "\n=== Student Operations ===" ;;
  print "1. Add student" ;;
  print "2. Show all students" ;;
  print "3. Search student by ID" ;;
  print "4. Search students by name" ;;
  print "5. Update student" ;;
  print "6. Delete student" ;;
  print "7. Count students" ;;
  print "8. Calculate average score" ;;
  print "9. Show passed students" ;;
  print "10. Show failed students" ;;
  print "11. Exit".

Definition default_pass_mark : float := 50%float.

(** What one turn of [student_menu_loop] does with a choice; [true] is
    the [break]. *)
Definition student_menu_choice (choice : string) : M bool :=
  if String.eqb choice "1" then add_student ;; ret false
  else if String.eqb choice "2" then show_all_students ;; ret false
  else if String.eqb choice "3" then search_student_by_id ;; ret false
  else if String.eqb choice "4" then search_students_by_name ;; ret false
  else if String.eqb choice "5" then update_student ;; ret false
  else if String.eqb choice "6" then delete_student ;; ret false
  else if String.eqb choice "7" then count_students ;; ret false
  else if String.eqb choice "8" then calculate_average_score ;; ret false
  else if String.eqb choice "9" then
    show_passed_students default_pass_mark ;; ret false
  else if String.eqb choice "10" then
    show_failed_students default_pass_mark ;; ret false
  else if String.eqb choice "11" then print "Goodbye!" ;; ret true
  else print "Invalid choice. Try again." ;; ret false.

(** [student_menu_loop()]: [fuel] bounds the turns of the [while True]. *)
Fixpoint student_menu_loop (fuel : nat) : M unit :=
  match fuel with
  | O => fun w => (OutOfFuel, w)
  | S fuel' =>
      print_student_menu ;;
      c <- input "Choose an option (1-11): " ;;
      stop <- student_menu_choice (PyStr.strip c) ;;
      if stop : bool then ret tt else student_menu_loop fuel'
  end.

(** The [while True] of [main()]. *)
Fixpoint main_loop (fuel : nat) : M unit :=
  match fuel with
  | O => fun w => (OutOfFuel, w)
  | S fuel' =>
      print_main_menu ;;
      c <- input "Choose an option (1-3): " ;;
      let choice := PyStr.strip c in
      (if String.eqb choice "1" then register
       else if String.eqb choice "2" then
         (ok <- login ;;
          if ok : bool then student_menu_loop fuel' else ret tt)
       else if String.eqb choice "3" then
         print "Exiting program." ;; raise (SystemExit 0)
       else print "Invalid choice. Try again.") ;;
      main_loop fuel'
  end.

(** [main()] *)
Definition main (fuel : nat) : M unit :=
  init_db ;; main_loop fuel.

End StudentOperations.

(* ================================================================= *)
(** ** Vocabulary of the statements *)

(** The coming [n] calls of [pyodbc.connect] open. *)
Fixpoint all_open (n : nat) (l : list bool) : bool :=
  match n, l with
  | O, _ => true
  | S _, [] => true
  | S n', b :: rest => b && all_open n' rest
  end.

(** A host on which the next [n] operations reach the database [d]: a
    driver is installed, the file holds [d], the connections open. *)
Record online (n : nat) (w : world) (driver : string) (d : database) : Prop :=
  { online_driver : find_access_driver (host_drivers w) = Some driver;
    online_file : file w = Some d;
    online_opens : all_open n (connects w) = true }.

(** The world once [get_connection()] has returned on [w]. *)
Definition connected (w : world) (driver : string) (d : database) : world :=
  {| host_drivers := host_drivers w;
     connects := tl (connects w);
     file := Some d;
     session := Some d;
     stdin := stdin w;
     console := console w;
     calls := calls w ++ [Connect driver] |}.

(** The rows of a listing, as [print_row] writes them. *)
Definition row_line (r : Students.row) : line :=
  Printf "ID={r.student_id}, Name={r.name}, Score={r.score}"
    [VStr (Students.student_id r); VStr (Students.name r);
     VFloat (Students.score r)].

Definition has_student_id (sid : string) (r : Students.row) : bool :=
  String.eqb (Students.student_id r) sid.

(** The UNIQUE constraints of the two tables. *)
Definition unique_usernames (t : table Users.row) : Prop :=
  NoDup (map Users.username (rows t)).

Definition unique_student_ids (t : table Students.row) : Prop :=
  NoDup (map Students.student_id (rows t)).

(** The database keeps both constraints. *)
Definition well_formed (d : database) : Prop :=
  (forall t, tbl_Users d = Some t -> unique_usernames t)
  /\ (forall t, tbl_Students d = Some t -> unique_student_ids t).

(* ================================================================= *)
(** ** A reader of short decimal literals

    [float_literal] is an instance of [py_float] for running the program on
    concrete inputs: it reads [nan], [inf], [infinity] and decimal literals
    of at most 15 digits with an optional sign and an optional point, on
    which it agrees with [float()], and refuses every other text. *)

Module Literal.

Definition digit (c : ascii) : option Z :=
  let n := nat_of_ascii c in
  if (48 <=? n) && (n <=? 57) then Some (Z.of_nat (n - 48)) else None.

(** Digits of [s] with at most one point: the integer they spell without
    the point, the number of digits, the number of digits after the point. *)
Fixpoint scan (s : string) (seen_point : bool) (m : Z) (n k : nat)
  : option (Z * nat * nat) :=
  match s with
  | EmptyString => Some (m, n, k)
  | String c t =>
      match digit c with
      | Some v =>
          scan t seen_point (10 * m + v)%Z (S n) (if seen_point then S k else k)
      | None =>
          if Ascii.eqb c "." && negb seen_point then scan t true m n k
          else None
      end
  end.

Definition of_Z (z : Z) : float := PrimFloat.of_uint63 (Uint63.of_Z z).

Definition unsigned (s : string) : option float :=
  let l := PyStr.lower s in
  if String.eqb l "nan" then Some PrimFloat.nan
  else if String.eqb l "inf" || String.eqb l "infinity"
  then Some PrimFloat.infinity
  else
    match scan s false 0%Z 0 0 with
    | Some (m, n, k) =>
        if (1 <=? n) && (n <=? 15)
        then Some (PrimFloat.div (of_Z m) (of_Z (10 ^ Z.of_nat k)))
        else None
    | None => None
    end.

Definition float_literal (s : string) : option float :=
  match s with
  | String c t =>
      if Ascii.eqb c "-" then option_map PrimFloat.opp (unsigned t)
      else if Ascii.eqb c "+" then unsigned t
      else unsigned s
  | EmptyString => None
  end.

End Literal.

(** The world after an operation that connected once on [w]: the file
    holds [d], [typed] lines were read, [printed] was written and [called]
    was asked of pyodbc. *)
Definition after (w : world) (d : database) (typed : nat)
  (printed : list line) (called : list dbcall) : world :=
  {| host_drivers := host_drivers w;
     connects := tl (connects w);
     file := Some d;
     session := None;
     stdin := skipn typed (stdin w);
     console := console w ++ printed;
     calls := calls w ++ called |}.

(** What [get_connection()] prints before [sys.exit(1)]. *)
Definition driver_diagnostic : list line :=
  [ Print "\nERROR: Microsoft Access ODBC Driver not found!";
    Print "\nPlease install Microsoft Access Database Engine:";
    Print "Download from: https://www.microsoft.com/en-us/download/details.aspx?id=54920";
    Print "\nIMPORTANT: Install the version (32-bit or 64-bit) that matches your Python installation.";
    Print ("To check your Python version, run: python -c " ++ double_quote
           ++ "import platform; print(platform.architecture()[0])"
           ++ double_quote) ].

(** A connection that does not open: [get_connection()] reports it and
    raises again. *)
Definition connect_report (driver : string) : list line :=
  [ Printf "\nERROR connecting to database: {e}" [VExn PyodbcError];
    Printf "Driver used: {driver}" [VStr driver];
    Printf "Database path: {db_path}" [VPath ACCESS_DB_PATH] ].

Definition refused (w : world) (driver : string) (printed : list line) : world :=
  {| host_drivers := host_drivers w;
     connects := tl (connects w);
     file := file w;
     session := session w;
     stdin := stdin w;
     console := console w ++ printed;
     calls := calls w ++ [Connect driver] |}.

(* ================================================================= *)
(** ** Concrete hosts, for running the program *)

Definition access_driver : string := "Microsoft Access Driver (*.mdb, *.accdb)".

(** A host with the Access driver whose file holds [d], on which every
    connection opens and the user types [typed]. *)
Definition host (d : database) (typed : list string) : world :=
  {| host_drivers := ["SQL Server"; access_driver];
     connects := [];
     file := Some d;
     session := None;
     stdin := typed;
     console := [];
     calls := [] |}.

Definition a_student (id : Z) (student_id name : string) (score : float)
  : Students.row :=
  {| Students.id := id; Students.student_id := student_id;
     Students.name := name; Students.score := score |}.

Definition an_account (id : Z) (username password : string) : Users.row :=
  {| Users.id := id; Users.username := username; Users.password := password |}.

(** The database with the given accounts and students. *)
Definition holding (users : list Users.row) (students : list Students.row)
  : database :=
  {| tbl_Users :=
       Some {| rows := users; next_id := Z.of_nat (List.length users) + 1 |};
     tbl_Students :=
       Some {| rows := students;
               next_id := Z.of_nat (List.length students) + 1 |} |}.

Definition ann_and_bob : list Students.row :=
  [ a_student 1 "S1" "Ann" 60%float; a_student 2 "S2" "Bob" 80%float ].

(** The lines of a console that come from f-strings. *)
Definition formatted (c : list line) : list line :=
  filter (fun l => match l with Printf _ _ => true | _ => false end) c.

(** What a listing of [rs] prints: [none] when there is no row, else the
    [heading] and a line for each row. *)
Definition listing (none heading : string) (rs : list Students.row)
  : list line :=
  match rs with
  | [] => [ Print none ]
  | _ => Print heading :: map row_line rs
  end.


(* ================================================================= *)
(** ** What a computation may do *)

Definition driver_installed (w : world) : Prop :=
  find_access_driver (host_drivers w) <> None.

(** [m], run on [w], leaves the host's drivers alone, reads the console
    input forward, stops within its fuel, and raises, if it raises, an
    exception that [allowed] admits; [EOFError] only once the console input
    is used up. *)
Definition behaves (allowed : exn -> Prop) {A} (m : M A) (w : world) : Prop :=
  forall r w',
    m w = (r, w') ->
    host_drivers w' = host_drivers w
    /\ List.length (stdin w') <= List.length (stdin w)
    /\ match r with
       | Returned _ => True
       | Raised e => allowed e /\ (e = EOFError -> stdin w' = [])
       | OutOfFuel => False
       end.

Definition raises_only (allowed : exn -> Prop) {A} (m : M A) : Prop :=
  forall w, driver_installed w -> behaves allowed m w.

(** The exceptions an [except Exception] clause catches. *)
Definition exception (e : exn) : Prop := catches ExceptException e = true.

Definition only_eof (e : exn) : Prop := e = EOFError.

(** The exceptions of pyodbc. *)
Definition pyodbc_error (e : exn) : Prop :=
  e = PyodbcError \/ e = IntegrityError.

Definition nothing (e : exn) : Prop := False.

(** [m] writes, after what the console shows, lines that are all [ok]. *)
Definition prints (ok : line -> Prop) {A} (m : M A) : Prop :=
  forall w r w',
    m w = (r, w') ->
    exists printed, console w' = console w ++ printed /\ Forall ok printed.

Definition not_a_menu (l : line) : Prop :=
  l <> Print "\n=== Student Management System ==="
  /\ l <> Print "\n=== Student Operations ===".

(** How a run of the top-level loop ends: by the choice of Exit, or at the
    end of the console input. *)
Definition ends_by_exit_or_eof (r : outcome unit) (w' : world) : Prop :=
  (r = Raised (SystemExit 0)
   /\ exists c, console w'
                = c ++ [ Prompt "Choose an option (1-3): ";
                         Print "Exiting program." ])
  \/ (r = Raised EOFError /\ stdin w' = []).

(** A host whose driver is installed and whose first connection fails. *)
Definition unreachable_host (typed : list string) : world :=
  {| host_drivers := [access_driver];
     connects := [false];
     file := Some (holding [] []);
     session := None;
     stdin := typed;
     console := [];
     calls := [] |}.


(* ================================================================= *)
(** ** Vocabulary of the properties of the whole program *)

(** [m] keeps [Inv]: from a world where it holds, every way out of [m]
    ends in a world where it holds. *)
Definition invariant (Inv : world -> Prop) {A} (m : M A) : Prop :=
  forall w r w', Inv w -> m w = (r, w') -> Inv w'.

Definition is_commit (c : dbcall) : bool :=
  match c with Commit => true | _ => false end.

(** How many times [conn.commit()] was called. *)
Definition commits (w : world) : nat :=
  List.length (filter is_commit (calls w)).

(** The file holds [d] and [conn.commit()] was called [n] times. *)
Definition untouched (d : database) (n : nat) (w : world) : Prop :=
  file w = Some d /\ commits w = n.

(** The file and the working copy of the open connection keep the UNIQUE
    constraints. *)
Definition constrained (w : world) : Prop :=
  (forall d, file w = Some d -> well_formed d)
  /\ (forall d, session w = Some d -> well_formed d).

(** The database once [init_db] has run on [d]: the missing tables are
    there, empty. *)
Definition with_tables (d : database) : database :=
  {| tbl_Users :=
       Some (match tbl_Users d with Some t => t | None => new_table _ end);
     tbl_Students :=
       Some (match tbl_Students d with Some t => t | None => new_table _ end) |}.

Definition init_db_printed (d : database) : list line :=
  (match tbl_Users d with
   | Some _ => []
   | None => [ Print "Created Users table." ]
   end)
  ++ (match tbl_Students d with
      | Some _ => []
      | None => [ Print "Created Students table." ]
      end).

Definition init_db_calls (driver : string) (d : database) : list dbcall :=
  [ Connect driver; Execute (ProbeTable "Users") ]
  ++ (match tbl_Users d with Some _ => [] | None => [ Execute CreateUsers ] end)
  ++ [ Execute (ProbeTable "Students") ]
  ++ (match tbl_Students d with
      | Some _ => []
      | None => [ Execute CreateStudents ]
      end)
  ++ [ Commit ].

(** The line [show_all_students] prints for a row. *)
Definition table_line (r : Students.row) : line :=
  Printf "{r.id:<6} {r.student_id:<10} {r.name:<25} {r.score:>6.2f}"
    [ VInt (Students.id r); VStr (Students.student_id r);
      VStr (Students.name r); VFloat (Students.score r) ].

(** A text without the wildcards of LIKE. *)
Fixpoint plain (s : string) : bool :=
  match s with
  | EmptyString => true
  | String c t => negb (Ascii.eqb c "%") && negb (Ascii.eqb c "_") && plain t
  end.

(* ================================================================= *)
(** ** check_drivers.py *)

(** [sorted(xs)] for a list of strings: insertion by the order of the code
    points. *)
Fixpoint insert_sorted (x : string) (xs : list string) : list string :=
  match xs with
  | [] => [x]
  | y :: rest =>
      if String.leb x y then x :: xs else y :: insert_sorted x rest
  end.

Definition py_sorted (xs : list string) : list string :=
  fold_right insert_sorted [] xs.

Definition driver_line (driver : string) : line :=
  Printf "  - {driver}" [ VStr driver ].

(** The script [check_drivers.py].  The two marks before "Microsoft" and
    "No" are characters outside Latin-1, kept as the file has them. *)
Definition check_drivers : M unit :=
  print "Checking available ODBC drivers...\n" ;;
  fun w =>
    let drivers := host_drivers w in
    match drivers with
    | [] => print "No ODBC drivers found!" w
    | _ =>
        (print "Available ODBC drivers:" ;;
         print (dashes 60) ;;
         for_each (py_sorted drivers) (fun driver => emit (driver_line driver)) ;;
         print ("\n" ++ dashes 60) ;;
         let access_drivers := filter is_access_driver drivers in
         match access_drivers with
         | _ :: _ =>
             print "\n✓ Microsoft Access drivers found:" ;;
             for_each access_drivers (fun driver => emit (driver_line driver))
         | [] =>
             print "\n✗ No Microsoft Access drivers found!" ;;
             print "\nYou need to install Microsoft Access Database Engine:" ;;
             print "Download from: https://www.microsoft.com/en-us/download/details.aspx?id=54920" ;;
             print "\nIMPORTANT: Install the version (32-bit or 64-bit) that matches your Python."
         end) w
    end.


(** The world after an operation that read [typed] lines, wrote [printed]
    and did not call pyodbc. *)
Definition after_talk (w : world) (typed : nat) (printed : list line) : world :=
  {| host_drivers := host_drivers w;
     connects := connects w;
     file := file w;
     session := session w;
     stdin := skipn typed (stdin w);
     console := console w ++ printed;
     calls := calls w |}.

(** The world after an operation whose connection did not open. *)
Definition after_refusal (w : world) (driver : string) (typed : nat)
  (printed : list line) : world :=
  {| host_drivers := host_drivers w;
     connects := tl (connects w);
     file := file w;
     session := session w;
     stdin := skipn typed (stdin w);
     console := console w ++ printed;
     calls := calls w ++ [Connect driver] |}.

Definition main_menu_lines : list line :=
  [ Print "\n=== Student Management System ===";
    Print "1. Register"; Print "2. Login"; Print "3. Exit" ].

Definition student_menu_lines : list line :=
  [ Print "\n=== Student Operations ===";
    Print "1. Add student"; Print "2. Show all students";
    Print "3. Search student by ID"; Print "4. Search students by name";
    Print "5. Update student"; Print "6. Delete student";
    Print "7. Count students"; Print "8. Calculate average score";
    Print "9. Show passed students"; Print "10. Show failed students";
    Print "11. Exit" ].

(** The choices that [student_menu_loop] knows. *)
Definition student_choices : list string :=
  [ "1"; "2"; "3"; "4"; "5"; "6"; "7"; "8"; "9"; "10"; "11" ].


(** What [show_all_students] prints for the rows [rs]. *)
Definition table_listing (rs : list Students.row) : list line :=
  match rs with
  | [] => [ Print "No students found." ]
  | _ =>
      Printf "{'DB_ID':<6} {'StuID':<10} {'Name':<25} {'Score':>6}"
        [ VStr "DB_ID"; VStr "StuID"; VStr "Name"; VStr "Score" ]
      :: Print (dashes 55) :: map table_line rs
  end.


(** The statements that create or fill the table Users, and those that
    create or change the table Students. *)
Definition writes_Users {R} (q : stmt R) : bool :=
  match q with
  | CreateUsers | InsertUser _ _ => true
  | _ => false
  end.

Definition writes_Students {R} (q : stmt R) : bool :=
  match q with
  | CreateStudents | InsertStudent _ _ _ | UpdateStudent _ _ _
  | DeleteStudent _ => true
  | _ => false
  end.

(** The table Users is [u], in the file and in the working copy of an open
    connection. *)
Definition accounts (u : option (table Users.row)) (w : world) : Prop :=
  (exists d, file w = Some d /\ tbl_Users d = u)
  /\ (forall d, session w = Some d -> tbl_Users d = u).

(** The table Students is [s], in the file and in the working copy of an
    open connection. *)
Definition students (s : option (table Students.row)) (w : world) : Prop :=
  (exists d, file w = Some d /\ tbl_Students d = s)
  /\ (forall d, session w = Some d -> tbl_Students d = s).


(** What [check_drivers.py] prints after its first line, on a host with the
    drivers [drivers]. *)
Definition check_drivers_lines (drivers : list string) : list line :=
  match drivers with
  | [] => [ Print "No ODBC drivers found!" ]
  | _ =>
      [ Print "Available ODBC drivers:"; Print (dashes 60) ]
      ++ map driver_line (py_sorted drivers)
      ++ [ Print ("\n" ++ dashes 60) ]
      ++ match filter is_access_driver drivers with
         | _ :: _ =>
             Print "\n✓ Microsoft Access drivers found:"
             :: map driver_line (filter is_access_driver drivers)
         | [] =>
             [ Print "\n✗ No Microsoft Access drivers found!";
               Print "\nYou need to install Microsoft Access Database Engine:";
               Print "Download from: https://www.microsoft.com/en-us/download/details.aspx?id=54920";
               Print "\nIMPORTANT: Install the version (32-bit or 64-bit) that matches your Python." ]
         end
  end.


(* ================================================================= *)
(** ** Running the monad *)

Lemma bind_returned {A B} (m : M A) (k : A -> M B) w a w' :
  m w = (Returned a, w') -> bind m k w = k a w'.
Proof. unfold bind; intros ->; reflexivity. Qed.

Lemma bind_raised {A B} (m : M A) (k : A -> M B) w e w' :
  m w = (Raised e, w') -> bind m k w = (Raised e, w').
Proof. unfold bind; intros ->; reflexivity. Qed.

Lemma input_run p w l rest :
  stdin w = l :: rest ->
  input p w
  = (Returned l, set_stdin (set_console w (console w ++ [Prompt p])) rest).
Proof.
  intros H. unfold input, bind, emit, readline. simpl. rewrite H. reflexivity.
Qed.

Lemma getpass_run p w l rest :
  stdin w = l :: rest ->
  getpass p w
  = (Returned l, set_stdin (set_console w (console w ++ [Getpass p])) rest).
Proof.
  intros H. unfold getpass, bind, emit, readline. simpl. rewrite H. reflexivity.
Qed.

Lemma try_returned {A} (body : M A) hs w a w' :
  body w = (Returned a, w') -> try_ body hs w = (Returned a, w').
Proof. unfold try_; intros ->; reflexivity. Qed.

Lemma try_raised {A} (body : M A) hs w e w' :
  body w = (Raised e, w') ->
  try_ body hs w
  = match find (fun h => catches (fst h) e) hs with
    | Some h => snd h e w'
    | None => (Raised e, w')
    end.
Proof. unfold try_; intros ->; reflexivity. Qed.

Lemma with_run {A} acquire (body : M A) w w1 r w2 :
  acquire w = (Returned tt, w1) -> body w1 = (r, w2) ->
  with_ acquire body w = (r, set_session w2 None).
Proof. intros H1 H2. unfold with_, bind. rewrite H1, H2. reflexivity. Qed.

Lemma with_refused {A} acquire (body : M A) w e w1 :
  acquire w = (Raised e, w1) -> with_ acquire body w = (Raised e, w1).
Proof. intros H. unfold with_, bind. rewrite H. reflexivity. Qed.

Lemma execute_run {R} (q : stmt R) w d cur d' :
  session w = Some d -> Sql.run q d = inr (cur, d') ->
  execute q w = (Returned cur, set_session (log w (Execute q)) (Some d')).
Proof. intros H1 H2. unfold execute. simpl. rewrite H1, H2. reflexivity. Qed.

Lemma execute_raises {R} (q : stmt R) w d e :
  session w = Some d -> Sql.run q d = inl e ->
  execute q w = (Raised e, log w (Execute q)).
Proof. intros H1 H2. unfold execute. simpl. rewrite H1, H2. reflexivity. Qed.

Lemma commit_run w d :
  session w = Some d ->
  commit w = (Returned tt, set_file (log w Commit) (Some d)).
Proof. intros H. unfold commit. simpl. rewrite H. reflexivity. Qed.

Lemma for_each_emit {A} (f : A -> line) (xs : list A) w :
  for_each xs (fun x => emit (f x)) w
  = (Returned tt, set_console w (console w ++ map f xs)).
Proof.
  revert w. induction xs as [|x xs IH]; intros w; simpl.
  - unfold ret, set_console. rewrite app_nil_r. destruct w; reflexivity.
  - unfold bind, emit. rewrite IH. unfold set_console; simpl.
    rewrite <- app_assoc. reflexivity.
Qed.

(** Two worlds built from the same one are compared field by field. *)
Lemma world_ext (w1 w2 : world) :
  host_drivers w1 = host_drivers w2 ->
  connects w1 = connects w2 ->
  file w1 = file w2 ->
  session w1 = session w2 ->
  stdin w1 = stdin w2 ->
  console w1 = console w2 ->
  calls w1 = calls w2 ->
  w1 = w2.
Proof.
  destruct w1, w2; simpl; intros; subst; reflexivity.
Qed.

Ltac fields :=
  cbn [host_drivers connects file session stdin console calls
       after connected refused set_session set_console set_stdin set_file
       set_connects log after_talk after_refusal];
  rewrite <- ?app_assoc;
  cbn [app skipn tl];
  try reflexivity.

Ltac same_world :=
  apply f_equal2; [ try reflexivity | apply world_ext; fields ].

Lemma all_open_S n l :
  all_open (S n) l = true ->
  match l with false :: _ => False | _ => True end
  /\ all_open n (tl l) = true.
Proof.
  destruct l as [|[] l]; simpl; intros H; try discriminate; split; auto.
  destruct n; reflexivity.
Qed.

Lemma get_connection_opens n w driver d :
  online (S n) w driver d ->
  get_connection w = (Returned tt, connected w driver d).
Proof.
  intros [Hd Hf Ho]. unfold get_connection. rewrite Hd, Hf.
  apply all_open_S in Ho. destruct Ho as [Ho _].
  unfold bind, ret, try_, connect. simpl.
  destruct (connects w) as [|[] l] eqn:E; try contradiction; simpl;
    unfold connected; rewrite ?E, ?Hf; destruct w; simpl in *; subst;
    reflexivity.
Qed.

Lemma online_after n w driver d d' typed printed called :
  online (S n) w driver d ->
  online n (after w d' typed printed called) driver d'.
Proof.
  intros [Hd Hf Ho]. apply all_open_S in Ho. split; simpl; tauto.
Qed.

Lemma get_connection_refused w driver d rest :
  find_access_driver (host_drivers w) = Some driver ->
  file w = Some d ->
  connects w = false :: rest ->
  get_connection w = (Raised PyodbcError, refused w driver (connect_report driver)).
Proof.
  intros Hd Hf Hc. unfold get_connection. rewrite Hd, Hf.
  unfold bind, ret, try_, connect. simpl. rewrite Hc. simpl.
  unfold printf, emit, raise, connect_report.
  same_world; rewrite Hc; reflexivity.
Qed.

Lemma get_connection_no_driver w :
  find_access_driver (host_drivers w) = None ->
  get_connection w
  = (Raised (SystemExit 1), set_console w (console w ++ driver_diagnostic)).
Proof.
  intros Hd. unfold get_connection. rewrite Hd.
  unfold bind, print, emit, raise, driver_diagnostic. same_world.
Qed.

(* ================================================================= *)
(** ** The driver resolver (C9) *)

Lemma mem_In x xs : PyStr.mem x xs = true <-> In x xs.
Proof.
  unfold PyStr.mem. rewrite existsb_exists. split.
  - intros (y & Hy & E). apply String.eqb_eq in E. subst; assumption.
  - intros H. exists x. split; [assumption | apply String.eqb_refl].
Qed.

Lemma first_preferred_found before p rest drivers :
  In p drivers ->
  (forall q, In q before -> ~ In q drivers) ->
  first_preferred (before ++ p :: rest) drivers = Some p.
Proof.
  intros Hp. induction before as [|q before IH]; intros Hq; simpl.
  - apply mem_In in Hp. rewrite Hp. reflexivity.
  - destruct (PyStr.mem q drivers) eqn:E.
    + apply mem_In in E. exfalso. apply (Hq q); simpl; auto.
    + apply IH. intros q' H. apply Hq. simpl; auto.
Qed.

Lemma first_preferred_none preferred drivers :
  (forall p, In p preferred -> ~ In p drivers) ->
  first_preferred preferred drivers = None.
Proof.
  induction preferred as [|q preferred IH]; intros H; simpl; [reflexivity|].
  destruct (PyStr.mem q drivers) eqn:E.
  - apply mem_In in E. exfalso. apply (H q); simpl; auto.
  - apply IH. intros p Hp. apply H. simpl; auto.
Qed.

Lemma first_preferred_in preferred drivers p :
  first_preferred preferred drivers = Some p ->
  In p preferred /\ In p drivers.
Proof.
  induction preferred as [|q preferred IH]; simpl; [discriminate|].
  destruct (PyStr.mem q drivers) eqn:E; intros H.
  - inversion H; subst. apply mem_In in E. auto.
  - destruct (IH H). auto.
Qed.

(** What [find_access_driver] returns is installed and passes the filter. *)
Lemma find_access_driver_compatible available driver :
  find_access_driver available = Some driver ->
  In driver available /\ is_access_driver driver = true.
Proof.
  unfold find_access_driver. intros H. apply filter_In.
  destruct (first_preferred preferred_drivers
              (filter is_access_driver available)) as [p|] eqn:E.
  - inversion H; subst. apply first_preferred_in in E. tauto.
  - destruct (filter is_access_driver available) as [|d ds];
      inversion H; subst. simpl. auto.
Qed.

Lemma find_access_driver_nonempty available driver :
  find_access_driver available = Some driver -> driver <> "".
Proof.
  intros H E. apply find_access_driver_compatible in H.
  destruct H as [_ H]. rewrite E in H. vm_compute in H. discriminate.
Qed.

(** C9.  Among the installed drivers that pass the Access/mdb filter,
    [find_access_driver] returns the first name of the preferred list that
    is installed; when no preferred name is installed, the first installed
    compatible driver; when no compatible driver is installed, nothing, and
    [get_connection] then prints the diagnostic and exits with status 1. *)
Theorem find_access_driver_preference (available : list string) :
  let compatible := filter is_access_driver available in
  (forall before p rest,
      preferred_drivers = before ++ p :: rest ->
      In p compatible ->
      (forall q, In q before -> ~ In q compatible) ->
      find_access_driver available = Some p)
  /\ (forall d ds,
         (forall p, In p preferred_drivers -> ~ In p compatible) ->
         compatible = d :: ds ->
         find_access_driver available = Some d)
  /\ (compatible = [] ->
      find_access_driver available = None
      /\ forall w, host_drivers w = available ->
           get_connection w
           = (Raised (SystemExit 1),
              set_console w (console w ++ driver_diagnostic))).
Proof.
  intros compatible. unfold find_access_driver. fold compatible.
  split; [|split].
  - intros before p rest Hpref Hp Hq. rewrite Hpref.
    rewrite (@first_preferred_found before p rest compatible Hp Hq). reflexivity.
  - intros d ds Hnone Hc.
    rewrite (@first_preferred_none preferred_drivers compatible Hnone), Hc.
    reflexivity.
  - intros Hc.
    assert (Hnone : find_access_driver available = None).
    { unfold find_access_driver. fold compatible. rewrite Hc. reflexivity. }
    split.
    + unfold find_access_driver in Hnone. exact Hnone.
    + intros w Hw. apply get_connection_no_driver. rewrite Hw. exact Hnone.
Qed.

Lemma find_access_driver_preference_witness :
  find_access_driver
    [ "SQL Server"; "Microsoft Access Driver (*.mdb)";
      "Microsoft Access Driver (*.mdb, *.accdb)" ]
  = Some "Microsoft Access Driver (*.mdb, *.accdb)".
Proof.
  apply (proj1 (find_access_driver_preference
                  [ "SQL Server"; "Microsoft Access Driver (*.mdb)";
                    "Microsoft Access Driver (*.mdb, *.accdb)" ])
           [] "Microsoft Access Driver (*.mdb, *.accdb)"
           [ "Microsoft Access Driver (*.mdb)";
             "Driver do Microsoft Access (*.mdb)" ]).
  - reflexivity.
  - vm_compute. right. left. reflexivity.
  - intros q [].
Defined.

(* ================================================================= *)
(** ** Aggregates and deletion (C7, C8) *)

Lemma calculate_average_score_run w driver d t :
  online 1 w driver d ->
  tbl_Students d = Some t ->
  calculate_average_score w
  = (Returned tt,
     after w d 0
       [ match Sql.avg (map Students.score (rows t)) with
         | None => Print "No students to calculate average."
         | Some avg => Printf "Average score: {avg:.2f}" [VFloat avg]
         end ]
       [ Connect driver; Execute AvgScore ]).
Proof.
  intros Ho Ht. unfold calculate_average_score.
  destruct (Sql.avg (map Students.score (rows t))) as [avg|] eqn:E.
  all: erewrite try_returned; [reflexivity|].
  all: erewrite with_run;
    [ | eapply get_connection_opens; eassumption
      | erewrite bind_returned;
        [ | eapply execute_run; [reflexivity|];
            simpl; unfold Sql.on_Students; rewrite Ht, E; reflexivity ];
        simpl; reflexivity ].
  all: same_world.
Qed.

(** C7.  Over a Students table without rows, [calculate_average_score]
    returns normally and reports that there is no average: it prints
    neither a number nor an error.  Over rows whose scores are 60 and 80
    it prints the mean, 70.0. *)
Theorem average_score_empty_and_mean w driver d t :
  online 1 w driver d ->
  tbl_Students d = Some t ->
  (rows t = [] ->
   Sql.avg (map Students.score (rows t)) = None
   /\ calculate_average_score w
      = (Returned tt,
         after w d 0
           [ Print "No students to calculate average." ]
           [ Connect driver; Execute AvgScore ]))
  /\ (map Students.score (rows t) = [60%float; 80%float] ->
      Sql.avg (map Students.score (rows t)) = Some 70%float
      /\ calculate_average_score w
         = (Returned tt,
            after w d 0
              [ Printf "Average score: {avg:.2f}" [VFloat 70%float] ]
              [ Connect driver; Execute AvgScore ])).
Proof.
  intros Ho Ht. split; intros Hr.
  - rewrite (calculate_average_score_run Ho Ht). rewrite Hr. simpl. auto.
  - rewrite (calculate_average_score_run Ho Ht). rewrite Hr.
    assert (E : Sql.avg [60%float; 80%float] = Some 70%float)
      by (vm_compute; reflexivity).
    rewrite E. auto.
Qed.

Lemma count_where_none {R} (p : R -> bool) xs :
  (forall r, In r xs -> p r = false) -> filter p xs = [].
Proof.
  induction xs as [|x xs IH]; intros H; simpl; [reflexivity|].
  rewrite (H x) by (simpl; auto). apply IH. intros r Hr. apply H; simpl; auto.
Qed.

Lemma count_where_some {R} (p : R -> bool) xs r :
  In r xs -> p r = true -> (Sql.count_where p xs =? 0)%Z = false.
Proof.
  intros Hin Hp. unfold Sql.count_where.
  assert (H : In r (filter p xs)) by (apply filter_In; auto).
  destruct (filter p xs); [contradiction | reflexivity].
Qed.

Lemma delete_student_run w driver d t i rest :
  online 1 w driver d ->
  tbl_Students d = Some t ->
  stdin w = i :: rest ->
  let sid := PyStr.strip i in
  let hit := Sql.holds (StudentIdIs sid) in
  delete_student w
  = (Returned tt,
     if (Sql.count_where hit (rows t) =? 0)%Z
     then after w d 1
            [ Prompt "Enter Student ID to delete: ";
              Print "Student not found." ]
            [ Connect driver; Execute (DeleteStudent sid) ]
     else after w
            (Sql.set_Students d
               {| rows := filter (fun r => negb (hit r)) (rows t);
                  next_id := next_id t |})
            1
            [ Prompt "Enter Student ID to delete: ";
              Print "Student deleted." ]
            [ Connect driver; Execute (DeleteStudent sid); Commit ]).
Proof.
  intros Ho Ht Hi sid hit. unfold delete_student.
  erewrite bind_returned; [ | apply input_run; eassumption ].
  fold sid.
  destruct (Sql.count_where hit (rows t) =? 0)%Z eqn:E.
  all: erewrite try_returned; [reflexivity|].
  all: erewrite with_run;
    [ | eapply get_connection_opens with (n := 0) (d := d);
        destruct Ho; split; simpl; eassumption
      | erewrite bind_returned;
        [ | eapply execute_run; [reflexivity|];
            simpl; unfold Sql.on_Students; rewrite Ht; reflexivity ];
        cbn [rowcount Sql.no_rows]; fold hit; rewrite E;
        try (erewrite bind_returned; [ | apply commit_run; reflexivity ]);
        reflexivity ].
  all: same_world; rewrite Hi; reflexivity.
Qed.

(** C8.  [delete_student] on an identifier that no row carries: the DELETE
    reports no affected row, "Student not found." is printed, there is no
    [conn.commit()] among the calls and the file holds what it held.  On
    an identifier that a row carries, the rows with it are removed and the
    deletion is committed. *)
Theorem delete_student_not_found_or_committed w driver d t i rest :
  online 1 w driver d ->
  tbl_Students d = Some t ->
  stdin w = i :: rest ->
  let sid := PyStr.strip i in
  ((forall r, In r (rows t) -> Students.student_id r <> sid) ->
   (exists cur d', Sql.run (DeleteStudent sid) d = inr (cur, d')
                   /\ rowcount cur = 0%Z)
   /\ delete_student w
      = (Returned tt,
         after w d 1
           [ Prompt "Enter Student ID to delete: ";
             Print "Student not found." ]
           [ Connect driver; Execute (DeleteStudent sid) ]))
  /\ ((exists r, In r (rows t) /\ Students.student_id r = sid) ->
      delete_student w
      = (Returned tt,
         after w
           (Sql.set_Students d
              {| rows := filter (fun r => negb (has_student_id sid r)) (rows t);
                 next_id := next_id t |})
           1
           [ Prompt "Enter Student ID to delete: ";
             Print "Student deleted." ]
           [ Connect driver; Execute (DeleteStudent sid); Commit ])).
Proof.
  intros Ho Ht Hi sid. split.
  - intros Hnone.
    assert (E : filter (Sql.holds (StudentIdIs sid)) (rows t) = []).
    { apply count_where_none. intros r Hr. simpl.
      apply String.eqb_neq. auto. }
    split.
    + simpl. unfold Sql.on_Students. rewrite Ht.
      eexists. eexists. split; [reflexivity|].
      simpl. unfold Sql.count_where. rewrite E. reflexivity.
    + rewrite (delete_student_run Ho Ht Hi). fold sid.
      unfold Sql.count_where. rewrite E. reflexivity.
  - intros (r & Hr & Hsid).
    rewrite (delete_student_run Ho Ht Hi). fold sid.
    rewrite (@count_where_some _ (Sql.holds (StudentIdIs sid)) (rows t) r Hr).
    + reflexivity.
    + simpl. apply String.eqb_eq. exact Hsid.
Qed.


Lemma host_online n d typed : online n (host d typed) access_driver d.
Proof. split; [ vm_compute | | destruct n ]; reflexivity. Defined.

Lemma average_score_empty_and_mean_witness :
  calculate_average_score (host (holding [] ann_and_bob) [])
  = (Returned tt,
     after (host (holding [] ann_and_bob) []) (holding [] ann_and_bob) 0
       [ Printf "Average score: {avg:.2f}" [VFloat 70%float] ]
       [ Connect access_driver; Execute AvgScore ]).
Proof.
  apply (proj2 (average_score_empty_and_mean
                  (host_online 1 (holding [] ann_and_bob) [])
                  (t := {| rows := ann_and_bob; next_id := 3 |})
                  eq_refl)).
  reflexivity.
Defined.

Lemma delete_student_not_found_or_committed_witness :
  delete_student (host (holding [] ann_and_bob) [" S9 "])
  = (Returned tt,
     after (host (holding [] ann_and_bob) [" S9 "]) (holding [] ann_and_bob) 1
       [ Prompt "Enter Student ID to delete: "; Print "Student not found." ]
       [ Connect access_driver; Execute (DeleteStudent "S9") ]).
Proof.
  apply (proj1 (delete_student_not_found_or_committed
                  (host_online 1 (holding [] ann_and_bob) [" S9 "])
                  (t := {| rows := ann_and_bob; next_id := 3 |})
                  eq_refl eq_refl)).
  intros r [<- | [<- | []]]; discriminate.
Defined.

(* ================================================================= *)
(** ** Accounts (C4, C5) *)

Lemma user_matches_iff username password r :
  Sql.user_matches username password r = true
  <-> Users.username r = username /\ Users.password r = password.
Proof.
  unfold Sql.user_matches. rewrite andb_true_iff, !String.eqb_eq. tauto.
Qed.

Lemma login_run w driver d t u p rest :
  online 1 w driver d ->
  tbl_Users d = Some t ->
  stdin w = u :: p :: rest ->
  let username := PyStr.strip u in
  let password := PyStr.strip p in
  let found := filter (Sql.user_matches username password) (rows t) in
  login w
  = (Returned (match found with [] => false | _ => true end),
     after w d 2
       [ Prompt "Username: "; Getpass "Password: ";
         match found with
         | [] => Print "Invalid username or password."
         | _ => Printf "Welcome, {username}!" [VStr username]
         end ]
       [ Connect driver; Execute (SelectUserId username password) ]).
Proof.
  intros Ho Ht Hi username password found. unfold login.
  erewrite bind_returned; [ | apply input_run; eassumption ].
  erewrite bind_returned; [ | apply getpass_run; reflexivity ].
  fold username password.
  destruct found as [|r0 found'] eqn:E.
  all: erewrite try_returned; [reflexivity|].
  all: erewrite with_run;
    [ | eapply get_connection_opens with (n := 0) (d := d);
        destruct Ho; split; simpl; eassumption
      | erewrite bind_returned;
        [ | eapply execute_run; [reflexivity|];
            simpl; unfold Sql.on_Users; rewrite Ht; reflexivity ];
        unfold fetchone; cbn [fetched Sql.result]; fold found; rewrite E;
        cbn [map hd_error];
        erewrite bind_returned; [ | reflexivity ]; reflexivity ].
  all: same_world; rewrite Hi; reflexivity.
Qed.

Lemma register_run w driver d t u p rest :
  online 1 w driver d ->
  tbl_Users d = Some t ->
  stdin w = u :: p :: rest ->
  let username := PyStr.strip u in
  let password := PyStr.strip p in
  username <> "" ->
  password <> "" ->
  (forall r, In r (rows t) -> Users.username r <> username) ->
  register w
  = (Returned tt,
     after w
       (Sql.set_Users d
          {| rows := rows t ++ [ {| Users.id := next_id t;
                                    Users.username := username;
                                    Users.password := password |} ];
             next_id := (next_id t + 1)%Z |})
       2
       [ Prompt "Enter new username: "; Getpass "Enter new password: ";
         Print "User registered successfully." ]
       [ Connect driver; Execute (InsertUser username password); Commit ]).
Proof.
  intros Ho Ht Hi username password Hu Hp Hfresh. unfold register.
  erewrite bind_returned; [ | apply input_run; eassumption ].
  erewrite bind_returned; [ | apply getpass_run; reflexivity ].
  fold username password.
  assert (Eu : PyStr.nonempty username = true)
    by (destruct username; [contradiction | reflexivity]).
  assert (Ep : PyStr.nonempty password = true)
    by (destruct password; [contradiction | reflexivity]).
  rewrite Eu, Ep. cbn [negb orb].
  assert (Ef : existsb (fun r => String.eqb (Users.username r) username) (rows t)
               = false).
  { destruct (existsb _ (rows t)) eqn:E; [|reflexivity].
    apply existsb_exists in E. destruct E as (r & Hr & E).
    apply String.eqb_eq in E. exfalso. exact (Hfresh r Hr E). }
  erewrite try_returned; [reflexivity|].
  erewrite bind_returned.
  2:{ erewrite with_run;
        [ reflexivity
        | eapply get_connection_opens with (n := 0) (d := d);
          destruct Ho; split; simpl; eassumption
        | erewrite bind_returned;
          [ | eapply execute_run; [reflexivity|];
              simpl; unfold Sql.on_Users; rewrite Ht, Ef; reflexivity ];
          apply commit_run; reflexivity ]. }
  unfold print, emit. same_world; rewrite Hi; reflexivity.
Qed.

Lemma unique_key_at_most_one {R K} (key : R -> K) (p : R -> bool) (k : K) xs :
  NoDup (map key xs) ->
  (forall r, In r xs -> p r = true -> key r = k) ->
  List.length (filter p xs) <= 1.
Proof.
  induction xs as [|x xs IH]; intros Hnd Hk; simpl; [lia|].
  inversion Hnd as [|? ? Hnotin Hnd']; subst.
  assert (IH' : List.length (filter p xs) <= 1).
  { apply IH; [assumption|]. intros r Hr. apply Hk. simpl; auto. }
  destruct (p x) eqn:Ex; [|assumption].
  assert (Hx : key x = k) by (apply Hk; simpl; auto).
  destruct (filter p xs) as [|y ys] eqn:Ef; [simpl; lia|].
  exfalso. apply Hnotin.
  assert (Hy : In y (filter p xs)) by (rewrite Ef; simpl; auto).
  apply filter_In in Hy. destruct Hy as [Hy Hpy].
  rewrite Hx, <- (Hk y (or_intror Hy) Hpy). apply in_map. exact Hy.
Qed.

(** C4.  With the Users table of the schema (usernames UNIQUE) behind an
    opening connection, [login] sends [username] and [password], as the
    program holds them, to a SELECT whose WHERE clause is equality of
    strings on both columns, and returns [True] exactly when one row, and
    only one, matches. *)
Theorem login_true_iff_one_exact_match w driver d t u p rest :
  online 1 w driver d ->
  tbl_Users d = Some t ->
  unique_usernames t ->
  stdin w = u :: p :: rest ->
  let username := PyStr.strip u in
  let password := PyStr.strip p in
  (forall r, Sql.user_matches username password r = true
             <-> Users.username r = username /\ Users.password r = password)
  /\ exists b w',
       login w = (Returned b, w')
       /\ calls w' = calls w ++ [ Connect driver;
                                  Execute (SelectUserId username password) ]
       /\ (b = true
           <-> List.length
                 (filter (Sql.user_matches username password) (rows t)) = 1).
Proof.
  intros Ho Ht Hu Hi username password.
  split; [intros r; apply user_matches_iff|].
  eexists. eexists. split; [apply (login_run Ho Ht Hi)|].
  split; [reflexivity|].
  fold username password.
  assert (Hle : List.length
                  (filter (Sql.user_matches username password) (rows t)) <= 1).
  { apply (@unique_key_at_most_one _ _ Users.username _ username);
      [exact Hu|].
    intros r _ Hr. apply user_matches_iff in Hr. tauto. }
  destruct (filter (Sql.user_matches username password) (rows t)) as [|r0 l];
    simpl in *.
  - split; [discriminate | lia].
  - split; [intros _; lia | reflexivity].
Qed.

(** C5.  A user who types a pair whose username and password are not
    empty, the username not being registered, to [register] and then again
    to [login]: the registration is committed and [login] returns [True]. *)
Theorem register_then_login w driver d t u p rest :
  online 2 w driver d ->
  tbl_Users d = Some t ->
  stdin w = u :: p :: u :: p :: rest ->
  let username := PyStr.strip u in
  let password := PyStr.strip p in
  username <> "" ->
  password <> "" ->
  (forall r, In r (rows t) -> Users.username r <> username) ->
  exists w',
    (register ;; login) w = (Returned true, w')
    /\ stdin w' = rest
    /\ console w'
       = console w
         ++ [ Prompt "Enter new username: "; Getpass "Enter new password: ";
              Print "User registered successfully.";
              Prompt "Username: "; Getpass "Password: ";
              Printf "Welcome, {username}!" [VStr username] ]
    /\ calls w'
       = calls w
         ++ [ Connect driver; Execute (InsertUser username password); Commit;
              Connect driver; Execute (SelectUserId username password) ].
Proof.
  intros Ho Ht Hi username password Hu Hp Hfresh.
  assert (Ho1 : online 1 w driver d).
  { destruct Ho as [A B C]. split; [assumption..|].
    destruct (connects w) as [|[] l]; simpl in *;
      try reflexivity; discriminate. }
  eexists. split.
  - erewrite bind_returned; [ | apply (register_run Ho1 Ht Hi Hu Hp Hfresh) ].
    fold username password.
    erewrite login_run;
      [ | eapply online_after; exact Ho
        | reflexivity
        | cbn [stdin after]; rewrite Hi; reflexivity ].
    fold username password. cbn [rows].
    rewrite filter_app. cbn [filter].
    assert (E : Sql.user_matches username password
                  {| Users.id := next_id t; Users.username := username;
                     Users.password := password |} = true).
    { apply user_matches_iff. split; reflexivity. }
    rewrite E.
    destruct (filter (Sql.user_matches username password) (rows t) ++ [_])
      as [|r0 l] eqn:El.
    + apply app_eq_nil in El. destruct El as [_ El]. discriminate.
    + reflexivity.
  - split; [|split]; fields; rewrite Hi; reflexivity.
Qed.

(* ================================================================= *)
(** ** Adding, finding and updating a student (C6, C1) *)

Lemma hd_error_filter {R} (p : R -> bool) xs :
  hd_error (filter p xs) = find p xs.
Proof.
  induction xs as [|x xs IH]; simpl; [reflexivity|].
  destruct (p x); [reflexivity | exact IH].
Qed.

Lemma find_app_fresh {R} (p : R -> bool) xs x :
  (forall r, In r xs -> p r = false) -> p x = true ->
  find p (xs ++ [x]) = Some x.
Proof.
  induction xs as [|y xs IH]; intros Hxs Hx; simpl.
  - rewrite Hx. reflexivity.
  - rewrite (Hxs y) by (simpl; auto).
    apply IH; [|assumption]. intros r Hr. apply Hxs. simpl; auto.
Qed.

Lemma unique_key_injective {R K} (key : R -> K) xs a b :
  NoDup (map key xs) -> In a xs -> In b xs -> key a = key b -> a = b.
Proof.
  induction xs as [|x xs IH]; intros Hnd Ha Hb E; [contradiction|].
  simpl in Hnd. inversion Hnd as [|? ? Hnotin Hnd']; subst.
  destruct Ha as [<-|Ha], Hb as [<-|Hb].
  - reflexivity.
  - exfalso. apply Hnotin. rewrite E. apply in_map. exact Hb.
  - exfalso. apply Hnotin. rewrite <- E. apply in_map. exact Ha.
  - apply IH; assumption.
Qed.

Section AddFindUpdate.

Variable py_float : string -> option float.

Lemma add_student_run w driver d t i n s rest score :
  online 1 w driver d ->
  tbl_Students d = Some t ->
  stdin w = i :: n :: s :: rest ->
  let student_id := PyStr.strip i in
  let name := PyStr.strip n in
  py_float (PyStr.strip s) = Some score ->
  (forall r, In r (rows t) -> Students.student_id r <> student_id) ->
  add_student py_float w
  = (Returned tt,
     after w
       (Sql.set_Students d
          {| rows := rows t ++ [ {| Students.id := next_id t;
                                    Students.student_id := student_id;
                                    Students.name := name;
                                    Students.score := score |} ];
             next_id := (next_id t + 1)%Z |})
       3
       [ Prompt "Student ID: "; Prompt "Name: "; Prompt "Score (0-100): ";
         Print "Student added." ]
       [ Connect driver; Execute (InsertStudent student_id name score);
         Commit ]).
Proof.
  intros Ho Ht Hi student_id name Hs Hfresh. unfold add_student.
  erewrite bind_returned; [ | apply input_run; eassumption ].
  erewrite bind_returned; [ | apply input_run; reflexivity ].
  fold student_id name.
  erewrite bind_returned.
  2:{ apply try_returned.
      erewrite bind_returned; [ | apply input_run; reflexivity ].
      unfold float_. rewrite Hs. reflexivity. }
  cbv beta iota.
  assert (Ef : existsb
                 (fun r => String.eqb (Students.student_id r) student_id)
                 (rows t) = false).
  { destruct (existsb _ (rows t)) eqn:E; [|reflexivity].
    apply existsb_exists in E. destruct E as (r & Hr & E).
    apply String.eqb_eq in E. exfalso. exact (Hfresh r Hr E). }
  erewrite try_returned; [reflexivity|].
  erewrite bind_returned.
  2:{ erewrite with_run;
        [ reflexivity
        | eapply get_connection_opens with (n := 0) (d := d);
          destruct Ho; split; simpl; eassumption
        | erewrite bind_returned;
          [ | eapply execute_run; [reflexivity|];
              simpl; unfold Sql.on_Students; rewrite Ht, Ef; reflexivity ];
          apply commit_run; reflexivity ]. }
  unfold print, emit. same_world; rewrite Hi; reflexivity.
Qed.

Lemma search_student_by_id_run w driver d t i rest :
  online 1 w driver d ->
  tbl_Students d = Some t ->
  stdin w = i :: rest ->
  let student_id := PyStr.strip i in
  search_student_by_id w
  = (Returned tt,
     after w d 1
       [ Prompt "Enter Student ID to search: ";
         match find (has_student_id student_id) (rows t) with
         | Some row =>
             Printf "Found: ID={row.student_id}, Name={row.name}, Score={row.score}"
               [ VStr (Students.student_id row); VStr (Students.name row);
                 VFloat (Students.score row) ]
         | None => Print "Student not found."
         end ]
       [ Connect driver; Execute (SelectStudents (StudentIdIs student_id)) ]).
Proof.
  intros Ho Ht Hi student_id. unfold search_student_by_id.
  erewrite bind_returned; [ | apply input_run; eassumption ].
  fold student_id.
  destruct (find (has_student_id student_id) (rows t)) as [row|] eqn:E.
  all: erewrite try_returned; [reflexivity|].
  all: erewrite with_run;
    [ | eapply get_connection_opens with (n := 0) (d := d);
        destruct Ho; split; simpl; eassumption
      | erewrite bind_returned;
        [ | eapply execute_run; [reflexivity|];
            simpl; unfold Sql.on_Students; rewrite Ht; reflexivity ];
        unfold fetchone; cbn [fetched Sql.result];
        rewrite hd_error_filter;
        change (Sql.holds (StudentIdIs student_id))
          with (has_student_id student_id);
        rewrite E; reflexivity ].
  all: same_world; rewrite Hi; reflexivity.
Qed.

(** C6.  [add_student] with an identifier that no row carries, then
    [search_student_by_id] with the same identifier: the student is stored
    and the search prints the identifier, the name and the score that were
    added. *)
Theorem add_then_search_by_id w driver d t i n s rest score :
  online 2 w driver d ->
  tbl_Students d = Some t ->
  stdin w = i :: n :: s :: i :: rest ->
  let student_id := PyStr.strip i in
  let name := PyStr.strip n in
  py_float (PyStr.strip s) = Some score ->
  (forall r, In r (rows t) -> Students.student_id r <> student_id) ->
  exists w',
    (add_student py_float ;; search_student_by_id) w = (Returned tt, w')
    /\ stdin w' = rest
    /\ console w'
       = console w
         ++ [ Prompt "Student ID: "; Prompt "Name: ";
              Prompt "Score (0-100): "; Print "Student added.";
              Prompt "Enter Student ID to search: ";
              Printf "Found: ID={row.student_id}, Name={row.name}, Score={row.score}"
                [ VStr student_id; VStr name; VFloat score ] ]
    /\ calls w'
       = calls w
         ++ [ Connect driver; Execute (InsertStudent student_id name score);
              Commit;
              Connect driver;
              Execute (SelectStudents (StudentIdIs student_id)) ].
Proof.
  intros Ho Ht Hi student_id name Hs Hfresh.
  assert (Ho1 : online 1 w driver d).
  { destruct Ho as [A B C]. split; [assumption..|].
    destruct (connects w) as [|[] l]; simpl in *;
      try reflexivity; discriminate. }
  eexists. split.
  - erewrite bind_returned;
      [ | apply (add_student_run Ho1 Ht Hi Hs Hfresh) ].
    fold student_id name.
    erewrite search_student_by_id_run;
      [ | eapply online_after; exact Ho
        | reflexivity
        | cbn [stdin after]; rewrite Hi; reflexivity ].
    fold student_id. cbn [rows].
    rewrite find_app_fresh.
    + reflexivity.
    + intros r Hr. apply String.eqb_neq. auto.
    + apply String.eqb_refl.
  - split; [|split]; fields; rewrite Hi; reflexivity.
Qed.

Lemma update_row_same sid row xs :
  NoDup (map Students.student_id xs) ->
  find (has_student_id sid) xs = Some row ->
  map (Sql.update_row (Students.name row) (Students.score row) sid) xs = xs.
Proof.
  intros Hnd Hf.
  apply find_some in Hf. destruct Hf as [Hin Hsid].
  apply String.eqb_eq in Hsid.
  rewrite <- (map_id xs) at 2. apply map_ext_in. intros r Hr.
  unfold Sql.update_row.
  destruct (String.eqb (Students.student_id r) sid) eqn:E; [|reflexivity].
  apply String.eqb_eq in E.
  assert (r = row)
    by (apply (unique_key_injective Students.student_id xs); congruence).
  subst r. destruct row; reflexivity.
Qed.

Lemma update_student_run w driver d t i n s rest row :
  online 1 w driver d ->
  tbl_Students d = Some t ->
  stdin w = i :: n :: s :: rest ->
  let student_id := PyStr.strip i in
  let new_name := PyStr.strip n in
  let new_score_input := PyStr.strip s in
  find (has_student_id student_id) (rows t) = Some row ->
  let name_final :=
    if PyStr.nonempty new_name then new_name else Students.name row in
  let parsed :=
    if PyStr.nonempty new_score_input then py_float new_score_input
    else Some (Students.score row) in
  let score_final :=
    match parsed with Some x => x | None => Students.score row end in
  let notice :=
    match parsed with
    | Some _ => []
    | None => [ Print "Invalid score. Keeping old value." ]
    end in
  update_student py_float w
  = (Returned tt,
     after w
       (Sql.set_Students d
          {| rows := map (Sql.update_row name_final score_final student_id)
                       (rows t);
             next_id := next_id t |})
       3
       ([ Prompt "Enter Student ID to update: ";
          Printf "Current Name: {row.name}, Score: {row.score}"
            [ VStr (Students.name row); VFloat (Students.score row) ];
          Prompt "New name (leave blank to keep): ";
          Prompt "New score (leave blank to keep): " ]
        ++ notice ++ [ Print "Student updated." ])
       [ Connect driver; Execute (SelectStudents (StudentIdIs student_id));
         Execute (UpdateStudent name_final score_final student_id);
         Commit ]).
Proof.
  intros Ho Ht Hi student_id new_name new_score_input Hrow
    name_final parsed score_final notice.
  unfold update_student.
  erewrite bind_returned; [ | apply input_run; eassumption ].
  fold student_id.
  assert (Hscore :
    forall w0,
      (if PyStr.nonempty new_score_input
       then try_ (float_ py_float new_score_input)
              [ (ExceptValueError, fun _ =>
                   print "Invalid score. Keeping old value." ;;
                   ret (Students.score row)) ]
       else ret (Students.score row)) w0
      = (Returned score_final, set_console w0 (console w0 ++ notice))).
  { intros w0. subst score_final notice parsed. unfold float_.
    destruct (PyStr.nonempty new_score_input).
    - destruct (py_float new_score_input); unfold try_, ret, raise; simpl.
      + apply f_equal2; [reflexivity|]. apply world_ext; fields.
        all: rewrite app_nil_r; reflexivity.
      + reflexivity.
    - unfold ret. apply f_equal2; [reflexivity|]. apply world_ext; fields.
      all: rewrite app_nil_r; reflexivity. }
  erewrite try_returned; [reflexivity|].
  erewrite with_run;
    [ | eapply get_connection_opens with (n := 0) (d := d);
        destruct Ho; split; simpl; eassumption
      | erewrite bind_returned;
        [ | eapply execute_run; [reflexivity|];
            simpl; unfold Sql.on_Students; rewrite Ht; reflexivity ];
        unfold fetchone; cbn [fetched Sql.result];
        rewrite hd_error_filter;
        change (Sql.holds (StudentIdIs student_id))
          with (has_student_id student_id);
        rewrite Hrow;
        erewrite bind_returned; [ | reflexivity ];
        erewrite bind_returned; [ | apply input_run; reflexivity ];
        erewrite bind_returned; [ | apply input_run; reflexivity ];
        fold new_name new_score_input name_final;
        erewrite bind_returned; [ | apply Hscore ];
        erewrite bind_returned;
          [ | eapply execute_run; [reflexivity|];
              simpl; unfold Sql.on_Students; rewrite Ht; reflexivity ];
        erewrite bind_returned; [ | apply commit_run; reflexivity ];
        reflexivity ].
  same_world; rewrite ?Hi; reflexivity.
Qed.

End AddFindUpdate.

Lemma set_Students_same d t :
  tbl_Students d = Some t ->
  Sql.set_Students d {| rows := rows t; next_id := next_id t |} = d.
Proof.
  destruct d as [us st], t as [rs nx]; simpl; intros ->; reflexivity.
Qed.

Lemma nonempty_false s : s = "" -> PyStr.nonempty s = false.
Proof. intros ->; reflexivity. Qed.

Lemma nonempty_true s : s <> "" -> PyStr.nonempty s = true.
Proof. destruct s; [contradiction | reflexivity]. Qed.

(** C1.  [update_student] on the identifier of a stored student issues an
    UPDATE and commits it, whatever was typed for the new name and the new
    score.  A blank new name keeps the stored name; a blank new score keeps
    the stored score; a new score that [float] refuses is reported with
    "Invalid score. Keeping old value." and keeps the stored score.  With
    both kept, the file holds after the update what it held before. *)
Theorem update_student_blank_keeps (py_float : string -> option float)
  w driver d t i n s rest row :
  online 1 w driver d ->
  tbl_Students d = Some t ->
  unique_student_ids t ->
  stdin w = i :: n :: s :: rest ->
  let student_id := PyStr.strip i in
  let new_name := PyStr.strip n in
  let new_score_input := PyStr.strip s in
  find (has_student_id student_id) (rows t) = Some row ->
  exists name_final score_final notice,
    update_student py_float w
    = (Returned tt,
       after w
         (Sql.set_Students d
            {| rows := map (Sql.update_row name_final score_final student_id)
                         (rows t);
               next_id := next_id t |})
         3
         ([ Prompt "Enter Student ID to update: ";
            Printf "Current Name: {row.name}, Score: {row.score}"
              [ VStr (Students.name row); VFloat (Students.score row) ];
            Prompt "New name (leave blank to keep): ";
            Prompt "New score (leave blank to keep): " ]
          ++ notice ++ [ Print "Student updated." ])
         [ Connect driver; Execute (SelectStudents (StudentIdIs student_id));
           Execute (UpdateStudent name_final score_final student_id);
           Commit ])
    /\ (new_name = "" -> name_final = Students.name row)
    /\ (new_name <> "" -> name_final = new_name)
    /\ (new_score_input = "" ->
        score_final = Students.score row /\ notice = [])
    /\ (new_score_input <> "" -> py_float new_score_input = None ->
        score_final = Students.score row
        /\ notice = [ Print "Invalid score. Keeping old value." ])
    /\ (forall x, new_score_input <> "" -> py_float new_score_input = Some x ->
        score_final = x /\ notice = [])
    /\ (new_name = "" ->
        new_score_input = "" \/ py_float new_score_input = None ->
        file (snd (update_student py_float w)) = Some d).
Proof.
  intros Ho Ht Hu Hi student_id new_name new_score_input Hrow.
  pose proof (update_student_run py_float Ho Ht Hi Hrow) as Hrun.
  cbv zeta in Hrun. fold student_id new_name new_score_input in Hrun.
  eexists. eexists. eexists. split; [exact Hrun|].
  split; [|split; [|split; [|split; [|split]]]].
  - intros E. rewrite (nonempty_false E). reflexivity.
  - intros E. rewrite (nonempty_true E). reflexivity.
  - intros E. rewrite (nonempty_false E). split; reflexivity.
  - intros E Hp. rewrite (nonempty_true E), Hp. split; reflexivity.
  - intros x E Hp. rewrite (nonempty_true E), Hp. split; reflexivity.
  - intros En Es. rewrite Hrun. cbn [snd file after]. f_equal.
    rewrite (nonempty_false En).
    assert (Ek : match
                   (if PyStr.nonempty new_score_input
                    then py_float new_score_input
                    else Some (Students.score row))
                 with Some x => x | None => Students.score row end
                 = Students.score row).
    { destruct Es as [Es|Es].
      - rewrite (nonempty_false Es). reflexivity.
      - destruct (PyStr.nonempty new_score_input); [rewrite Es|]; reflexivity. }
    rewrite Ek, (@update_row_same student_id row (rows t) Hu Hrow).
    apply set_Students_same. exact Ht.
Qed.

Lemma update_student_blank_keeps_witness :
  file (snd (update_student Literal.float_literal
               (host (holding [] ann_and_bob) ["S1"; " "; "abc"])))
  = Some (holding [] ann_and_bob).
Proof.
  assert (Hu : unique_student_ids {| rows := ann_and_bob; next_id := 3 |}).
  { unfold unique_student_ids. simpl. repeat constructor; simpl.
    - intros [H | []]. discriminate.
    - intros []. }
  destruct (@update_student_blank_keeps Literal.float_literal
              (host (holding [] ann_and_bob) ["S1"; " "; "abc"])
              access_driver (holding [] ann_and_bob)
              {| rows := ann_and_bob; next_id := 3 |}
              "S1" " " "abc" [] (a_student 1 "S1" "Ann" 60%float)
              (host_online 1 _ _) eq_refl Hu eq_refl eq_refl)
    as (name_final & score_final & notice & _ & _ & _ & _ & _ & _ & Hsame).
  apply Hsame.
  - reflexivity.
  - right. reflexivity.
Defined.

Lemma login_true_iff_one_exact_match_witness :
  fst (login (host (holding [an_account 1 "alice" "secret"] [])
                ["alice"; "secret"]))
  = Returned true.
Proof.
  assert (Hu : unique_usernames
                 {| rows := [an_account 1 "alice" "secret"]; next_id := 2 |}).
  { unfold unique_usernames. simpl. repeat constructor. intros []. }
  destruct (@login_true_iff_one_exact_match
              (host (holding [an_account 1 "alice" "secret"] [])
                 ["alice"; "secret"])
              access_driver (holding [an_account 1 "alice" "secret"] [])
              {| rows := [an_account 1 "alice" "secret"]; next_id := 2 |}
              "alice" "secret" []
              (host_online 1 _ _) eq_refl Hu eq_refl)
    as (_ & b & w' & Hrun & _ & Hiff).
  rewrite Hrun. simpl. f_equal. apply Hiff. reflexivity.
Defined.

Lemma register_then_login_witness :
  exists w',
    (register ;; login) (host (holding [] []) ["bob"; "pw"; "bob"; "pw"])
    = (Returned true, w').
Proof.
  destruct (@register_then_login
              (host (holding [] []) ["bob"; "pw"; "bob"; "pw"])
              access_driver (holding [] []) {| rows := []; next_id := 1 |}
              "bob" "pw" []
              (host_online 2 _ _) eq_refl eq_refl)
    as (w' & Hrun & _).
  - discriminate.
  - discriminate.
  - intros r [].
  - exists w'. exact Hrun.
Defined.

Lemma add_then_search_by_id_witness :
  exists w',
    (add_student Literal.float_literal ;; search_student_by_id)
      (host (holding [] []) ["S1"; "Alice Smith"; "92.5"; "S1"])
    = (Returned tt, w')
    /\ console w'
       = [ Prompt "Student ID: "; Prompt "Name: ";
           Prompt "Score (0-100): "; Print "Student added.";
           Prompt "Enter Student ID to search: ";
           Printf "Found: ID={row.student_id}, Name={row.name}, Score={row.score}"
             [ VStr "S1"; VStr "Alice Smith"; VFloat 92.5%float ] ].
Proof.
  destruct (@add_then_search_by_id Literal.float_literal
              (host (holding [] []) ["S1"; "Alice Smith"; "92.5"; "S1"])
              access_driver (holding [] []) {| rows := []; next_id := 1 |}
              "S1" "Alice Smith" "92.5" [] 92.5%float
              (host_online 2 _ _) eq_refl eq_refl)
    as (w' & Hrun & _ & Hconsole & _).
  - reflexivity.
  - intros r [].
  - exists w'. split; [exact Hrun | exact Hconsole].
Defined.

(* ================================================================= *)
(** ** Passed and failed students (C2) *)

Lemma SFcompare_antisym a b :
  SFcompare a b = option_map CompOpp (SFcompare b a).
Proof.
  destruct a as [sa|sa| |sa ma ea], b as [sb|sb| |sb mb eb]; simpl;
    try reflexivity;
    try (destruct sa; reflexivity); try (destruct sb; reflexivity);
    try (destruct sa, sb; reflexivity).
  destruct sa, sb; simpl; try reflexivity.
  - rewrite (Z.compare_antisym eb ea).
    destruct (eb ?= ea)%Z; simpl; try reflexivity.
    do 2 f_equal. symmetry. exact (Pos.compare_cont_antisym mb ma Eq).
  - rewrite (Z.compare_antisym eb ea).
    destruct (eb ?= ea)%Z; simpl; try reflexivity.
    f_equal. symmetry. exact (Pos.compare_cont_antisym mb ma Eq).
Qed.

Lemma not_nan_spec x : PrimFloat.is_nan x = false -> Prim2SF x <> S754_nan.
Proof.
  unfold PrimFloat.is_nan. rewrite eqb_spec. unfold SFeqb.
  intros H E. rewrite E in H. discriminate.
Qed.

Lemma SFcompare_defined a b :
  a <> S754_nan -> b <> S754_nan -> exists c, SFcompare a b = Some c.
Proof.
  destruct a, b; simpl; intros Ha Hb; try congruence; eauto.
Qed.

(** [mark <= x] and [x < mark] never hold together. *)
Lemma leb_ltb_disjoint mark x :
  PrimFloat.leb mark x = true -> PrimFloat.ltb x mark = true -> False.
Proof.
  rewrite leb_spec, ltb_spec. unfold SFleb, SFltb.
  rewrite (SFcompare_antisym (Prim2SF x) (Prim2SF mark)).
  destruct (SFcompare (Prim2SF mark) (Prim2SF x)) as [[]|]; simpl;
    discriminate.
Qed.

(** Away from NaN, one of them holds. *)
Lemma ltb_negb_leb mark x :
  PrimFloat.is_nan mark = false -> PrimFloat.is_nan x = false ->
  PrimFloat.ltb x mark = negb (PrimFloat.leb mark x).
Proof.
  intros Hm Hx. apply not_nan_spec in Hm, Hx.
  rewrite leb_spec, ltb_spec. unfold SFleb, SFltb.
  rewrite (SFcompare_antisym (Prim2SF x) (Prim2SF mark)).
  destruct (@SFcompare_defined _ _ Hm Hx) as [c ->]. destruct c; reflexivity.
Qed.

Lemma filter_complement_permutation {R} (p q : R -> bool) xs :
  (forall r, In r xs -> q r = negb (p r)) ->
  Permutation (filter p xs ++ filter q xs) xs.
Proof.
  induction xs as [|x xs IH]; intros H; simpl; [constructor|].
  assert (IH' : Permutation (filter p xs ++ filter q xs) xs)
    by (apply IH; intros r Hr; apply H; simpl; auto).
  rewrite (H x) by (simpl; auto).
  destruct (p x); simpl.
  - constructor. exact IH'.
  - symmetry. apply Permutation_cons_app. symmetry. exact IH'.
Qed.

Lemma listing_run none heading (rs : list Students.row) w :
  match rs with
  | [] => print none
  | _ => print heading ;; for_each rs print_row
  end w
  = (Returned tt, set_console w (console w ++ listing none heading rs)).
Proof.
  destruct rs as [|r rs]; [reflexivity|].
  unfold listing.
  erewrite bind_returned; [ | reflexivity ].
  change (for_each (r :: rs) print_row)
    with (for_each (r :: rs) (fun x => emit (row_line x))).
  rewrite for_each_emit.
  apply f_equal2; [reflexivity|]. apply world_ext; fields.
Qed.

Lemma show_passed_students_run w driver d t mark :
  online 1 w driver d ->
  tbl_Students d = Some t ->
  show_passed_students mark w
  = (Returned tt,
     after w d 0
       (listing "No passed students." "Passed students:"
          (filter (fun r => PrimFloat.leb mark (Students.score r)) (rows t)))
       [ Connect driver; Execute (SelectStudents (ScoreGe mark)) ]).
Proof.
  intros Ho Ht. unfold show_passed_students.
  erewrite try_returned; [reflexivity|].
  erewrite with_run;
    [ | eapply get_connection_opens; eassumption
      | erewrite bind_returned;
        [ | eapply execute_run; [reflexivity|];
            simpl; unfold Sql.on_Students; rewrite Ht; reflexivity ];
        unfold fetchall; cbn [fetched Sql.result];
        apply listing_run ].
  same_world.
Qed.

Lemma show_failed_students_run w driver d t mark :
  online 1 w driver d ->
  tbl_Students d = Some t ->
  show_failed_students mark w
  = (Returned tt,
     after w d 0
       (listing "No failed students." "Failed students:"
          (filter (fun r => PrimFloat.ltb (Students.score r) mark) (rows t)))
       [ Connect driver; Execute (SelectStudents (ScoreLt mark)) ]).
Proof.
  intros Ho Ht. unfold show_failed_students.
  erewrite try_returned; [reflexivity|].
  erewrite with_run;
    [ | eapply get_connection_opens; eassumption
      | erewrite bind_returned;
        [ | eapply execute_run; [reflexivity|];
            simpl; unfold Sql.on_Students; rewrite Ht; reflexivity ];
        unfold fetchall; cbn [fetched Sql.result];
        apply listing_run ].
  same_world.
Qed.

(** C2, as the program has it.  With the pass mark 50.0,
    [show_passed_students] lists the rows whose score is at least the mark
    and [show_failed_students] the rows whose score is below it.  No row is
    in both listings, and a row whose score is 50.0 is in the first.  When
    no stored score is NaN, the two listings together are a rearrangement
    of the table: no row is left out. *)
Theorem passed_failed_partition w driver d t :
  online 1 w driver d ->
  tbl_Students d = Some t ->
  let mark := default_pass_mark in
  let passed :=
    filter (fun r => PrimFloat.leb mark (Students.score r)) (rows t) in
  let failed :=
    filter (fun r => PrimFloat.ltb (Students.score r) mark) (rows t) in
  show_passed_students mark w
  = (Returned tt,
     after w d 0
       (listing "No passed students." "Passed students:" passed)
       [ Connect driver; Execute (SelectStudents (ScoreGe mark)) ])
  /\ show_failed_students mark w
     = (Returned tt,
        after w d 0
          (listing "No failed students." "Failed students:" failed)
          [ Connect driver; Execute (SelectStudents (ScoreLt mark)) ])
  /\ (forall r, In r passed -> ~ In r failed)
  /\ (forall r, In r (rows t) -> Students.score r = 50%float -> In r passed)
  /\ ((forall r, In r (rows t) -> PrimFloat.is_nan (Students.score r) = false)
      -> Permutation (passed ++ failed) (rows t)).
Proof.
  intros Ho Ht mark passed failed.
  split; [apply (show_passed_students_run mark Ho Ht)|].
  split; [apply (show_failed_students_run mark Ho Ht)|].
  split; [|split].
  - intros r Hp Hf. apply filter_In in Hp, Hf.
    exact (leb_ltb_disjoint (proj2 Hp) (proj2 Hf)).
  - intros r Hr Hs. apply filter_In. split; [exact Hr|].
    rewrite Hs. reflexivity.
  - intros Hnan. apply filter_complement_permutation.
    intros r Hr. apply ltb_negb_leb; [reflexivity | apply Hnan; exact Hr].
Qed.

Lemma passed_failed_partition_witness :
  Permutation
    (filter (fun r => PrimFloat.leb 50%float (Students.score r)) ann_and_bob
     ++ filter (fun r => PrimFloat.ltb (Students.score r) 50%float) ann_and_bob)
    ann_and_bob.
Proof.
  apply (@passed_failed_partition (host (holding [] ann_and_bob) [])
           access_driver (holding [] ann_and_bob)
           {| rows := ann_and_bob; next_id := 3 |}
           (host_online 1 _ _) eq_refl).
  intros r [<- | [<- | []]]; reflexivity.
Defined.

(** C2, as the specification states it, fails: a student added with the
    score [nan], which [float] reads, is in the table and in neither
    listing. *)
Lemma nan_score_in_neither_listing :
  exists w1 r,
    add_student Literal.float_literal (host (holding [] []) ["S3"; "Cy"; "nan"])
    = (Returned tt, w1)
    /\ file w1 = Some (holding [] [r])
    /\ show_passed_students default_pass_mark w1
       = (Returned tt,
          after w1 (holding [] [r]) 0 [ Print "No passed students." ]
            [ Connect access_driver;
              Execute (SelectStudents (ScoreGe default_pass_mark)) ])
    /\ show_failed_students default_pass_mark w1
       = (Returned tt,
          after w1 (holding [] [r]) 0 [ Print "No failed students." ]
            [ Connect access_driver;
              Execute (SelectStudents (ScoreLt default_pass_mark)) ]).
Proof.
  eexists. exists (a_student 1 "S3" "Cy" PrimFloat.nan).
  split; [vm_compute; reflexivity|].
  split; [reflexivity|].
  split; vm_compute; reflexivity.
Qed.

(* ================================================================= *)
(** ** Which exceptions leave an operation *)

Lemma bind_inversion {A B} (m : M A) (k : A -> M B) w r w' :
  bind m k w = (r, w') ->
  (exists a w1, m w = (Returned a, w1) /\ k a w1 = (r, w'))
  \/ (exists e, m w = (Raised e, w') /\ r = Raised e)
  \/ (m w = (OutOfFuel, w') /\ r = OutOfFuel).
Proof.
  unfold bind. destruct (m w) as [[a|e|] w1]; intros H.
  - left. eauto.
  - right. left. inversion H; subst. eauto.
  - right. right. inversion H; subst. auto.
Qed.

Lemma behaves_bind P {A B} (m : M A) (k : A -> M B) w :
  behaves P m w ->
  (forall a w1, m w = (Returned a, w1) -> behaves P (k a) w1) ->
  behaves P (bind m k) w.
Proof.
  intros Hm Hk r w' H.
  destruct (bind_inversion _ _ _ H) as [(a & w1 & E & Ek) | [(e & E & ->) | (E & ->)]].
  - destruct (Hm _ _ E) as (Hd & Hl & _).
    destruct (Hk _ _ E _ _ Ek) as (Hd' & Hl' & Hr).
    split; [congruence|]. split; [lia | exact Hr].
  - exact (Hm _ _ E).
  - exact (Hm _ _ E).
Qed.

Lemma behaves_weaken (P Q : exn -> Prop) {A} (m : M A) w :
  (forall e, P e -> Q e) -> behaves P m w -> behaves Q m w.
Proof.
  intros HPQ Hm r w' H. destruct (Hm _ _ H) as (Hd & Hl & Hr).
  split; [exact Hd|]. split; [exact Hl|].
  destruct r; auto. destruct Hr. split; auto.
Qed.

Lemma installed_after w w' :
  host_drivers w' = host_drivers w -> driver_installed w -> driver_installed w'.
Proof. unfold driver_installed. intros ->. auto. Qed.

Lemma ro_bind P {A B} (m : M A) (k : A -> M B) :
  raises_only P m -> (forall a, raises_only P (k a)) ->
  raises_only P (bind m k).
Proof.
  intros Hm Hk w Hw. apply behaves_bind; [apply Hm; exact Hw|].
  intros a w1 E. apply Hk.
  destruct (Hm w Hw _ _ E) as (Hd & _). exact (@installed_after w w1 Hd Hw).
Qed.

Lemma ro_weaken (P Q : exn -> Prop) {A} (m : M A) :
  (forall e, P e -> Q e) -> raises_only P m -> raises_only Q m.
Proof.
  intros HPQ Hm w Hw. exact (@behaves_weaken P Q A m w HPQ (Hm w Hw)).
Qed.

Lemma ro_ret P {A} (a : A) : raises_only P (ret a).
Proof.
  intros w _ r w' H. inversion H; subst. repeat split; auto.
Qed.

Lemma ro_emit P l : raises_only P (emit l).
Proof.
  intros w _ r w' H. inversion H; subst. repeat split; auto.
Qed.

Lemma ro_raise (P : exn -> Prop) {A} e :
  P e -> e <> EOFError -> raises_only P (@raise A e).
Proof.
  intros He Hne w _ r w' H. inversion H; subst. repeat split; auto.
  intros E. contradiction.
Qed.

Lemma ro_readline (P : exn -> Prop) : P EOFError -> raises_only P readline.
Proof.
  intros He w _ r w' H. unfold readline in H.
  destruct (stdin w) as [|l rest] eqn:E; inversion H; subst; simpl;
    rewrite ?E; simpl; repeat split; auto.
Qed.

Lemma ro_input (P : exn -> Prop) prompt : P EOFError -> raises_only P (input prompt).
Proof.
  intros He. unfold input. apply ro_bind; [apply ro_emit|].
  intros _. apply ro_readline. exact He.
Qed.

Lemma ro_getpass (P : exn -> Prop) prompt :
  P EOFError -> raises_only P (getpass prompt).
Proof.
  intros He. unfold getpass. apply ro_bind; [apply ro_emit|].
  intros _. apply ro_readline. exact He.
Qed.

Lemma ro_try (P Q : exn -> Prop) {A} (body : M A) hs :
  raises_only P body ->
  (forall e, P e ->
     match find (fun h => catches (fst h) e) hs with
     | Some h => raises_only Q (snd h e)
     | None => Q e
     end) ->
  raises_only Q (try_ body hs).
Proof.
  intros Hb Hh w Hw r w' H. unfold try_ in H.
  destruct (body w) as [[a|e|] w1] eqn:E.
  - inversion H; subst. destruct (Hb w Hw _ _ E) as (Hd & Hl & _).
    repeat split; auto.
  - destruct (Hb w Hw _ _ E) as (Hd & Hl & He & Heof).
    specialize (Hh e He).
    destruct (find (fun h => catches (fst h) e) hs) as [h|].
    + destruct (Hh w1 (@installed_after w w1 Hd Hw) _ _ H) as (Hd' & Hl' & Hr).
      split; [congruence|]. split; [lia | exact Hr].
    + inversion H; subst. repeat split; auto.
  - destruct (Hb w Hw _ _ E) as (_ & _ & []).
Qed.

Lemma ro_with P {A} acquire (body : M A) :
  raises_only P acquire -> raises_only P body ->
  raises_only P (with_ acquire body).
Proof.
  intros Ha Hb. unfold with_. apply ro_bind; [exact Ha|].
  intros _ w Hw r w' H.
  destruct (body w) as [r1 w1] eqn:E. inversion H; subst.
  exact (Hb w Hw _ _ E).
Qed.

Lemma ro_for_each P {A} (xs : list A) body :
  (forall x, raises_only P (body x)) -> raises_only P (for_each xs body).
Proof.
  intros Hb. induction xs as [|x xs IH]; simpl.
  - apply ro_ret.
  - apply ro_bind; [apply Hb | intros _; exact IH].
Qed.

Lemma run_raises {R} (q : stmt R) d e :
  Sql.run q d = inl e -> e = PyodbcError \/ e = IntegrityError.
Proof.
  destruct q; simpl; unfold Sql.on_Users, Sql.on_Students;
    repeat match goal with
           | |- context [match ?x with _ => _ end] => destruct x
           end;
    intros H; inversion H; auto.
Qed.

Lemma ro_execute (P : exn -> Prop) {R} (q : stmt R) :
  P PyodbcError -> P IntegrityError -> raises_only P (execute q).
Proof.
  intros H1 H2 w _ r w' H. unfold execute in H. simpl in H.
  destruct (session w) as [d|].
  - destruct (Sql.run q d) as [e|[cur d']] eqn:E; inversion H; subst; simpl.
    + destruct (run_raises _ _ E) as [-> | ->];
        repeat split; auto; discriminate.
    + repeat split; auto.
  - inversion H; subst; simpl. repeat split; auto. discriminate.
Qed.

Lemma ro_commit (P : exn -> Prop) : P PyodbcError -> raises_only P commit.
Proof.
  intros H1 w _ r w' H. unfold commit in H. simpl in H.
  destruct (session w) as [d|]; inversion H; subst; simpl;
    repeat split; auto; discriminate.
Qed.

Lemma ro_connect (P : exn -> Prop) driver :
  P PyodbcError -> raises_only P (connect driver).
Proof.
  intros H1 w _ r w' H. unfold connect in H. simpl in H.
  destruct (connects w) as [|[] l]; inversion H; subst; simpl;
    repeat split; auto; discriminate.
Qed.

Lemma ro_get_connection (P : exn -> Prop) :
  P PyodbcError -> raises_only P get_connection.
Proof.
  intros H1 w Hw.
  destruct (find_access_driver (host_drivers w)) as [driver|] eqn:E;
    [|contradiction].
  assert (H : raises_only P
                ((match file w with
                  | None =>
                      printf "\nWARNING: Database file not found at: {db_path}"
                        [VPath ACCESS_DB_PATH] ;;
                      print "Creating new database file..."
                  | Some _ => ret tt
                  end) ;;
                 try_ (connect driver)
                   [ (ExceptPyodbcError, fun e =>
                        printf "\nERROR connecting to database: {e}" [VExn e] ;;
                        printf "Driver used: {driver}" [VStr driver] ;;
                        printf "Database path: {db_path}" [VPath ACCESS_DB_PATH] ;;
                        raise e) ])).
  { apply ro_bind.
    - destruct (file w).
      + apply ro_ret.
      + apply ro_bind; [apply ro_emit | intros _; apply ro_emit].
    - intros _. apply ro_try with (P := fun e => e = PyodbcError).
      + apply ro_connect. reflexivity.
      + intros e ->. simpl.
        repeat (apply ro_bind; [apply ro_emit | intros _]).
        apply ro_raise; [exact H1 | discriminate]. }
  intros r w' Hrun. unfold get_connection in Hrun. rewrite E in Hrun.
  exact (H w Hw r w' Hrun).
Qed.

Ltac ro_side :=
  first [ reflexivity | assumption | discriminate | exact I
        | left; reflexivity | right; reflexivity ].

(** One step through a computation whose [try] bodies raise within [P0]. *)
Ltac ro_step P0 :=
  match goal with
  | |- raises_only _ (bind _ _) => apply ro_bind; [ | intro ]
  | |- raises_only _ (ret _) => apply ro_ret
  | |- raises_only _ (emit _) => apply ro_emit
  | |- raises_only _ (print _) => apply ro_emit
  | |- raises_only _ (printf _ _) => apply ro_emit
  | |- raises_only _ (input _) => apply ro_input; ro_side
  | |- raises_only _ (getpass _) => apply ro_getpass; ro_side
  | |- raises_only _ (execute _) => apply ro_execute; ro_side
  | |- raises_only _ commit => apply ro_commit; ro_side
  | |- raises_only _ get_connection => apply ro_get_connection; ro_side
  | |- raises_only _ (with_ _ _) => apply ro_with
  | |- raises_only _ (for_each _ _) => apply ro_for_each; intro
  | |- raises_only _ (raise _) => apply ro_raise; ro_side
  | |- raises_only _ (try_ _ _) =>
      apply ro_try with (P := P0);
      [ | let e := fresh "e" in
          let He := fresh "He" in
          intros e He; destruct e;
          try (exfalso; clear - He; unfold exception in He; simpl in He;
               intuition discriminate);
          cbn [find catches fst snd] ]
  | |- raises_only _ (match ?x with _ => _ end) => destruct x
  end.

Ltac ro := repeat ro_step exception.

Lemma table_exists_ro P table_name : raises_only P (table_exists table_name).
Proof.
  unfold table_exists. apply ro_try with (P := pyodbc_error).
  - repeat ro_step pyodbc_error.
  - intros e [-> | ->]; cbn [find catches fst snd]; apply ro_ret.
Qed.

Lemma init_db_ro : raises_only pyodbc_error init_db.
Proof.
  unfold init_db. apply ro_try with (P := pyodbc_error).
  - apply ro_with; [apply ro_get_connection; left; reflexivity|].
    apply ro_bind; [apply table_exists_ro | intro].
    apply ro_bind; [repeat ro_step pyodbc_error | intro].
    apply ro_bind; [apply table_exists_ro | intro].
    repeat ro_step pyodbc_error.
  - intros e [-> | ->]; cbn [find catches fst snd];
      repeat ro_step pyodbc_error.
Qed.

Lemma register_ro : raises_only only_eof register.
Proof. unfold register. ro. Qed.

Lemma login_ro : raises_only only_eof login.
Proof. unfold login. ro. Qed.

Section OperationsRaise.

Variable py_float : string -> option float.

Lemma float_ro (P : exn -> Prop) s : P ValueError -> raises_only P (float_ py_float s).
Proof.
  intros H. unfold float_. destruct (py_float s).
  - apply ro_ret.
  - apply ro_raise; [exact H | discriminate].
Qed.

Lemma add_student_ro : raises_only only_eof (add_student py_float).
Proof.
  unfold add_student.
  apply ro_bind; [ro | intro].
  apply ro_bind; [ro | intro].
  apply ro_bind.
  - apply ro_try with (P := fun e => e = EOFError \/ e = ValueError).
    + apply ro_bind; [apply ro_input; left; reflexivity | intro].
      apply ro_bind; [apply float_ro; right; reflexivity | intro].
      apply ro_ret.
    + intros e [-> | ->]; cbn [find catches fst snd]; [reflexivity | ro].
  - intros [score|]; ro.
Qed.

Lemma show_all_students_ro : raises_only only_eof show_all_students.
Proof. unfold show_all_students. ro. Qed.

Lemma search_student_by_id_ro : raises_only only_eof search_student_by_id.
Proof. unfold search_student_by_id. ro. Qed.

Lemma search_students_by_name_ro : raises_only only_eof search_students_by_name.
Proof. unfold search_students_by_name, print_row. ro. Qed.

Lemma update_student_ro : raises_only only_eof (update_student py_float).
Proof.
  unfold update_student.
  apply ro_bind; [ro | intro].
  apply ro_try with (P := exception).
  - apply ro_with; [ro|].
    apply ro_bind; [ro | intro].
    destruct (fetchone _); [|ro].
    apply ro_bind; [ro | intro].
    apply ro_bind; [ro | intro].
    apply ro_bind; [ro | intro].
    apply ro_bind; [|intro; ro].
    destruct (PyStr.nonempty _); [|ro].
    apply ro_try with (P := exception).
    + apply float_ro. reflexivity.
    + intros e He; destruct e;
        try (exfalso; clear - He; unfold exception in He; simpl in He;
             discriminate);
        cbn [find catches fst snd]; try exact He; ro.
  - intros e He; destruct e;
      try (exfalso; clear - He; unfold exception in He; simpl in He;
           discriminate);
      cbn [find catches fst snd]; ro.
Qed.

Lemma delete_student_ro : raises_only only_eof delete_student.
Proof. unfold delete_student. ro. Qed.

Lemma count_students_ro : raises_only only_eof count_students.
Proof. unfold count_students, first_column. ro. Qed.

Lemma calculate_average_score_ro : raises_only only_eof calculate_average_score.
Proof. unfold calculate_average_score, first_column. ro. Qed.

Lemma show_passed_students_ro mark :
  raises_only only_eof (show_passed_students mark).
Proof. unfold show_passed_students, print_row. ro. Qed.

Lemma show_failed_students_ro mark :
  raises_only only_eof (show_failed_students mark).
Proof. unfold show_failed_students, print_row. ro. Qed.

Lemma print_student_menu_ro P : raises_only P print_student_menu.
Proof. unfold print_student_menu. ro. Qed.

Lemma print_main_menu_ro P : raises_only P print_main_menu.
Proof. unfold print_main_menu. ro. Qed.

Lemma student_menu_choice_ro choice :
  raises_only only_eof (student_menu_choice py_float choice).
Proof.
  unfold student_menu_choice.
  repeat match goal with
         | |- raises_only _ (if ?b then _ else _) => destruct b
         end.
  all: try (apply ro_bind; [ | intro; apply ro_ret ]).
  - apply add_student_ro.
  - apply show_all_students_ro.
  - apply search_student_by_id_ro.
  - apply search_students_by_name_ro.
  - apply update_student_ro.
  - apply delete_student_ro.
  - apply count_students_ro.
  - apply calculate_average_score_ro.
  - apply show_passed_students_ro.
  - apply show_failed_students_ro.
  - apply ro_emit.
  - apply ro_emit.
Qed.

End OperationsRaise.

(* ================================================================= *)
(** ** The two loops (C3, C10) *)

Lemma input_returned prompt w l w' :
  input prompt w = (Returned l, w') ->
  stdin w = l :: stdin w'
  /\ console w' = console w ++ [Prompt prompt]
  /\ host_drivers w' = host_drivers w.
Proof.
  unfold input, bind, emit, readline. simpl.
  destruct (stdin w) as [|x rest]; intros H; inversion H; subst; simpl.
  auto.
Qed.

Lemma returns_always {A} (m : M A) w r w' :
  behaves nothing m w -> m w = (r, w') -> exists a, r = Returned a.
Proof.
  intros Hm H. destruct (Hm _ _ H) as (_ & _ & Hr).
  destruct r as [a|e|]; [eauto | destruct Hr as [[] _] | contradiction].
Qed.

Section Loops.

Variable py_float : string -> option float.

Lemma student_menu_loop_behaves fuel :
  forall w,
    driver_installed w ->
    List.length (stdin w) < fuel ->
    behaves only_eof (student_menu_loop py_float fuel) w.
Proof.
  induction fuel as [|fuel IH]; intros w Hw Hlt; [lia|].
  cbn [student_menu_loop].
  apply behaves_bind; [apply print_student_menu_ro; exact Hw|].
  intros [] w1 E1.
  destruct (@print_student_menu_ro only_eof w Hw _ _ E1) as (Hd1 & Hl1 & _).
  assert (Hw1 : driver_installed w1) by exact (@installed_after w w1 Hd1 Hw).
  apply behaves_bind; [apply ro_input; [reflexivity | exact Hw1]|].
  intros c w2 E2.
  destruct (input_returned _ _ E2) as (Hs2 & _ & Hd2).
  assert (Hw2 : driver_installed w2) by exact (@installed_after w1 w2 Hd2 Hw1).
  apply behaves_bind; [apply student_menu_choice_ro; exact Hw2|].
  intros stop w3 E3.
  destruct (@student_menu_choice_ro py_float (PyStr.strip c) w2 Hw2 _ _ E3)
    as (Hd3 & Hl3 & _).
  destruct stop.
  - apply ro_ret. exact (@installed_after w2 w3 Hd3 Hw2).
  - apply IH; [exact (@installed_after w2 w3 Hd3 Hw2)|].
    rewrite Hs2 in Hl1. simpl in Hl1. lia.
Qed.

Lemma main_loop_ends fuel :
  forall w r w',
    driver_installed w ->
    List.length (stdin w) < fuel ->
    main_loop py_float fuel w = (r, w') ->
    ends_by_exit_or_eof r w'.
Proof.
  induction fuel as [|fuel IH]; intros w r w' Hw Hlt H; [lia|].
  cbn [main_loop] in H.
  apply bind_inversion in H.
  destruct H as [(u1 & w1 & E1 & H) | [(e & E1 & _) | (E1 & _)]].
  2:{ destruct (@returns_always _ print_main_menu w _ _
                  (@print_main_menu_ro nothing w Hw) E1).
      discriminate. }
  2:{ destruct (@returns_always _ print_main_menu w _ _
                  (@print_main_menu_ro nothing w Hw) E1).
      discriminate. }
  destruct (@print_main_menu_ro only_eof w Hw _ _ E1) as (Hd1 & Hl1 & _).
  assert (Hw1 : driver_installed w1) by exact (@installed_after w w1 Hd1 Hw).
  apply bind_inversion in H.
  destruct H as [(c & w2 & E2 & H) | [(e & E2 & ->) | (E2 & _)]].
  2:{ destruct (@ro_input only_eof "Choose an option (1-3): "
                  eq_refl w1 Hw1 _ _ E2) as (_ & _ & He & Heof).
      right. unfold only_eof in He. subst e. auto. }
  2:{ destruct (@ro_input only_eof "Choose an option (1-3): "
                  eq_refl w1 Hw1 _ _ E2) as (_ & _ & []). }
  destruct (input_returned _ _ E2) as (Hs2 & Hc2 & Hd2).
  assert (Hw2 : driver_installed w2) by exact (@installed_after w1 w2 Hd2 Hw1).
  assert (Hl2 : List.length (stdin w2) < fuel)
    by (rewrite Hs2 in Hl1; simpl in Hl1; lia).
  apply bind_inversion in H.
  assert (Hnext :
    forall m : M unit,
      behaves only_eof m w2 ->
      ((exists a w3, m w2 = (Returned a, w3) /\ main_loop py_float fuel w3 = (r, w'))
       \/ (exists e, m w2 = (Raised e, w') /\ r = Raised e)
       \/ (m w2 = (OutOfFuel, w') /\ r = OutOfFuel)) ->
      ends_by_exit_or_eof r w').
  { intros m Hm [(a & w3 & E3 & Hrec) | [(e & E3 & ->) | (E3 & _)]].
    - destruct (Hm _ _ E3) as (Hd3 & Hl3 & _).
      apply (IH w3 r w'); [exact (@installed_after w2 w3 Hd3 Hw2) | lia | exact Hrec].
    - destruct (Hm _ _ E3) as (_ & _ & He & Heof).
      right. unfold only_eof in He. subst e. auto.
    - destruct (Hm _ _ E3) as (_ & _ & []). }
  destruct (String.eqb (PyStr.strip c) "1").
  { apply (Hnext register); [apply register_ro; exact Hw2 | exact H]. }
  destruct (String.eqb (PyStr.strip c) "2").
  { refine (Hnext _ _ H).
    apply behaves_bind; [apply login_ro; exact Hw2|].
    intros ok w3 E3.
    destruct (@login_ro w2 Hw2 _ _ E3) as (Hd3 & Hl3 & _).
    destruct ok.
    - apply student_menu_loop_behaves;
        [exact (@installed_after w2 w3 Hd3 Hw2) | lia].
    - apply ro_ret. exact (@installed_after w2 w3 Hd3 Hw2). }
  destruct (String.eqb (PyStr.strip c) "3").
  { destruct H as [(a & w3 & E3 & _) | [(e & E3 & ->) | (E3 & _)]].
    - unfold bind, print, emit, raise in E3. simpl in E3. discriminate.
    - unfold bind, print, emit, raise in E3. simpl in E3.
      inversion E3; subst. left. split; [reflexivity|].
      exists (console w1). simpl. rewrite Hc2, <- app_assoc. reflexivity.
    - unfold bind, print, emit, raise in E3. simpl in E3. discriminate. }
  apply (Hnext (print "Invalid choice. Try again."));
    [apply ro_emit; exact Hw2 | exact H].
Qed.

End Loops.

(** *** What [init_db] writes *)

Lemma prints_ret ok {A} (a : A) : prints ok (ret a).
Proof.
  intros w r w' H. inversion H; subst. exists []. rewrite app_nil_r. auto.
Qed.

Lemma prints_raise ok {A} e : prints ok (@raise A e).
Proof.
  intros w r w' H. inversion H; subst. exists []. rewrite app_nil_r. auto.
Qed.

Lemma prints_emit (ok : line -> Prop) l : ok l -> prints ok (emit l).
Proof.
  intros Hl w r w' H. inversion H; subst. exists [l]. simpl. auto.
Qed.

Lemma prints_bind ok {A B} (m : M A) (k : A -> M B) :
  prints ok m -> (forall a, prints ok (k a)) -> prints ok (bind m k).
Proof.
  intros Hm Hk w r w' H.
  destruct (bind_inversion _ _ _ H)
    as [(a & w1 & E & Ek) | [(e & E & ->) | (E & ->)]].
  - destruct (Hm _ _ _ E) as (p1 & Hc1 & Hf1).
    destruct (Hk a _ _ _ Ek) as (p2 & Hc2 & Hf2).
    exists (p1 ++ p2). rewrite Hc2, Hc1, app_assoc. split; [reflexivity|].
    apply Forall_app. auto.
  - exact (Hm _ _ _ E).
  - exact (Hm _ _ _ E).
Qed.

Lemma prints_try ok {A} (body : M A) hs :
  prints ok body ->
  Forall (fun h => forall e, prints ok (snd h e)) hs ->
  prints ok (try_ body hs).
Proof.
  intros Hb Hh w r w' H. unfold try_ in H.
  destruct (body w) as [[a|e|] w1] eqn:E.
  - inversion H; subst. exact (Hb _ _ _ E).
  - destruct (find (fun h => catches (fst h) e) hs) as [h|] eqn:Ef.
    + apply find_some in Ef. destruct Ef as [Hin _].
      rewrite Forall_forall in Hh.
      destruct (Hb _ _ _ E) as (p1 & Hc1 & Hf1).
      destruct (Hh h Hin e _ _ _ H) as (p2 & Hc2 & Hf2).
      exists (p1 ++ p2). rewrite Hc2, Hc1, app_assoc. split; [reflexivity|].
      apply Forall_app. auto.
    + inversion H; subst. exact (Hb _ _ _ E).
  - inversion H; subst. exact (Hb _ _ _ E).
Qed.

Lemma prints_silent ok {A} (m : M A) :
  (forall w r w', m w = (r, w') -> console w' = console w) -> prints ok m.
Proof.
  intros Hm w r w' H. exists []. rewrite app_nil_r. split; [|constructor].
  exact (Hm _ _ _ H).
Qed.

Lemma prints_execute ok {R} (q : stmt R) : prints ok (execute q).
Proof.
  apply prints_silent. intros w r w'. unfold execute. simpl.
  destruct (session w) as [d|]; [destruct (Sql.run q d) as [e|[cur d']]|];
    intros H; inversion H; reflexivity.
Qed.

Lemma prints_commit ok : prints ok commit.
Proof.
  apply prints_silent. intros w r w'. unfold commit. simpl.
  destruct (session w); intros H; inversion H; reflexivity.
Qed.

Lemma prints_connect ok driver : prints ok (connect driver).
Proof.
  apply prints_silent. intros w r w'. unfold connect. simpl.
  destruct (connects w) as [|[] l]; intros H; inversion H; reflexivity.
Qed.

Lemma prints_with ok {A} acquire (body : M A) :
  prints ok acquire -> prints ok body -> prints ok (with_ acquire body).
Proof.
  intros Ha Hb. unfold with_. apply prints_bind; [exact Ha|].
  intros _ w r w' H. destruct (body w) as [r1 w1] eqn:E.
  inversion H; subst. exact (Hb _ _ _ E).
Qed.

Ltac not_menu := split; discriminate.

Lemma prints_get_connection : prints not_a_menu get_connection.
Proof.
  intros w r w' H. unfold get_connection in H.
  destruct (find_access_driver (host_drivers w)) as [driver|].
  - assert (Hp : prints not_a_menu
              ((match file w with
                | None =>
                    printf "\nWARNING: Database file not found at: {db_path}"
                      [VPath ACCESS_DB_PATH] ;;
                    print "Creating new database file..."
                | Some _ => ret tt
                end) ;;
               try_ (connect driver)
                 [ (ExceptPyodbcError, fun e =>
                      printf "\nERROR connecting to database: {e}" [VExn e] ;;
                      printf "Driver used: {driver}" [VStr driver] ;;
                      printf "Database path: {db_path}" [VPath ACCESS_DB_PATH] ;;
                      raise e) ])).
    { apply prints_bind.
      - destruct (file w); [apply prints_ret|].
        apply prints_bind; [apply prints_emit; not_menu|].
        intros _. apply prints_emit; not_menu.
      - intros _. apply prints_try; [apply prints_connect|].
        repeat constructor. intros e. cbn [snd].
        repeat (apply prints_bind; [apply prints_emit; not_menu | intros _]).
        apply prints_raise. }
    exact (Hp _ _ _ H).
  - assert (Hp : @prints not_a_menu unit
              (print "\nERROR: Microsoft Access ODBC Driver not found!" ;;
               print "\nPlease install Microsoft Access Database Engine:" ;;
               print "Download from: https://www.microsoft.com/en-us/download/details.aspx?id=54920" ;;
               print "\nIMPORTANT: Install the version (32-bit or 64-bit) that matches your Python installation." ;;
               print ("To check your Python version, run: python -c "
                      ++ double_quote
                      ++ "import platform; print(platform.architecture()[0])"
                      ++ double_quote) ;;
               raise (SystemExit 1))).
    { repeat (apply prints_bind; [apply prints_emit; not_menu | intros _]).
      apply prints_raise. }
    exact (Hp _ _ _ H).
Qed.

Lemma prints_table_exists ok table_name : prints ok (table_exists table_name).
Proof.
  unfold table_exists. apply prints_try.
  - apply prints_bind; [apply prints_execute | intros _; apply prints_ret].
  - repeat constructor. intros e. apply prints_ret.
Qed.

Lemma prints_init_db : prints not_a_menu init_db.
Proof.
  unfold init_db. apply prints_try.
  - apply prints_with; [apply prints_get_connection|].
    apply prints_bind; [apply prints_table_exists | intros users].
    apply prints_bind.
    { destruct (negb users); [|apply prints_ret].
      apply prints_bind; [apply prints_execute | intros _].
      apply prints_emit; not_menu. }
    intros _.
    apply prints_bind; [apply prints_table_exists | intros students].
    apply prints_bind.
    { destruct (negb students); [|apply prints_ret].
      apply prints_bind; [apply prints_execute | intros _].
      apply prints_emit; not_menu. }
    intros _. apply prints_commit.
  - repeat constructor. intros e. cbn [snd].
    apply prints_bind; [apply prints_emit; not_menu | intros _].
    apply prints_raise.
Qed.

Lemma init_db_no_driver w :
  find_access_driver (host_drivers w) = None ->
  init_db w
  = (Raised (SystemExit 1), set_console w (console w ++ driver_diagnostic)).
Proof.
  intros Hd. unfold init_db.
  erewrite try_raised;
    [ | eapply with_refused; apply get_connection_no_driver; exact Hd ].
  reflexivity.
Qed.

(** C3, as the program has it.  With fuel for every line of the console
    input, [main] ends, and only in one of these ways: at startup, inside
    [init_db] and before any menu is written, with [sys.exit(1)] when no
    driver is installed, or with the pyodbc error that [init_db] raises
    again when the connection or the creation of the tables fails; after
    startup, with [sys.exit(0)] on the choice of Exit at the top-level menu,
    or with [EOFError] when the console input has ended.  No other
    exception leaves an operation or a loop. *)
Theorem main_ends_at_startup_exit_or_eof
  (py_float : string -> option float) fuel w r w' :
  List.length (stdin w) < fuel ->
  main py_float fuel w = (r, w') ->
  (find_access_driver (host_drivers w) = None
   /\ r = Raised (SystemExit 1)
   /\ w' = set_console w (console w ++ driver_diagnostic))
  \/ (exists e,
         pyodbc_error e /\ r = Raised e /\ init_db w = (Raised e, w')
         /\ exists printed,
              console w' = console w ++ printed /\ Forall not_a_menu printed)
  \/ (exists w1, init_db w = (Returned tt, w1) /\ ends_by_exit_or_eof r w').
Proof.
  intros Hlt H. unfold main in H.
  destruct (find_access_driver (host_drivers w)) as [driver|] eqn:Ed.
  - assert (Hw : driver_installed w)
      by (unfold driver_installed; rewrite Ed; discriminate).
    apply bind_inversion in H.
    destruct H as [(u & w1 & E & H) | [(e & E & ->) | (E & _)]].
    + right. right. destruct u. exists w1. split; [exact E|].
      destruct (@init_db_ro w Hw _ _ E) as (Hd1 & Hl1 & _).
      apply (@main_loop_ends py_float fuel w1 r w');
        [exact (@installed_after w w1 Hd1 Hw) | lia | exact H].
    + right. left. exists e.
      destruct (@init_db_ro w Hw _ _ E) as (_ & _ & He & _).
      split; [exact He|]. split; [reflexivity|]. split; [exact E|].
      exact (@prints_init_db _ _ _ E).
    + destruct (@init_db_ro w Hw _ _ E) as (_ & _ & []).
  - left. unfold bind in H. rewrite (@init_db_no_driver w Ed) in H.
    inversion H; subst. auto.
Qed.

Lemma main_ends_at_startup_exit_or_eof_witness :
  exists w1,
    init_db (host empty_database ["3"]) = (Returned tt, w1)
    /\ ends_by_exit_or_eof
         (fst (main Literal.float_literal 2 (host empty_database ["3"])))
         (snd (main Literal.float_literal 2 (host empty_database ["3"]))).
Proof.
  destruct (@main_ends_at_startup_exit_or_eof Literal.float_literal 2
              (host empty_database ["3"])
              (fst (main Literal.float_literal 2 (host empty_database ["3"])))
              (snd (main Literal.float_literal 2 (host empty_database ["3"]))))
    as [(Hd & _) | [(e & _ & _ & He & _) | Hend]].
  - simpl. lia.
  - vm_compute. reflexivity.
  - vm_compute in Hd. discriminate.
  - vm_compute in He. discriminate.
  - exact Hend.
Defined.

(** C3, as the specification states it, fails: with the driver installed and
    a first connection that does not open, [init_db] raises the error again
    and [main] ends with it, before reading a choice; this is neither the
    missing driver nor the choice of Exit. *)
Lemma startup_connection_failure_ends_main :
  find_access_driver (host_drivers (unreachable_host ["1"])) = Some access_driver
  /\ main Literal.float_literal 2 (unreachable_host ["1"])
     = (Raised PyodbcError,
        refused (unreachable_host ["1"]) access_driver
          (connect_report access_driver
           ++ [ Printf "Error initializing database: {e}" [VExn PyodbcError] ])).
Proof.
  split; vm_compute; reflexivity.
Qed.

(** C10.  Whatever fails between [get_connection] and the end of the query,
    [login] reports it with "Error during login" and returns [False]: it
    never raises once the two lines are typed and a driver is installed.
    This is so when the connection does not open and when the SELECT
    raises; and after a [login] that returned [False] the top-level loop
    goes to its next turn, without the student menu. *)
Theorem login_failure_returns_false w u p rest :
  driver_installed w ->
  stdin w = u :: p :: rest ->
  let username := PyStr.strip u in
  let password := PyStr.strip p in
  (exists b w', login w = (Returned b, w'))
  /\ (forall driver d cs,
         find_access_driver (host_drivers w) = Some driver ->
         file w = Some d ->
         connects w = false :: cs ->
         login w
         = (Returned false,
            {| host_drivers := host_drivers w;
               connects := cs;
               file := Some d;
               session := session w;
               stdin := rest;
               console :=
                 console w
                 ++ [ Prompt "Username: "; Getpass "Password: " ]
                 ++ connect_report driver
                 ++ [ Printf "Error during login: {e}" [VExn PyodbcError] ];
               calls := calls w ++ [ Connect driver ] |}))
  /\ (forall driver d,
         online 1 w driver d ->
         tbl_Users d = None ->
         login w
         = (Returned false,
            after w d 2
              [ Prompt "Username: "; Getpass "Password: ";
                Printf "Error during login: {e}" [VExn PyodbcError] ]
              [ Connect driver; Execute (SelectUserId username password) ]))
  /\ (forall (py_float : string -> option float) fuel w0 c w2,
         (print_main_menu ;; input "Choose an option (1-3): ") w0
         = (Returned c, w) ->
         PyStr.strip c = "2" ->
         login w = (Returned false, w2) ->
         main_loop py_float (S fuel) w0 = main_loop py_float fuel w2).
Proof.
  intros Hw Hi username password.
  split; [|split; [|split]].
  - unfold login.
    erewrite bind_returned; [ | apply input_run; eassumption ].
    erewrite bind_returned; [ | apply getpass_run; reflexivity ].
    match goal with
    | |- exists b w', try_ ?body ?hs ?w1 = _ =>
        assert (Hb : raises_only nothing (try_ body hs));
        [ | destruct (try_ body hs w1) as [r w'] eqn:E;
            assert (Hw1 : driver_installed w1) by exact Hw;
            destruct (@returns_always _ _ _ _ _ (Hb w1 Hw1) E) as [b ->];
            eauto ]
    end.
    apply ro_try with (P := exception); [ro|].
    intros e He; destruct e;
      try (exfalso; clear - He; unfold exception in He; simpl in He;
           discriminate);
      cbn [find catches fst snd]; ro.
  - intros driver d cs Hd Hf Hc. unfold login.
    erewrite bind_returned; [ | apply input_run; eassumption ].
    erewrite bind_returned; [ | apply getpass_run; reflexivity ].
    erewrite try_raised;
      [ | eapply with_refused;
          eapply get_connection_refused with (d := d) (rest := cs);
          [exact Hd | exact Hf | exact Hc] ].
    cbn [find catches fst snd]. unfold bind, printf, emit, ret.
    same_world; rewrite ?Hc, ?Hf; reflexivity.
  - intros driver d Ho Ht. unfold login.
    erewrite bind_returned; [ | apply input_run; eassumption ].
    erewrite bind_returned; [ | apply getpass_run; reflexivity ].
    fold username password.
    erewrite try_raised.
    2:{ erewrite with_run;
          [ reflexivity
          | eapply get_connection_opens with (n := 0) (d := d);
            destruct Ho; split; simpl; eassumption
          | eapply bind_raised; eapply execute_raises; [reflexivity|];
            simpl; unfold Sql.on_Users; rewrite Ht; reflexivity ]. }
    cbn [find catches fst snd]. unfold bind, printf, emit, ret.
    same_world; rewrite Hi; reflexivity.
  - intros py_float fuel w0 c w2 Hmenu Hc Hlogin.
    apply bind_inversion in Hmenu.
    destruct Hmenu as [([] & w1 & E1 & E2) | [(e & _ & He) | (_ & He)]];
      [ | discriminate He | discriminate He ].
    cbn [main_loop].
    erewrite bind_returned; [ | exact E1 ].
    erewrite bind_returned; [ | exact E2 ].
    rewrite Hc. cbn [String.eqb Ascii.eqb Bool.eqb].
    erewrite bind_returned; [ reflexivity | ].
    erewrite bind_returned; [ | exact Hlogin ].
    reflexivity.
Qed.

Lemma login_failure_returns_false_witness :
  fst (login (unreachable_host ["alice"; "secret"])) = Returned false.
Proof.
  assert (Hw : driver_installed (unreachable_host ["alice"; "secret"])).
  { unfold driver_installed. vm_compute. discriminate. }
  rewrite (proj1 (proj2 (@login_failure_returns_false
                           (unreachable_host ["alice"; "secret"])
                           "alice" "secret" [] Hw eq_refl))
             access_driver (holding [] []) []).
  - reflexivity.
  - vm_compute. reflexivity.
  - reflexivity.
  - reflexivity.
Defined.

(* ================================================================= *)
(** ** The UNIQUE constraints are kept *)

Lemma NoDup_snoc {K} (l : list K) x : NoDup l -> ~ In x l -> NoDup (l ++ [x]).
Proof.
  intros Hl Hx. apply (Permutation_NoDup (l := x :: l)).
  - apply Permutation_cons_append.
  - constructor; assumption.
Qed.

Lemma NoDup_map_filter {R K} (key : R -> K) (p : R -> bool) xs :
  NoDup (map key xs) -> NoDup (map key (filter p xs)).
Proof.
  induction xs as [|x xs IH]; simpl; intros H; [constructor|].
  inversion H as [|? ? Hnotin Hnd]; subst.
  destruct (p x); simpl; [|auto].
  constructor; [|auto].
  intros Hin. apply Hnotin. apply in_map_iff in Hin.
  destruct Hin as (r & Hk & Hr). apply filter_In in Hr.
  rewrite <- Hk. apply in_map. tauto.
Qed.

Lemma fresh_key {R} (key : R -> string) k xs :
  existsb (fun r => String.eqb (key r) k) xs = false -> ~ In k (map key xs).
Proof.
  intros H Hin. apply in_map_iff in Hin. destruct Hin as (r & Hk & Hr).
  assert (E : existsb (fun r => String.eqb (key r) k) xs = true).
  { apply existsb_exists. exists r. split; [exact Hr|].
    rewrite Hk. apply String.eqb_refl. }
  rewrite E in H. discriminate.
Qed.

Lemma update_row_student_id name score sid r :
  Students.student_id (Sql.update_row name score sid r) = Students.student_id r.
Proof.
  unfold Sql.update_row.
  destruct (String.eqb (Students.student_id r) sid); reflexivity.
Qed.

(** No statement of the program breaks a UNIQUE constraint. *)
Lemma run_well_formed {R} (q : stmt R) d cur d' :
  Sql.run q d = inr (cur, d') -> well_formed d -> well_formed d'.
Proof.
  intros H Hwf. pose proof Hwf as [Hu Hs].
  destruct q; simpl in H; unfold Sql.on_Users, Sql.on_Students in H.
  - destruct (Sql.table_present d table_name); inversion H; subst.
    exact Hwf.
  - destruct (tbl_Users d); inversion H; subst.
    split; simpl; [|exact Hs].
    intros t E. inversion E; subst. constructor.
  - destruct (tbl_Students d); inversion H; subst.
    split; simpl; [exact Hu|].
    intros t E. inversion E; subst. constructor.
  - destruct (tbl_Users d) as [t|] eqn:Et; [|discriminate].
    destruct (existsb _ (rows t)) eqn:Ef; inversion H; subst.
    split; simpl; [|exact Hs].
    intros t' E. inversion E; subst. unfold unique_usernames. simpl.
    rewrite map_app. simpl. apply NoDup_snoc.
    + exact (Hu t eq_refl).
    + exact (fresh_key Users.username _ _ Ef).
  - destruct (tbl_Users d); inversion H; subst. exact Hwf.
  - destruct (tbl_Students d) as [t|] eqn:Et; [|discriminate].
    destruct (existsb _ (rows t)) eqn:Ef; inversion H; subst.
    split; simpl; [exact Hu|].
    intros t' E. inversion E; subst. unfold unique_student_ids. simpl.
    rewrite map_app. simpl. apply NoDup_snoc.
    + exact (Hs t eq_refl).
    + exact (fresh_key Students.student_id _ _ Ef).
  - destruct (tbl_Students d); inversion H; subst. exact Hwf.
  - destruct (tbl_Students d) as [t|] eqn:Et; inversion H; subst.
    split; simpl; [exact Hu|].
    intros t' E. inversion E; subst. unfold unique_student_ids. simpl.
    rewrite map_map.
    rewrite (map_ext _ Students.student_id
               (update_row_student_id name score student_id)).
    exact (Hs t eq_refl).
  - destruct (tbl_Students d) as [t|] eqn:Et; inversion H; subst.
    split; simpl; [exact Hu|].
    intros t' E. inversion E; subst. unfold unique_student_ids. simpl.
    apply NoDup_map_filter. exact (Hs t eq_refl).
  - destruct (tbl_Students d); inversion H; subst. exact Hwf.
  - destruct (tbl_Students d); inversion H; subst. exact Hwf.
Qed.

Lemma empty_database_well_formed : well_formed empty_database.
Proof. split; intros t E; discriminate. Qed.

(* ================================================================= *)
(** ** A session, end to end *)

(** Register alice, log in, add S1 with 92.5, list, set the score of S1 to
    45, list the failed students, delete S1, count, leave. *)
Example end_to_end_session :
  let typed :=
    [ "1"; "alice"; "secret";
      "2"; "alice"; "secret";
      "1"; "S1"; "Alice Smith"; "92.5";
      "2";
      "5"; "S1"; ""; "45";
      "10";
      "6"; "S1";
      "7";
      "11";
      "3" ] in
  let run := main Literal.float_literal 12 (host empty_database typed) in
  fst run = Raised (SystemExit 0)
  /\ stdin (snd run) = []
  /\ file (snd run)
     = Some {| tbl_Users :=
                 Some {| rows := [an_account 1 "alice" "secret"];
                         next_id := 2 |};
               tbl_Students := Some {| rows := []; next_id := 2 |} |}
  /\ formatted (console (snd run))
     = [ Printf "Welcome, {username}!" [VStr "alice"];
         Printf "{'DB_ID':<6} {'StuID':<10} {'Name':<25} {'Score':>6}"
           [VStr "DB_ID"; VStr "StuID"; VStr "Name"; VStr "Score"];
         Printf "{r.id:<6} {r.student_id:<10} {r.name:<25} {r.score:>6.2f}"
           [VInt 1; VStr "S1"; VStr "Alice Smith"; VFloat 92.5%float];
         Printf "Current Name: {row.name}, Score: {row.score}"
           [VStr "Alice Smith"; VFloat 92.5%float];
         Printf "ID={r.student_id}, Name={r.name}, Score={r.score}"
           [VStr "S1"; VStr "Alice Smith"; VFloat 45%float];
         Printf "Total students: {count}" [VInt 0] ].
Proof.
  vm_compute. repeat split.
Qed.

(* ================================================================= *)
(** ** More on the driver resolver and on startup *)

(** X1.  What [find_access_driver] returns is an installed driver whose
    name contains "access" or "mdb" in some case, never the empty string;
    and it returns nothing exactly when no installed driver has such a
    name. *)
Theorem find_access_driver_sound_and_complete (available : list string) :
  (forall driver,
      find_access_driver available = Some driver ->
      In driver available /\ is_access_driver driver = true /\ driver <> "")
  /\ (find_access_driver available = None
      <-> forall d, In d available -> is_access_driver d = false).
Proof.
  split.
  - intros driver H. destruct (find_access_driver_compatible _ H) as [Hin Hc].
    split; [exact Hin|]. split; [exact Hc|].
    exact (find_access_driver_nonempty _ H).
  - split.
    + intros Hnone d Hd.
      destruct (is_access_driver d) eqn:E; [|reflexivity].
      exfalso. unfold find_access_driver in Hnone.
      assert (Hf : In d (filter is_access_driver available))
        by (apply filter_In; auto).
      destruct (first_preferred preferred_drivers
                  (filter is_access_driver available)); [discriminate|].
      destruct (filter is_access_driver available); [contradiction|discriminate].
    + intros Hall. unfold find_access_driver.
      rewrite (count_where_none is_access_driver available Hall).
      reflexivity.
Qed.

Lemma init_db_run w driver d :
  online 1 w driver d ->
  init_db w
  = (Returned tt,
     after w (with_tables d) 0 (init_db_printed d) (init_db_calls driver d)).
Proof.
  intros Ho. unfold init_db.
  destruct d as [[us|] [st|]].
  all: erewrite try_returned; [reflexivity|].
  all: erewrite with_run;
    [ | eapply get_connection_opens; exact Ho
      | unfold connected; cbn; reflexivity ].
  all: unfold with_tables, init_db_printed, init_db_calls;
    cbn [tbl_Users tbl_Students app].
  all: same_world.
  symmetry. apply app_nil_r.
Qed.

Lemma with_tables_idempotent d : with_tables (with_tables d) = with_tables d.
Proof. destruct d as [[us|] [st|]]; reflexivity. Qed.

(** X2.  [init_db] behind an opening connection creates the tables that
    are missing, empty, keeps the tables that exist with their rows, says
    which ones it created and commits.  On a database that has both tables
    it changes nothing and prints nothing; run twice, it does the second
    time what it does on a complete database. *)
Theorem init_db_creates_only_missing_tables w driver d :
  online 2 w driver d ->
  init_db w
  = (Returned tt,
     after w (with_tables d) 0 (init_db_printed d) (init_db_calls driver d))
  /\ (forall t, tbl_Users d = Some t -> tbl_Users (with_tables d) = Some t)
  /\ (forall t, tbl_Students d = Some t -> tbl_Students (with_tables d) = Some t)
  /\ (tbl_Users d = None -> tbl_Users (with_tables d) = Some (new_table _))
  /\ (tbl_Students d = None -> tbl_Students (with_tables d) = Some (new_table _))
  /\ (forall us st,
         tbl_Users d = Some us -> tbl_Students d = Some st ->
         with_tables d = d /\ init_db_printed d = [])
  /\ exists w',
       (init_db ;; init_db) w = (Returned tt, w')
       /\ file w' = Some (with_tables d)
       /\ console w' = console w ++ init_db_printed d.
Proof.
  intros Ho.
  assert (Ho1 : online 1 w driver d).
  { destruct Ho as [A B C]. split; [assumption..|].
    destruct (connects w) as [|[] l]; simpl in *;
      try reflexivity; discriminate. }
  split; [exact (init_db_run Ho1)|].
  split; [intros t E; unfold with_tables; rewrite E; reflexivity|].
  split; [intros t E; unfold with_tables; rewrite E; reflexivity|].
  split; [intros E; unfold with_tables; rewrite E; reflexivity|].
  split; [intros E; unfold with_tables; rewrite E; reflexivity|].
  split.
  - intros us st Eu Es. destruct d as [u s]. simpl in *. subst.
    split; reflexivity.
  - eexists. split.
    + erewrite bind_returned; [ | exact (init_db_run Ho1) ].
      apply init_db_run. eapply online_after. exact Ho.
    + split; [reflexivity|]. cbn [console after].
      rewrite <- app_assoc. f_equal.
      unfold init_db_printed, with_tables. cbn [tbl_Users tbl_Students].
      apply app_nil_r.
Qed.

Lemma init_db_creates_only_missing_tables_witness :
  init_db (host (holding [an_account 1 "alice" "secret"] ann_and_bob) [])
  = (Returned tt,
     after (host (holding [an_account 1 "alice" "secret"] ann_and_bob) [])
       (holding [an_account 1 "alice" "secret"] ann_and_bob) 0 []
       [ Connect access_driver; Execute (ProbeTable "Users");
         Execute (ProbeTable "Students"); Commit ]).
Proof.
  exact (proj1 (@init_db_creates_only_missing_tables
                  (host (holding [an_account 1 "alice" "secret"] ann_and_bob) [])
                  access_driver
                  (holding [an_account 1 "alice" "secret"] ann_and_bob)
                  (host_online 2 _ _))).
Defined.

(** The world once [get_connection()] has returned on a host without the
    database file. *)
Lemma get_connection_creates_file w driver :
  find_access_driver (host_drivers w) = Some driver ->
  file w = None ->
  all_open 1 (connects w) = true ->
  get_connection w
  = (Returned tt,
     {| host_drivers := host_drivers w;
        connects := tl (connects w);
        file := Some empty_database;
        session := Some empty_database;
        stdin := stdin w;
        console :=
          console w
          ++ [ Printf "\nWARNING: Database file not found at: {db_path}"
                 [VPath ACCESS_DB_PATH];
               Print "Creating new database file..." ];
        calls := calls w ++ [Connect driver] |}).
Proof.
  intros Hd Hf Ho. unfold get_connection. rewrite Hd, Hf.
  apply all_open_S in Ho. destruct Ho as [Ho _].
  unfold bind, ret, try_, connect, printf, print, emit.
  cbn [connects log set_console].
  destruct (connects w) as [|[] l] eqn:E; try contradiction.
  all: same_world; rewrite ?E, ?Hf; reflexivity.
Qed.

(** X3.  On a host where the database file does not exist and the
    connection opens, [init_db] warns that the file was not found, and
    leaves a file with the two tables, both empty. *)
Theorem init_db_on_a_missing_file w driver :
  find_access_driver (host_drivers w) = Some driver ->
  file w = None ->
  all_open 1 (connects w) = true ->
  init_db w
  = (Returned tt,
     {| host_drivers := host_drivers w;
        connects := tl (connects w);
        file := Some {| tbl_Users := Some (new_table _);
                        tbl_Students := Some (new_table _) |};
        session := None;
        stdin := stdin w;
        console :=
          console w
          ++ [ Printf "\nWARNING: Database file not found at: {db_path}"
                 [VPath ACCESS_DB_PATH];
               Print "Creating new database file...";
               Print "Created Users table.";
               Print "Created Students table." ];
        calls :=
          calls w
          ++ [ Connect driver;
               Execute (ProbeTable "Users"); Execute CreateUsers;
               Execute (ProbeTable "Students"); Execute CreateStudents;
               Commit ] |}).
Proof.
  intros Hd Hf Ho. unfold init_db.
  erewrite try_returned; [reflexivity|].
  erewrite with_run;
    [ | apply get_connection_creates_file; eassumption
      | cbn; reflexivity ].
  same_world.
Qed.

Lemma init_db_on_a_missing_file_witness :
  file (snd (init_db
               {| host_drivers := [access_driver]; connects := [];
                  file := None; session := None; stdin := [];
                  console := []; calls := [] |}))
  = Some (holding [] []).
Proof.
  rewrite (@init_db_on_a_missing_file
             {| host_drivers := [access_driver]; connects := [];
                file := None; session := None; stdin := [];
                console := []; calls := [] |}
             access_driver).
  - reflexivity.
  - vm_compute. reflexivity.
  - reflexivity.
  - reflexivity.
Defined.

(* ================================================================= *)
(** ** Operations that refuse *)

(** X4.  [register] with a username or a password that is empty once
    stripped says so and returns: it does not call pyodbc, and the file, the
    connection and the host are as they were. *)
Theorem register_refuses_blank w u p rest :
  stdin w = u :: p :: rest ->
  PyStr.strip u = "" \/ PyStr.strip p = "" ->
  register w
  = (Returned tt,
     after_talk w 2
       [ Prompt "Enter new username: "; Getpass "Enter new password: ";
         Print "Username and password cannot be empty." ]).
Proof.
  intros Hi Hblank. unfold register.
  erewrite bind_returned; [ | apply input_run; eassumption ].
  erewrite bind_returned; [ | apply getpass_run; reflexivity ].
  assert (E : negb (PyStr.nonempty (PyStr.strip u))
              || negb (PyStr.nonempty (PyStr.strip p)) = true).
  { destruct Hblank as [-> | ->]; [reflexivity|].
    destruct (PyStr.nonempty (PyStr.strip u)); reflexivity. }
  rewrite E. unfold print, emit.
  same_world; rewrite Hi; reflexivity.
Qed.

Lemma register_refuses_blank_witness :
  register (host (holding [] []) ["   "; "secret"])
  = (Returned tt,
     after_talk (host (holding [] []) ["   "; "secret"]) 2
       [ Prompt "Enter new username: "; Getpass "Enter new password: ";
         Print "Username and password cannot be empty." ]).
Proof.
  apply (@register_refuses_blank (host (holding [] []) ["   "; "secret"])
           "   " "secret" []).
  - reflexivity.
  - left. reflexivity.
Defined.

Lemma taken_key {R} (key : R -> string) k xs :
  (exists r, In r xs /\ key r = k) ->
  existsb (fun r => String.eqb (key r) k) xs = true.
Proof.
  intros (r & Hr & <-). apply existsb_exists. exists r.
  split; [exact Hr | apply String.eqb_refl].
Qed.

(** X5.  [register] with a username that a row of Users carries: the
    INSERT is refused, "Username already exists." is printed, nothing is
    committed and the file holds what it held. *)
Theorem register_refuses_duplicate w driver d t u p rest :
  online 1 w driver d ->
  tbl_Users d = Some t ->
  stdin w = u :: p :: rest ->
  let username := PyStr.strip u in
  let password := PyStr.strip p in
  username <> "" ->
  password <> "" ->
  (exists r, In r (rows t) /\ Users.username r = username) ->
  register w
  = (Returned tt,
     after w d 2
       [ Prompt "Enter new username: "; Getpass "Enter new password: ";
         Print "Username already exists." ]
       [ Connect driver; Execute (InsertUser username password) ]).
Proof.
  intros Ho Ht Hi username password Hu Hp Htaken. unfold register.
  erewrite bind_returned; [ | apply input_run; eassumption ].
  erewrite bind_returned; [ | apply getpass_run; reflexivity ].
  fold username password.
  rewrite (nonempty_true Hu), (nonempty_true Hp). cbn [negb orb].
  pose proof (@taken_key _ Users.username username (rows t) Htaken) as Ef.
  erewrite try_raised.
  2:{ eapply bind_raised.
      erewrite with_run;
        [ reflexivity
        | eapply get_connection_opens with (n := 0) (d := d);
          destruct Ho; split; simpl; eassumption
        | eapply bind_raised; eapply execute_raises; [reflexivity|];
          simpl; unfold Sql.on_Users; rewrite Ht, Ef; reflexivity ]. }
  cbn [find catches fst snd]. unfold print, emit.
  same_world; rewrite Hi; reflexivity.
Qed.

Lemma register_refuses_duplicate_witness :
  register (host (holding [an_account 1 "alice" "secret"] [])
              ["alice"; "other"])
  = (Returned tt,
     after (host (holding [an_account 1 "alice" "secret"] [])
              ["alice"; "other"])
       (holding [an_account 1 "alice" "secret"] []) 2
       [ Prompt "Enter new username: "; Getpass "Enter new password: ";
         Print "Username already exists." ]
       [ Connect access_driver; Execute (InsertUser "alice" "other") ]).
Proof.
  apply (@register_refuses_duplicate
           (host (holding [an_account 1 "alice" "secret"] [])
              ["alice"; "other"])
           access_driver (holding [an_account 1 "alice" "secret"] [])
           {| rows := [an_account 1 "alice" "secret"]; next_id := 2 |}
           "alice" "other" [] (host_online 1 _ _) eq_refl eq_refl).
  - discriminate.
  - discriminate.
  - exists (an_account 1 "alice" "secret"). split; [left|]; reflexivity.
Defined.

Section Refusals.

Variable py_float : string -> option float.

(** X6.  [add_student] with a score that [float] refuses prints "Invalid
    score." and returns: it does not call pyodbc and the file is as it was. *)
Theorem add_student_refuses_bad_score w i n s rest :
  stdin w = i :: n :: s :: rest ->
  py_float (PyStr.strip s) = None ->
  add_student py_float w
  = (Returned tt,
     after_talk w 3
       [ Prompt "Student ID: "; Prompt "Name: "; Prompt "Score (0-100): ";
         Print "Invalid score." ]).
Proof.
  intros Hi Hs. unfold add_student.
  erewrite bind_returned; [ | apply input_run; eassumption ].
  erewrite bind_returned; [ | apply input_run; reflexivity ].
  erewrite bind_returned.
  2:{ erewrite try_raised.
      2:{ erewrite bind_returned; [ | apply input_run; reflexivity ].
          unfold float_. rewrite Hs. reflexivity. }
      cbn [find catches fst snd]. reflexivity. }
  unfold ret. same_world; rewrite Hi; reflexivity.
Qed.

(** X7.  [add_student] with an identifier that a row carries: the INSERT
    is refused, "Student ID already exists." is printed, nothing is
    committed and the file holds what it held. *)
Theorem add_student_refuses_duplicate w driver d t i n s rest score :
  online 1 w driver d ->
  tbl_Students d = Some t ->
  stdin w = i :: n :: s :: rest ->
  let student_id := PyStr.strip i in
  let name := PyStr.strip n in
  py_float (PyStr.strip s) = Some score ->
  (exists r, In r (rows t) /\ Students.student_id r = student_id) ->
  add_student py_float w
  = (Returned tt,
     after w d 3
       [ Prompt "Student ID: "; Prompt "Name: "; Prompt "Score (0-100): ";
         Print "Student ID already exists." ]
       [ Connect driver; Execute (InsertStudent student_id name score) ]).
Proof.
  intros Ho Ht Hi student_id name Hs Htaken. unfold add_student.
  erewrite bind_returned; [ | apply input_run; eassumption ].
  erewrite bind_returned; [ | apply input_run; reflexivity ].
  fold student_id name.
  erewrite bind_returned.
  2:{ apply try_returned.
      erewrite bind_returned; [ | apply input_run; reflexivity ].
      unfold float_. rewrite Hs. reflexivity. }
  cbv beta iota.
  pose proof (@taken_key _ Students.student_id student_id (rows t) Htaken) as Ef.
  erewrite try_raised.
  2:{ eapply bind_raised.
      erewrite with_run;
        [ reflexivity
        | eapply get_connection_opens with (n := 0) (d := d);
          destruct Ho; split; simpl; eassumption
        | eapply bind_raised; eapply execute_raises; [reflexivity|];
          simpl; unfold Sql.on_Students; rewrite Ht, Ef; reflexivity ]. }
  cbn [find catches fst snd]. unfold print, emit.
  same_world; rewrite Hi; reflexivity.
Qed.

(** X8.  [update_student] on an identifier that no row carries prints
    "Student not found." and stops there: it asks for no new name and no
    new score, issues no UPDATE and commits nothing. *)
Theorem update_student_not_found w driver d t i rest :
  online 1 w driver d ->
  tbl_Students d = Some t ->
  stdin w = i :: rest ->
  let student_id := PyStr.strip i in
  (forall r, In r (rows t) -> Students.student_id r <> student_id) ->
  update_student py_float w
  = (Returned tt,
     after w d 1
       [ Prompt "Enter Student ID to update: "; Print "Student not found." ]
       [ Connect driver; Execute (SelectStudents (StudentIdIs student_id)) ]).
Proof.
  intros Ho Ht Hi student_id Hnone. unfold update_student.
  erewrite bind_returned; [ | apply input_run; eassumption ].
  fold student_id.
  assert (E : filter (Sql.holds (StudentIdIs student_id)) (rows t) = []).
  { apply count_where_none. intros r Hr. simpl.
    apply String.eqb_neq. auto. }
  erewrite try_returned; [reflexivity|].
  erewrite with_run;
    [ | eapply get_connection_opens with (n := 0) (d := d);
        destruct Ho; split; simpl; eassumption
      | erewrite bind_returned;
        [ | eapply execute_run; [reflexivity|];
            simpl; unfold Sql.on_Students; rewrite Ht; reflexivity ];
        unfold fetchone; cbn [fetched Sql.result]; rewrite E;
        reflexivity ].
  unfold print, emit. same_world; rewrite Hi; reflexivity.
Qed.

End Refusals.

Lemma add_student_refuses_bad_score_witness :
  add_student Literal.float_literal (host (holding [] []) ["S1"; "Ann"; "ten"])
  = (Returned tt,
     after_talk (host (holding [] []) ["S1"; "Ann"; "ten"]) 3
       [ Prompt "Student ID: "; Prompt "Name: "; Prompt "Score (0-100): ";
         Print "Invalid score." ]).
Proof.
  apply (@add_student_refuses_bad_score Literal.float_literal
           (host (holding [] []) ["S1"; "Ann"; "ten"]) "S1" "Ann" "ten" []).
  - reflexivity.
  - reflexivity.
Defined.

Lemma add_student_refuses_duplicate_witness :
  add_student Literal.float_literal
    (host (holding [] ann_and_bob) ["S1"; "Cy"; "70"])
  = (Returned tt,
     after (host (holding [] ann_and_bob) ["S1"; "Cy"; "70"])
       (holding [] ann_and_bob) 3
       [ Prompt "Student ID: "; Prompt "Name: "; Prompt "Score (0-100): ";
         Print "Student ID already exists." ]
       [ Connect access_driver; Execute (InsertStudent "S1" "Cy" 70%float) ]).
Proof.
  apply (@add_student_refuses_duplicate Literal.float_literal
           (host (holding [] ann_and_bob) ["S1"; "Cy"; "70"])
           access_driver (holding [] ann_and_bob)
           {| rows := ann_and_bob; next_id := 3 |}
           "S1" "Cy" "70" [] 70%float (host_online 1 _ _) eq_refl eq_refl).
  - reflexivity.
  - exists (a_student 1 "S1" "Ann" 60%float). split; [left|]; reflexivity.
Defined.

Lemma update_student_not_found_witness :
  update_student Literal.float_literal
    (host (holding [] ann_and_bob) ["S9"; "Zed"; "10"])
  = (Returned tt,
     after (host (holding [] ann_and_bob) ["S9"; "Zed"; "10"])
       (holding [] ann_and_bob) 1
       [ Prompt "Enter Student ID to update: "; Print "Student not found." ]
       [ Connect access_driver; Execute (SelectStudents (StudentIdIs "S9")) ]).
Proof.
  apply (@update_student_not_found Literal.float_literal
           (host (holding [] ann_and_bob) ["S9"; "Zed"; "10"])
           access_driver (holding [] ann_and_bob)
           {| rows := ann_and_bob; next_id := 3 |}
           "S9" ["Zed"; "10"] (host_online 1 _ _) eq_refl eq_refl).
  intros r [<- | [<- | []]]; discriminate.
Defined.

(* ================================================================= *)
(** ** Operations in sequence *)

Lemma online_weaken n w driver d :
  online (S n) w driver d -> online 1 w driver d.
Proof.
  intros [A B C]. split; [assumption..|].
  destruct (connects w) as [|[] l]; simpl in *; try reflexivity; discriminate.
Qed.

Lemma filter_everything (rs : list Students.row) :
  filter (Sql.holds Everything) rs = rs.
Proof.
  induction rs as [|r rs IH]; simpl; [|rewrite IH]; reflexivity.
Qed.

Lemma table_run (rs : list Students.row) w :
  match rs with
  | [] => print "No students found."
  | _ =>
      printf "{'DB_ID':<6} {'StuID':<10} {'Name':<25} {'Score':>6}"
        [VStr "DB_ID"; VStr "StuID"; VStr "Name"; VStr "Score"] ;;
      print (dashes 55) ;;
      for_each rs (fun r =>
        printf "{r.id:<6} {r.student_id:<10} {r.name:<25} {r.score:>6.2f}"
          [VInt (Students.id r); VStr (Students.student_id r);
           VStr (Students.name r); VFloat (Students.score r)])
  end w
  = (Returned tt, set_console w (console w ++ table_listing rs)).
Proof.
  destruct rs as [|r rs]; [reflexivity|].
  unfold table_listing.
  erewrite bind_returned; [ | reflexivity ].
  erewrite bind_returned; [ | reflexivity ].
  change (for_each (r :: rs) _)
    with (for_each (r :: rs) (fun x => emit (table_line x))).
  rewrite for_each_emit.
  apply f_equal2; [reflexivity|]. apply world_ext; fields.
Qed.

Lemma show_all_students_run w driver d t :
  online 1 w driver d ->
  tbl_Students d = Some t ->
  show_all_students w
  = (Returned tt,
     after w d 0 (table_listing (rows t))
       [ Connect driver; Execute (SelectStudents Everything) ]).
Proof.
  intros Ho Ht. unfold show_all_students.
  erewrite try_returned; [reflexivity|].
  erewrite with_run;
    [ | eapply get_connection_opens; eassumption
      | erewrite bind_returned;
        [ | eapply execute_run; [reflexivity|];
            simpl; unfold Sql.on_Students; rewrite Ht; reflexivity ];
        unfold fetchall; cbn [fetched Sql.result];
        rewrite filter_everything; apply table_run ].
  same_world.
Qed.

Lemma count_students_run w driver d t :
  online 1 w driver d ->
  tbl_Students d = Some t ->
  count_students w
  = (Returned tt,
     after w d 0
       [ Printf "Total students: {count}"
           [ VInt (Z.of_nat (List.length (rows t))) ] ]
       [ Connect driver; Execute CountStudents ]).
Proof.
  intros Ho Ht. unfold count_students.
  erewrite try_returned; [reflexivity|].
  erewrite with_run;
    [ | eapply get_connection_opens; eassumption
      | erewrite bind_returned;
        [ | eapply execute_run; [reflexivity|];
            simpl; unfold Sql.on_Students; rewrite Ht; reflexivity ];
        reflexivity ].
  same_world.
Qed.

Lemma has_student_id_update_row name score sid r :
  has_student_id sid (Sql.update_row name score sid r) = has_student_id sid r.
Proof.
  unfold has_student_id. rewrite update_row_student_id. reflexivity.
Qed.

Lemma find_update_row name score sid xs :
  find (has_student_id sid) (map (Sql.update_row name score sid) xs)
  = option_map (Sql.update_row name score sid) (find (has_student_id sid) xs).
Proof.
  induction xs as [|x xs IH]; simpl; [reflexivity|].
  rewrite has_student_id_update_row.
  destruct (has_student_id sid x); [reflexivity | exact IH].
Qed.

Lemma find_filter_out {R} (p : R -> bool) xs :
  find p (filter (fun r => negb (p r)) xs) = None.
Proof.
  induction xs as [|x xs IH]; simpl; [reflexivity|].
  destruct (p x) eqn:E; simpl; [exact IH|]. rewrite E. exact IH.
Qed.

Lemma filter_out_fresh {R} (p : R -> bool) xs x :
  (forall r, In r xs -> p r = false) -> p x = true ->
  filter (fun r => negb (p r)) (xs ++ [x]) = xs.
Proof.
  intros Hxs Hx. rewrite filter_app. simpl. rewrite Hx. simpl.
  rewrite app_nil_r.
  induction xs as [|y xs IH]; simpl; [reflexivity|].
  rewrite (Hxs y) by (simpl; auto). simpl. f_equal.
  apply IH. intros r Hr. apply Hxs. simpl; auto.
Qed.

Lemma table_listing_snoc xs x :
  table_listing (xs ++ [x])
  = Printf "{'DB_ID':<6} {'StuID':<10} {'Name':<25} {'Score':>6}"
      [ VStr "DB_ID"; VStr "StuID"; VStr "Name"; VStr "Score" ]
    :: Print (dashes 55) :: map table_line xs ++ [table_line x].
Proof.
  unfold table_listing. rewrite map_app.
  destruct xs as [|y ys]; reflexivity.
Qed.

Section Sequences.

Variable py_float : string -> option float.

(** X9.  [update_student] with a new name and a new score that [float]
    reads, then [search_student_by_id] with the same identifier: the search
    prints the new name and the new score under the same identifier. *)
Theorem update_then_search_by_id w driver d t i n s rest row x :
  online 2 w driver d ->
  tbl_Students d = Some t ->
  stdin w = i :: n :: s :: i :: rest ->
  let student_id := PyStr.strip i in
  find (has_student_id student_id) (rows t) = Some row ->
  PyStr.strip n <> "" ->
  PyStr.strip s <> "" ->
  py_float (PyStr.strip s) = Some x ->
  exists w',
    (update_student py_float ;; search_student_by_id) w = (Returned tt, w')
    /\ stdin w' = rest
    /\ console w'
       = console w
         ++ [ Prompt "Enter Student ID to update: ";
              Printf "Current Name: {row.name}, Score: {row.score}"
                [ VStr (Students.name row); VFloat (Students.score row) ];
              Prompt "New name (leave blank to keep): ";
              Prompt "New score (leave blank to keep): ";
              Print "Student updated.";
              Prompt "Enter Student ID to search: ";
              Printf "Found: ID={row.student_id}, Name={row.name}, Score={row.score}"
                [ VStr (Students.student_id row); VStr (PyStr.strip n);
                  VFloat x ] ].
Proof.
  intros Ho Ht Hi student_id Hrow Hn Hs Hx.
  pose proof (@update_student_run py_float w driver d t i n s (i :: rest) row
                (online_weaken Ho) Ht Hi Hrow) as Hrun.
  cbv zeta in Hrun. fold student_id in Hrun.
  rewrite (nonempty_true Hn), (nonempty_true Hs), Hx in Hrun.
  eexists. split.
  - erewrite bind_returned; [ | exact Hrun ].
    erewrite search_student_by_id_run;
      [ | eapply online_after; exact Ho
        | reflexivity
        | cbn [stdin after]; rewrite Hi; reflexivity ].
    fold student_id. cbn [rows].
    rewrite find_update_row, Hrow. cbn [option_map].
    reflexivity.
  - split; fields; rewrite ?Hi; try reflexivity.
    unfold Sql.update_row.
    apply find_some in Hrow. destruct Hrow as [_ E].
    unfold has_student_id in E. rewrite E. reflexivity.
Qed.

(** X10.  [update_student] rewrites the rows that carry the identifier and
    no other: the table keeps its length, its surrogate ids and its student
    identifiers in place, every row with another identifier is where it was
    and as it was, and the Users table is not touched. *)
Theorem update_student_touches_only_its_row w driver d t i n s rest row :
  online 1 w driver d ->
  tbl_Students d = Some t ->
  stdin w = i :: n :: s :: rest ->
  let student_id := PyStr.strip i in
  find (has_student_id student_id) (rows t) = Some row ->
  exists rows',
    file (snd (update_student py_float w))
    = Some {| tbl_Users := tbl_Users d;
              tbl_Students := Some {| rows := rows'; next_id := next_id t |} |}
    /\ map Students.id rows' = map Students.id (rows t)
    /\ map Students.student_id rows' = map Students.student_id (rows t)
    /\ forall k r,
         nth_error (rows t) k = Some r ->
         Students.student_id r <> student_id ->
         nth_error rows' k = Some r.
Proof.
  intros Ho Ht Hi student_id Hrow.
  pose proof (@update_student_run py_float w driver d t i n s rest row
                Ho Ht Hi Hrow) as Hrun.
  cbv zeta in Hrun. fold student_id in Hrun.
  eexists. split; [rewrite Hrun; reflexivity|].
  split; [|split].
  - rewrite map_map. apply map_ext. intros r. unfold Sql.update_row.
    destruct (String.eqb (Students.student_id r) student_id); reflexivity.
  - rewrite map_map. apply map_ext. intros r.
    apply update_row_student_id.
  - intros k r Hk Hne. rewrite nth_error_map, Hk. cbn [option_map].
    unfold Sql.update_row.
    apply String.eqb_neq in Hne. rewrite Hne. reflexivity.
Qed.

(** X11.  [add_student] with an identifier that no row carries, then
    [delete_student] with the same identifier: the rows of the table are
    those from before the two operations, in the same order; only the
    AUTOINCREMENT counter has moved. *)
Theorem add_then_delete_restores_rows w driver d t i n s rest score :
  online 2 w driver d ->
  tbl_Students d = Some t ->
  stdin w = i :: n :: s :: i :: rest ->
  let student_id := PyStr.strip i in
  py_float (PyStr.strip s) = Some score ->
  (forall r, In r (rows t) -> Students.student_id r <> student_id) ->
  exists w',
    (add_student py_float ;; delete_student) w = (Returned tt, w')
    /\ file w'
       = Some {| tbl_Users := tbl_Users d;
                 tbl_Students :=
                   Some {| rows := rows t; next_id := (next_id t + 1)%Z |} |}
    /\ console w'
       = console w
         ++ [ Prompt "Student ID: "; Prompt "Name: ";
              Prompt "Score (0-100): "; Print "Student added.";
              Prompt "Enter Student ID to delete: ";
              Print "Student deleted." ].
Proof.
  intros Ho Ht Hi student_id Hs Hfresh.
  assert (Hmiss : forall r, In r (rows t) ->
                    Sql.holds (StudentIdIs student_id) r = false).
  { intros r Hr. simpl. apply String.eqb_neq. auto. }
  eexists. split.
  - erewrite bind_returned;
      [ | exact (@add_student_run py_float w driver d t i n s (i :: rest) score
                   (online_weaken Ho) Ht Hi Hs Hfresh) ].
    fold student_id.
    erewrite delete_student_run;
      [ | eapply online_after; exact Ho
        | reflexivity
        | cbn [stdin after]; rewrite Hi; reflexivity ].
    fold student_id. cbn [rows next_id].
    erewrite count_where_some;
      [ reflexivity
      | apply in_or_app; right; left; reflexivity
      | simpl; apply String.eqb_refl ].
  - split; fields; rewrite ?Hi; try reflexivity.
    unfold Sql.set_Students. cbn [tbl_Users tbl_Students]. do 4 f_equal.
    apply (filter_out_fresh (Sql.holds (StudentIdIs student_id)));
      [exact Hmiss | simpl; apply String.eqb_refl].
Qed.

(** X12.  [add_student] with an identifier that no row carries, then
    [count_students]: the count printed is the number of rows from before,
    plus one. *)
Theorem add_then_count w driver d t i n s rest score :
  online 2 w driver d ->
  tbl_Students d = Some t ->
  stdin w = i :: n :: s :: rest ->
  py_float (PyStr.strip s) = Some score ->
  (forall r, In r (rows t) -> Students.student_id r <> PyStr.strip i) ->
  exists w',
    (add_student py_float ;; count_students) w = (Returned tt, w')
    /\ console w'
       = console w
         ++ [ Prompt "Student ID: "; Prompt "Name: ";
              Prompt "Score (0-100): "; Print "Student added.";
              Printf "Total students: {count}"
                [ VInt (Z.of_nat (List.length (rows t)) + 1) ] ].
Proof.
  intros Ho Ht Hi Hs Hfresh.
  eexists. split.
  - erewrite bind_returned;
      [ | exact (@add_student_run py_float w driver d t i n s rest score
                   (online_weaken Ho) Ht Hi Hs Hfresh) ].
    erewrite count_students_run;
      [ reflexivity | eapply online_after; exact Ho | reflexivity ].
  - fields. cbn [rows]. rewrite length_app. simpl.
    rewrite Nat2Z.inj_add. reflexivity.
Qed.

(** X13.  [add_student] with an identifier that no row carries, then
    [show_all_students]: the listing has the rows from before, in their
    order, and the new student last, under the surrogate id the counter
    gave. *)
Theorem add_then_show_all w driver d t i n s rest score :
  online 2 w driver d ->
  tbl_Students d = Some t ->
  stdin w = i :: n :: s :: rest ->
  py_float (PyStr.strip s) = Some score ->
  (forall r, In r (rows t) -> Students.student_id r <> PyStr.strip i) ->
  exists w',
    (add_student py_float ;; show_all_students) w = (Returned tt, w')
    /\ console w'
       = console w
         ++ [ Prompt "Student ID: "; Prompt "Name: ";
              Prompt "Score (0-100): "; Print "Student added.";
              Printf "{'DB_ID':<6} {'StuID':<10} {'Name':<25} {'Score':>6}"
                [ VStr "DB_ID"; VStr "StuID"; VStr "Name"; VStr "Score" ];
              Print (dashes 55) ]
         ++ map table_line (rows t)
         ++ [ table_line {| Students.id := next_id t;
                            Students.student_id := PyStr.strip i;
                            Students.name := PyStr.strip n;
                            Students.score := score |} ].
Proof.
  intros Ho Ht Hi Hs Hfresh.
  eexists. split.
  - erewrite bind_returned;
      [ | exact (@add_student_run py_float w driver d t i n s rest score
                   (online_weaken Ho) Ht Hi Hs Hfresh) ].
    erewrite show_all_students_run;
      [ reflexivity | eapply online_after; exact Ho | reflexivity ].
  - fields. cbn [rows]. rewrite table_listing_snoc. reflexivity.
Qed.

End Sequences.

(** X14.  [delete_student] on an identifier that a row carries, then
    [search_student_by_id] with the same identifier: the deletion is
    announced and the search finds nothing. *)
Theorem delete_then_search_by_id w driver d t i rest :
  online 2 w driver d ->
  tbl_Students d = Some t ->
  stdin w = i :: i :: rest ->
  let student_id := PyStr.strip i in
  (exists r, In r (rows t) /\ Students.student_id r = student_id) ->
  exists w',
    (delete_student ;; search_student_by_id) w = (Returned tt, w')
    /\ stdin w' = rest
    /\ console w'
       = console w
         ++ [ Prompt "Enter Student ID to delete: "; Print "Student deleted.";
              Prompt "Enter Student ID to search: ";
              Print "Student not found." ].
Proof.
  intros Ho Ht Hi student_id (r & Hr & Hsid).
  eexists. split.
  - erewrite bind_returned;
      [ | exact (delete_student_run (online_weaken Ho) Ht Hi) ].
    fold student_id.
    rewrite (@count_where_some _ (Sql.holds (StudentIdIs student_id))
               (rows t) r Hr)
      by (simpl; apply String.eqb_eq; exact Hsid).
    erewrite search_student_by_id_run;
      [ | eapply online_after; exact Ho
        | reflexivity
        | cbn [stdin after]; rewrite Hi; reflexivity ].
    fold student_id. cbn [rows].
    change (fun r0 => negb (Sql.holds (StudentIdIs student_id) r0))
      with (fun r0 => negb (has_student_id student_id r0)).
    rewrite find_filter_out. reflexivity.
  - split; fields; rewrite ?Hi; reflexivity.
Qed.

Lemma update_then_search_by_id_witness :
  exists w',
    (update_student Literal.float_literal ;; search_student_by_id)
      (host (holding [] ann_and_bob) ["S1"; "Anna"; "45"; "S1"])
    = (Returned tt, w')
    /\ stdin w' = [].
Proof.
  destruct (@update_then_search_by_id Literal.float_literal
              (host (holding [] ann_and_bob) ["S1"; "Anna"; "45"; "S1"])
              access_driver (holding [] ann_and_bob)
              {| rows := ann_and_bob; next_id := 3 |}
              "S1" "Anna" "45" [] (a_student 1 "S1" "Ann" 60%float) 45%float
              (host_online 2 _ _) eq_refl eq_refl eq_refl)
    as (w' & Hrun & Hin & _).
  - discriminate.
  - discriminate.
  - reflexivity.
  - exists w'. split; assumption.
Defined.

Lemma update_student_touches_only_its_row_witness :
  exists rows',
    file (snd (update_student Literal.float_literal
                 (host (holding [] ann_and_bob) ["S1"; "Anna"; "45"])))
    = Some {| tbl_Users := Some {| rows := []; next_id := 1 |};
              tbl_Students := Some {| rows := rows'; next_id := 3 |} |}
    /\ nth_error rows' 1 = Some (a_student 2 "S2" "Bob" 80%float).
Proof.
  destruct (@update_student_touches_only_its_row Literal.float_literal
              (host (holding [] ann_and_bob) ["S1"; "Anna"; "45"])
              access_driver (holding [] ann_and_bob)
              {| rows := ann_and_bob; next_id := 3 |}
              "S1" "Anna" "45" [] (a_student 1 "S1" "Ann" 60%float)
              (host_online 1 _ _) eq_refl eq_refl eq_refl)
    as (rows' & Hfile & _ & _ & Hnth).
  exists rows'. split; [exact Hfile|].
  apply Hnth; [reflexivity | discriminate].
Defined.

Lemma add_then_delete_restores_rows_witness :
  exists w',
    (add_student Literal.float_literal ;; delete_student)
      (host (holding [] ann_and_bob) ["S3"; "Cy"; "70"; "S3"])
    = (Returned tt, w')
    /\ file w'
       = Some {| tbl_Users := Some {| rows := []; next_id := 1 |};
                 tbl_Students := Some {| rows := ann_and_bob; next_id := 4 |} |}.
Proof.
  destruct (@add_then_delete_restores_rows Literal.float_literal
              (host (holding [] ann_and_bob) ["S3"; "Cy"; "70"; "S3"])
              access_driver (holding [] ann_and_bob)
              {| rows := ann_and_bob; next_id := 3 |}
              "S3" "Cy" "70" [] 70%float
              (host_online 2 _ _) eq_refl eq_refl)
    as (w' & Hrun & Hfile & _).
  - reflexivity.
  - intros r [<- | [<- | []]]; discriminate.
  - exists w'. split; assumption.
Defined.

Lemma add_then_count_witness :
  exists w',
    (add_student Literal.float_literal ;; count_students)
      (host (holding [] ann_and_bob) ["S3"; "Cy"; "70"])
    = (Returned tt, w')
    /\ console w'
       = [ Prompt "Student ID: "; Prompt "Name: ";
           Prompt "Score (0-100): "; Print "Student added.";
           Printf "Total students: {count}" [ VInt 3 ] ].
Proof.
  destruct (@add_then_count Literal.float_literal
              (host (holding [] ann_and_bob) ["S3"; "Cy"; "70"])
              access_driver (holding [] ann_and_bob)
              {| rows := ann_and_bob; next_id := 3 |}
              "S3" "Cy" "70" [] 70%float
              (host_online 2 _ _) eq_refl eq_refl)
    as (w' & Hrun & Hconsole).
  - reflexivity.
  - intros r [<- | [<- | []]]; discriminate.
  - exists w'. split; assumption.
Defined.

Lemma add_then_show_all_witness :
  exists w',
    (add_student Literal.float_literal ;; show_all_students)
      (host (holding [] ann_and_bob) ["S3"; "Cy"; "70"])
    = (Returned tt, w').
Proof.
  destruct (@add_then_show_all Literal.float_literal
              (host (holding [] ann_and_bob) ["S3"; "Cy"; "70"])
              access_driver (holding [] ann_and_bob)
              {| rows := ann_and_bob; next_id := 3 |}
              "S3" "Cy" "70" [] 70%float
              (host_online 2 _ _) eq_refl eq_refl)
    as (w' & Hrun & _).
  - reflexivity.
  - intros r [<- | [<- | []]]; discriminate.
  - exists w'. exact Hrun.
Defined.

Lemma delete_then_search_by_id_witness :
  exists w',
    (delete_student ;; search_student_by_id)
      (host (holding [] ann_and_bob) ["S2"; "S2"])
    = (Returned tt, w')
    /\ stdin w' = [].
Proof.
  destruct (@delete_then_search_by_id
              (host (holding [] ann_and_bob) ["S2"; "S2"])
              access_driver (holding [] ann_and_bob)
              {| rows := ann_and_bob; next_id := 3 |}
              "S2" [] (host_online 2 _ _) eq_refl eq_refl)
    as (w' & Hrun & Hin & _).
  - exists (a_student 2 "S2" "Bob" 80%float).
    split; [right; left|]; reflexivity.
  - exists w'. split; assumption.
Defined.

(* ================================================================= *)
(** ** Searching by name *)

Lemma like_anything s : Sql.like "%" s = true.
Proof.
  induction s as [|c s IH]; [reflexivity|].
  simpl in *. exact IH.
Qed.

Lemma like_plain_prefix f :
  plain f = true -> forall s, Sql.like (f ++ "%") s = prefix f s.
Proof.
  induction f as [|c f IH]; intros Hf s.
  - change (Sql.like ("" ++ "%") s) with (Sql.like "%" s). rewrite (like_anything s).
    destruct s; reflexivity.
  - cbn [plain] in Hf. apply andb_true_iff in Hf. destruct Hf as [Hc Hf].
    apply andb_true_iff in Hc. destruct Hc as [Hc1 Hc2].
    apply negb_true_iff in Hc1, Hc2.
    change (Sql.like (String c f ++ "%") s) with (Sql.like (String c (f ++ "%")) s).
    cbn [Sql.like]. rewrite Hc1.
    destruct s as [|e s]; [reflexivity|].
    rewrite Hc2. cbn [prefix orb]. rewrite (IH Hf s).
    destruct (ascii_dec c e) as [->|Hne].
    + rewrite Ascii.eqb_refl. reflexivity.
    + apply Ascii.eqb_neq in Hne. rewrite Hne. reflexivity.
Qed.

(** With a text without wildcards between the two [%], LIKE is [in]. *)
Lemma like_contains f s :
  plain f = true ->
  Sql.like ("%" ++ f ++ "%") s = PyStr.contains f s.
Proof.
  intros Hf.
  change (Sql.like ("%" ++ f ++ "%") s) with (Sql.like (String "%" (f ++ "%")) s).
  induction s as [|c s IH].
  - cbn [Sql.like PyStr.contains]. change (Ascii.eqb "%" "%") with true.
    cbv iota. rewrite (like_plain_prefix f Hf). reflexivity.
  - cbn [Sql.like PyStr.contains] in *.
    change (Ascii.eqb "%" "%") with true in *. cbv iota in *.
    rewrite (like_plain_prefix f Hf). f_equal. exact IH.
Qed.

Lemma matches_run (rs : list Students.row) w :
  match rs with
  | [] => print "No matching students."
  | _ => for_each rs print_row
  end w
  = (Returned tt,
     set_console w
       (console w ++ match rs with
                     | [] => [ Print "No matching students." ]
                     | _ => map row_line rs
                     end)).
Proof.
  destruct rs as [|r rs]; [reflexivity|].
  change (for_each (r :: rs) print_row)
    with (for_each (r :: rs) (fun x => emit (row_line x))).
  rewrite for_each_emit. reflexivity.
Qed.

Lemma search_students_by_name_run w driver d t n rest :
  online 1 w driver d ->
  tbl_Students d = Some t ->
  stdin w = n :: rest ->
  let name := PyStr.strip n in
  let pattern := ("%" ++ name ++ "%")%string in
  let found := filter (Sql.holds (NameLike pattern)) (rows t) in
  search_students_by_name w
  = (Returned tt,
     after w d 1
       (Prompt "Enter (part of) name to search: "
        :: match found with
           | [] => [ Print "No matching students." ]
           | _ => map row_line found
           end)
       [ Connect driver; Execute (SelectStudents (NameLike pattern)) ]).
Proof.
  intros Ho Ht Hi name pattern found. unfold search_students_by_name.
  erewrite bind_returned; [ | apply input_run; eassumption ].
  fold name. fold pattern.
  erewrite try_returned; [reflexivity|].
  erewrite with_run;
    [ | eapply get_connection_opens with (n := 0) (d := d);
        destruct Ho; split; simpl; eassumption
      | erewrite bind_returned;
        [ | eapply execute_run; [reflexivity|];
            simpl; unfold Sql.on_Students; rewrite Ht; reflexivity ];
        unfold fetchall; cbn [fetched Sql.result];
        apply matches_run ].
  same_world; rewrite Hi; reflexivity.
Qed.

(** X15.  A blank answer at the name prompt of [search_students_by_name]
    (nothing, or white space only) lists every student, in the order of the
    table: the fragment is stripped, and the pattern sent is [%%]. *)
Theorem search_by_name_blank_lists_everyone w driver d t n rest :
  online 1 w driver d ->
  tbl_Students d = Some t ->
  stdin w = n :: rest ->
  PyStr.strip n = "" ->
  search_students_by_name w
  = (Returned tt,
     after w d 1
       (Prompt "Enter (part of) name to search: "
        :: match rows t with
           | [] => [ Print "No matching students." ]
           | _ => map row_line (rows t)
           end)
       [ Connect driver; Execute (SelectStudents (NameLike "%%")) ]).
Proof.
  intros Ho Ht Hi Hblank.
  rewrite (search_students_by_name_run Ho Ht Hi). rewrite Hblank.
  change ("%" ++ "" ++ "%")%string with "%%".
  assert (E : filter (Sql.holds (NameLike "%%")) (rows t) = rows t).
  { clear. induction (rows t) as [|r rs IH]; [reflexivity|].
    cbn [filter]. rewrite IH.
    change (Sql.holds (NameLike "%%") r)
      with (Sql.like ("%" ++ "" ++ "%") (Students.name r)).
    rewrite (@like_contains "" (Students.name r) eq_refl).
    destruct (Students.name r); reflexivity. }
  rewrite E. reflexivity.
Qed.

Lemma search_by_name_blank_lists_everyone_witness :
  search_students_by_name (host (holding [] ann_and_bob) ["  "])
  = (Returned tt,
     after (host (holding [] ann_and_bob) ["  "]) (holding [] ann_and_bob) 1
       [ Prompt "Enter (part of) name to search: ";
         row_line (a_student 1 "S1" "Ann" 60%float);
         row_line (a_student 2 "S2" "Bob" 80%float) ]
       [ Connect access_driver; Execute (SelectStudents (NameLike "%%")) ]).
Proof.
  apply (@search_by_name_blank_lists_everyone
           (host (holding [] ann_and_bob) ["  "])
           access_driver (holding [] ann_and_bob)
           {| rows := ann_and_bob; next_id := 3 |}
           "  " [] (host_online 1 _ _) eq_refl eq_refl).
  reflexivity.
Defined.

(* ================================================================= *)
(** ** Invariants of the world *)

Lemma inv_ret Inv {A} (a : A) : invariant Inv (ret a).
Proof. intros w r w' HI H. inversion H; subst. exact HI. Qed.

Lemma inv_raise Inv {A} e : invariant Inv (@raise A e).
Proof. intros w r w' HI H. inversion H; subst. exact HI. Qed.

Lemma inv_out_of_fuel Inv {A} :
  invariant Inv (fun w : world => (@OutOfFuel A, w)).
Proof. intros w r w' HI H. inversion H; subst. exact HI. Qed.

Lemma inv_bind Inv {A B} (m : M A) (k : A -> M B) :
  invariant Inv m -> (forall a, invariant Inv (k a)) ->
  invariant Inv (bind m k).
Proof.
  intros Hm Hk w r w' HI H. unfold bind in H.
  destruct (m w) as [[a|e|] w1] eqn:E.
  - exact (Hk a w1 r w' (Hm w _ w1 HI E) H).
  - inversion H; subst. exact (Hm w _ _ HI E).
  - inversion H; subst. exact (Hm w _ _ HI E).
Qed.

Lemma inv_try Inv {A} (body : M A) hs :
  invariant Inv body ->
  Forall (fun h => forall e, invariant Inv (snd h e)) hs ->
  invariant Inv (try_ body hs).
Proof.
  intros Hb Hh w r w' HI H. unfold try_ in H.
  destruct (body w) as [[a|e|] w1] eqn:E.
  - inversion H; subst. exact (Hb w _ _ HI E).
  - destruct (find (fun h => catches (fst h) e) hs) as [h|] eqn:F.
    + apply find_some in F. destruct F as [Hin _].
      rewrite Forall_forall in Hh.
      exact (Hh h Hin e w1 r w' (Hb w _ _ HI E) H).
    + inversion H; subst. exact (Hb w _ _ HI E).
  - inversion H; subst. exact (Hb w _ _ HI E).
Qed.

Lemma inv_for_each Inv {A} (xs : list A) body :
  (forall x, invariant Inv (body x)) -> invariant Inv (for_each xs body).
Proof.
  intros Hb. induction xs as [|x xs IH]; simpl.
  - apply inv_ret.
  - apply inv_bind; [apply Hb | intros _; exact IH].
Qed.

Lemma inv_with (Inv : world -> Prop) {A} acquire (body : M A) :
  (forall w, Inv w -> Inv (set_session w None)) ->
  invariant Inv acquire -> invariant Inv body ->
  invariant Inv (with_ acquire body).
Proof.
  intros Hc Ha Hb. unfold with_. apply inv_bind; [exact Ha|].
  intros _ w r w' HI H.
  destruct (body w) as [r1 w1] eqn:E. inversion H; subst.
  apply Hc. exact (Hb w _ _ HI E).
Qed.

(** An invariant that printing, reading, connecting and closing keep is
    kept by an operation as soon as the statements the operation executes
    keep it, and [conn.commit()] if the operation commits. *)
Section Stable.

Variable Inv : world -> Prop.
Variable py_float : string -> option float.

Hypothesis Inv_emit : forall l, invariant Inv (emit l).
Hypothesis Inv_readline : invariant Inv readline.
Hypothesis Inv_connect : forall driver, invariant Inv (connect driver).
Hypothesis Inv_close : forall w, Inv w -> Inv (set_session w None).
Hypothesis Inv_reads :
  forall R (q : stmt R),
    writes_Users q = false -> writes_Students q = false ->
    invariant Inv (execute q).

Ltac inv_handlers :=
  lazymatch goal with
  | |- Forall _ [] => apply Forall_nil
  | |- Forall _ (_ :: _) =>
      apply Forall_cons; [ intro; cbn [snd] | inv_handlers ]
  end.

Ltac inv_step :=
  match goal with
  | |- invariant _ (bind _ _) => apply inv_bind; [ | intro; cbv zeta ]
  | |- invariant _ (ret _) => apply inv_ret
  | |- invariant _ (raise _) => apply inv_raise
  | |- invariant _ (emit _) => apply Inv_emit
  | |- invariant _ (print _) => apply Inv_emit
  | |- invariant _ (printf _ _) => apply Inv_emit
  | |- invariant _ readline => exact Inv_readline
  | |- invariant _ (input _) => unfold input
  | |- invariant _ (getpass _) => unfold getpass
  | |- invariant _ (float_ _ _) => unfold float_
  | |- invariant _ (print_row _) => unfold print_row
  | |- invariant _ (first_column _) => unfold first_column
  | |- invariant _ (table_exists _) => unfold table_exists
  | |- invariant _ (execute _) =>
      match goal with
      | H : _ |- _ => solve [ apply H; reflexivity ]
      end
  | |- invariant _ (with_ _ _) => apply inv_with; [ exact Inv_close | | ]
  | |- invariant _ (for_each _ _) => apply inv_for_each; intro
  | |- invariant _ (try_ _ _) => apply inv_try; [ | inv_handlers ]
  | |- invariant _ (match ?x with _ => _ end) => destruct x
  | |- invariant _ _ => assumption
  end.

Ltac inv := cbv zeta; repeat inv_step.

Lemma inv_get_connection : invariant Inv get_connection.
Proof.
  intros w r w' HI H. unfold get_connection in H.
  destruct (find_access_driver (host_drivers w)) as [driver|].
  - refine ((_ : invariant Inv _) w r w' HI H). inv.
    apply Inv_connect.
  - refine ((_ : invariant Inv _) w r w' HI H). inv.
Qed.

Lemma login_inv : invariant Inv login.
Proof. pose proof inv_get_connection. unfold login. inv. Qed.

Lemma show_all_students_inv : invariant Inv show_all_students.
Proof. pose proof inv_get_connection. unfold show_all_students. inv. Qed.

Lemma search_student_by_id_inv : invariant Inv search_student_by_id.
Proof. pose proof inv_get_connection. unfold search_student_by_id. inv. Qed.

Lemma search_students_by_name_inv : invariant Inv search_students_by_name.
Proof. pose proof inv_get_connection. unfold search_students_by_name. inv. Qed.

Lemma count_students_inv : invariant Inv count_students.
Proof. pose proof inv_get_connection. unfold count_students. inv. Qed.

Lemma calculate_average_score_inv : invariant Inv calculate_average_score.
Proof. pose proof inv_get_connection. unfold calculate_average_score. inv. Qed.

Lemma show_passed_students_inv mark : invariant Inv (show_passed_students mark).
Proof. pose proof inv_get_connection. unfold show_passed_students. inv. Qed.

Lemma show_failed_students_inv mark : invariant Inv (show_failed_students mark).
Proof. pose proof inv_get_connection. unfold show_failed_students. inv. Qed.

Hypothesis Inv_commit : invariant Inv commit.

Section StudentStatements.

Hypothesis Inv_students :
  forall R (q : stmt R), writes_Users q = false -> invariant Inv (execute q).

Lemma add_student_inv : invariant Inv (add_student py_float).
Proof. pose proof inv_get_connection. unfold add_student. inv. Qed.

Lemma update_student_inv : invariant Inv (update_student py_float).
Proof. pose proof inv_get_connection. unfold update_student. inv. Qed.

Lemma delete_student_inv : invariant Inv delete_student.
Proof. pose proof inv_get_connection. unfold delete_student. inv. Qed.

Lemma student_menu_choice_inv choice :
  invariant Inv (student_menu_choice py_float choice).
Proof.
  pose proof add_student_inv. pose proof show_all_students_inv.
  pose proof search_student_by_id_inv. pose proof search_students_by_name_inv.
  pose proof update_student_inv. pose proof delete_student_inv.
  pose proof count_students_inv. pose proof calculate_average_score_inv.
  pose proof (show_passed_students_inv default_pass_mark).
  pose proof (show_failed_students_inv default_pass_mark).
  unfold student_menu_choice. inv.
Qed.

Lemma student_menu_loop_inv fuel :
  invariant Inv (student_menu_loop py_float fuel).
Proof.
  induction fuel as [|fuel IH]; cbn [student_menu_loop].
  - apply inv_out_of_fuel.
  - unfold print_student_menu. inv. apply student_menu_choice_inv.
Qed.

End StudentStatements.

Section AccountStatements.

Hypothesis Inv_users :
  forall R (q : stmt R), writes_Students q = false -> invariant Inv (execute q).

Lemma register_inv : invariant Inv register.
Proof. pose proof inv_get_connection. unfold register. inv. Qed.

End AccountStatements.

Hypothesis Inv_execute : forall R (q : stmt R), invariant Inv (execute q).

Lemma init_db_inv : invariant Inv init_db.
Proof. pose proof inv_get_connection. unfold init_db. inv. Qed.

Lemma main_loop_inv fuel : invariant Inv (main_loop py_float fuel).
Proof.
  assert (Hs : forall fuel, invariant Inv (student_menu_loop py_float fuel)).
  { apply student_menu_loop_inv. intros R q _. apply Inv_execute. }
  assert (Hr : invariant Inv register).
  { apply register_inv. intros R q _. apply Inv_execute. }
  pose proof login_inv.
  induction fuel as [|fuel IH]; cbn [main_loop].
  - apply inv_out_of_fuel.
  - unfold print_main_menu. inv. apply Hs.
Qed.

Lemma main_inv fuel : invariant Inv (main py_float fuel).
Proof.
  unfold main. apply inv_bind; [apply init_db_inv|].
  intros _. apply main_loop_inv.
Qed.

End Stable.

(* ================================================================= *)
(** ** What the operations leave alone *)

Lemma commits_log w c :
  commits (log w c) = commits w + (if is_commit c then 1 else 0).
Proof.
  unfold commits. cbn [calls log]. rewrite filter_app, length_app.
  cbn [filter]. destruct (is_commit c); reflexivity.
Qed.

Lemma untouched_emit d n l : invariant (untouched d n) (emit l).
Proof. intros w r w' HI H. inversion H; subst. exact HI. Qed.

Lemma untouched_readline d n : invariant (untouched d n) readline.
Proof.
  intros w r w' HI H. unfold readline in H.
  destruct (stdin w); inversion H; subst; exact HI.
Qed.

Lemma untouched_connect d n driver :
  invariant (untouched d n) (connect driver).
Proof.
  intros w r w' [Hf Hc] H. unfold connect in H. cbn [connects log] in H.
  assert (Hn : commits (log w (Connect driver)) = n).
  { rewrite commits_log. cbn [is_commit]. lia. }
  destruct (connects w) as [|[] l]; inversion H; subst; split;
    try exact Hn; cbn [file set_session set_file set_connects log];
    rewrite ?Hf; reflexivity.
Qed.

Lemma untouched_close d n w :
  untouched d n w -> untouched d n (set_session w None).
Proof. intros HI. exact HI. Qed.

Lemma untouched_execute d n R (q : stmt R) :
  invariant (untouched d n) (execute q).
Proof.
  intros w r w' [Hf Hc] H. unfold execute in H. cbn [session log] in H.
  assert (Hn : commits (log w (Execute q)) = n).
  { rewrite commits_log. cbn [is_commit]. lia. }
  destruct (session w) as [d0|];
    [destruct (Sql.run q d0) as [e|[cur d']]|];
    inversion H; subst; split; try exact Hn; exact Hf.
Qed.

(** X16.  The operations that only read leave the database file as it is
    and never call [conn.commit()], on every way out: [login],
    [show_all_students], [search_student_by_id], [search_students_by_name],
    [count_students], [calculate_average_score], [show_passed_students] and
    [show_failed_students]. *)
Theorem read_only_operations_leave_the_file d n mark :
  invariant (untouched d n) login
  /\ invariant (untouched d n) show_all_students
  /\ invariant (untouched d n) search_student_by_id
  /\ invariant (untouched d n) search_students_by_name
  /\ invariant (untouched d n) count_students
  /\ invariant (untouched d n) calculate_average_score
  /\ invariant (untouched d n) (show_passed_students mark)
  /\ invariant (untouched d n) (show_failed_students mark).
Proof.
  pose proof (@untouched_emit d n) as He.
  pose proof (@untouched_readline d n) as Hr.
  pose proof (@untouched_connect d n) as Hc.
  pose proof (@untouched_close d n) as Hx.
  assert (Hq : forall R (q : stmt R),
             writes_Users q = false -> writes_Students q = false ->
             invariant (untouched d n) (execute q)).
  { intros R q _ _. exact (@untouched_execute d n R q). }
  split; [|split; [|split; [|split; [|split; [|split; [|split]]]]]].
  - exact (@login_inv _ He Hr Hc Hx Hq).
  - exact (@show_all_students_inv _ He Hc Hx Hq).
  - exact (@search_student_by_id_inv _ He Hr Hc Hx Hq).
  - exact (@search_students_by_name_inv _ He Hr Hc Hx Hq).
  - exact (@count_students_inv _ He Hc Hx Hq).
  - exact (@calculate_average_score_inv _ He Hc Hx Hq).
  - exact (@show_passed_students_inv _ He Hc Hx Hq mark).
  - exact (@show_failed_students_inv _ He Hc Hx Hq mark).
Qed.

Lemma read_only_operations_leave_the_file_witness :
  untouched (holding [] ann_and_bob) 0
    (snd (search_students_by_name (host (holding [] ann_and_bob) ["n"]))).
Proof.
  destruct (@read_only_operations_leave_the_file
              (holding [] ann_and_bob) 0 50%float)
    as (_ & _ & _ & H & _).
  apply (H (host (holding [] ann_and_bob) ["n"])
           (fst (search_students_by_name (host (holding [] ann_and_bob) ["n"])))).
  - split; reflexivity.
  - apply surjective_pairing.
Defined.

(* ----------------------------------------------------------------- *)
(** *** The UNIQUE constraints *)

Lemma constrained_emit l : invariant constrained (emit l).
Proof. intros w r w' HI H. inversion H; subst. exact HI. Qed.

Lemma constrained_readline : invariant constrained readline.
Proof.
  intros w r w' HI H. unfold readline in H.
  destruct (stdin w); inversion H; subst; exact HI.
Qed.

Lemma constrained_connect driver : invariant constrained (connect driver).
Proof.
  intros w r w' [Hf Hs] H. unfold connect in H. cbn [connects log] in H.
  assert (Hd : well_formed
                 match file w with Some d => d | None => empty_database end).
  { destruct (file w) as [d|]; [apply Hf; reflexivity|].
    apply empty_database_well_formed. }
  destruct (connects w) as [|[] l]; inversion H; subst; split;
    cbn [file session set_session set_file set_connects log];
    try assumption;
    intros d E; inversion E; subst; exact Hd.
Qed.

Lemma constrained_close w : constrained w -> constrained (set_session w None).
Proof.
  intros [Hf _]. split; [exact Hf|]. intros d E. discriminate.
Qed.

Lemma constrained_execute R (q : stmt R) : invariant constrained (execute q).
Proof.
  intros w r w' [Hf Hs] H. unfold execute in H. cbn [session log] in H.
  destruct (session w) as [d0|] eqn:E0;
    [destruct (Sql.run q d0) as [e|[cur d']] eqn:Er|];
    inversion H; subst; split;
    cbn [file session set_session log]; try assumption;
    try (rewrite E0; exact Hs).
  intros d E. inversion E; subst.
  exact (run_well_formed q Er (Hs d0 eq_refl)).
Qed.

Lemma constrained_commit : invariant constrained commit.
Proof.
  intros w r w' [Hf Hs] H. unfold commit in H. cbn [session log] in H.
  destruct (session w) as [d0|] eqn:E0; inversion H; subst; split;
    cbn [file session set_file log]; try assumption;
    try (rewrite E0; exact Hs).
Qed.

(** X17.  Whatever is typed and whichever connections fail, a run of
    [main] keeps the UNIQUE constraints of the two tables: from a file
    without two accounts of the same username and without two students of
    the same student id, every way out of [main] leaves such a file. *)
Theorem main_keeps_unique_constraints py_float fuel w r w' :
  constrained w -> main py_float fuel w = (r, w') -> constrained w'.
Proof.
  intros HI H.
  refine (@main_inv constrained py_float (@constrained_emit)
            (@constrained_readline) (@constrained_connect)
            (@constrained_close) _ (@constrained_commit)
            (@constrained_execute) fuel w r w' HI H).
  intros R q _ _. exact (@constrained_execute R q).
Qed.

Lemma main_keeps_unique_constraints_witness :
  constrained
    (snd (main Literal.float_literal 4
            (host empty_database ["1"; "al"; "pw"; "1"; "al"; "pw2"; "3"]))).
Proof.
  apply (@main_keeps_unique_constraints Literal.float_literal 4
           (host empty_database ["1"; "al"; "pw"; "1"; "al"; "pw2"; "3"])
           (fst (main Literal.float_literal 4
                   (host empty_database
                      ["1"; "al"; "pw"; "1"; "al"; "pw2"; "3"])))).
  - split; intros d E; [|discriminate].
    inversion E; subst. apply empty_database_well_formed.
  - apply surjective_pairing.
Defined.

(* ----------------------------------------------------------------- *)
(** *** Each menu and its table *)

Lemma run_keeps_Users {R} (q : stmt R) d cur d' :
  writes_Users q = false -> Sql.run q d = inr (cur, d') ->
  tbl_Users d' = tbl_Users d.
Proof.
  intros Hq H.
  destruct q; try discriminate Hq; simpl in H;
    unfold Sql.on_Users, Sql.on_Students in H;
    repeat match type of H with
           | context [match ?x with _ => _ end] => destruct x eqn:?
           end;
    inversion H; subst; simpl; congruence.
Qed.

Lemma run_keeps_Students {R} (q : stmt R) d cur d' :
  writes_Students q = false -> Sql.run q d = inr (cur, d') ->
  tbl_Students d' = tbl_Students d.
Proof.
  intros Hq H.
  destruct q; try discriminate Hq; simpl in H;
    unfold Sql.on_Users, Sql.on_Students in H;
    repeat match type of H with
           | context [match ?x with _ => _ end] => destruct x eqn:?
           end;
    inversion H; subst; simpl; congruence.
Qed.

Section OneTable.

Variable T : Type.
Variable tbl : database -> option T.
Variable writes : forall R, stmt R -> bool.
Variable t : option T.

Hypothesis run_keeps :
  forall R (q : stmt R) d cur d',
    @writes R q = false -> Sql.run q d = inr (cur, d') -> tbl d' = tbl d.

(** The table [tbl] is [t], in the file and in the working copy of an open
    connection. *)
Let kept (w : world) : Prop :=
  (exists d, file w = Some d /\ tbl d = t)
  /\ (forall d, session w = Some d -> tbl d = t).

Lemma kept_emit l : invariant kept (emit l).
Proof. intros w r w' HI H. injection H as <- <-. exact HI. Qed.

Lemma kept_readline : invariant kept readline.
Proof.
  intros w r w' HI H. unfold readline in H.
  destruct (stdin w); injection H as <- <-; exact HI.
Qed.

Lemma kept_connect driver : invariant kept (connect driver).
Proof.
  intros w r w' [(d & Hf & Ht) Hs] H. unfold connect in H.
  cbn [connects log] in H.
  destruct (connects w) as [|[] l]; injection H as <- <-; split;
    cbn [file session set_session set_file set_connects log];
    rewrite ?Hf; try assumption;
    try (exists d; split; [reflexivity | exact Ht]);
    intros d1 E; injection E as <-; exact Ht.
Qed.

Lemma kept_close w : kept w -> kept (set_session w None).
Proof.
  intros [Hf _]. split; [exact Hf|]. intros d E. discriminate.
Qed.

Lemma kept_execute R (q : stmt R) :
  @writes R q = false -> invariant kept (execute q).
Proof.
  intros Hq w r w' [Hf Hs] H. unfold execute in H. cbn [session log] in H.
  destruct (session w) as [d0|] eqn:E0;
    [destruct (Sql.run q d0) as [e|[cur d']] eqn:Er|];
    injection H as <- <-; split;
    cbn [file session set_session log]; try assumption;
    try (rewrite E0; exact Hs).
  intros d E. injection E as <-.
  rewrite (@run_keeps R q d0 cur d' Hq Er). exact (Hs d0 eq_refl).
Qed.

Lemma kept_commit : invariant kept commit.
Proof.
  intros w r w' [Hf Hs] H. unfold commit in H. cbn [session log] in H.
  destruct (session w) as [d0|] eqn:E0; injection H as <- <-; split;
    cbn [file session set_file log]; try assumption;
    try (rewrite E0; exact Hs).
  exists d0. split; [reflexivity | exact (Hs d0 eq_refl)].
Qed.

End OneTable.

(** X18.  Each menu keeps to its table.  The student menu, whatever is
    chosen and typed in it, leaves the table Users as it is; [register] and
    [login] leave the table Students as it is. *)
Theorem each_menu_keeps_to_its_table py_float fuel u s :
  invariant (accounts u) (student_menu_loop py_float fuel)
  /\ invariant (students s) register
  /\ invariant (students s) login.
Proof.
  split; [|split].
  - refine (@student_menu_loop_inv (accounts u) py_float
              (@kept_emit _ tbl_Users u) (@kept_readline _ tbl_Users u)
              (@kept_connect _ tbl_Users u) (@kept_close _ tbl_Users u)
              _ (@kept_commit _ tbl_Users u) _ fuel).
    + intros R q Hq _.
      exact (@kept_execute _ tbl_Users (@writes_Users) u
               (@run_keeps_Users) R q Hq).
    + intros R q Hq.
      exact (@kept_execute _ tbl_Users (@writes_Users) u
               (@run_keeps_Users) R q Hq).
  - refine (@register_inv (students s)
              (@kept_emit _ tbl_Students s) (@kept_readline _ tbl_Students s)
              (@kept_connect _ tbl_Students s) (@kept_close _ tbl_Students s)
              (@kept_commit _ tbl_Students s) _).
    intros R q Hq.
    exact (@kept_execute _ tbl_Students (@writes_Students) s
             (@run_keeps_Students) R q Hq).
  - refine (@login_inv (students s)
              (@kept_emit _ tbl_Students s) (@kept_readline _ tbl_Students s)
              (@kept_connect _ tbl_Students s) (@kept_close _ tbl_Students s)
              _).
    intros R q _ Hq.
    exact (@kept_execute _ tbl_Students (@writes_Students) s
             (@run_keeps_Students) R q Hq).
Qed.

Lemma each_menu_keeps_to_its_table_witness :
  accounts (Some {| rows := [an_account 1 "al" "pw"]; next_id := 2 |})
    (snd (student_menu_loop Literal.float_literal 3
            (host (holding [an_account 1 "al" "pw"] ann_and_bob)
               ["6"; "S1"; "11"]))).
Proof.
  destruct (@each_menu_keeps_to_its_table Literal.float_literal 3
              (Some {| rows := [an_account 1 "al" "pw"]; next_id := 2 |})
              None)
    as (H & _).
  apply (H (host (holding [an_account 1 "al" "pw"] ann_and_bob)
              ["6"; "S1"; "11"])
           (fst (student_menu_loop Literal.float_literal 3
                   (host (holding [an_account 1 "al" "pw"] ann_and_bob)
                      ["6"; "S1"; "11"])))).
  - split.
    + eexists. split; reflexivity.
    + intros d E. discriminate.
  - apply surjective_pairing.
Defined.

(* ================================================================= *)
(** ** When the connection does not open *)

Lemma input_eof p w :
  stdin w = [] ->
  input p w = (Raised EOFError, set_console w (console w ++ [Prompt p])).
Proof.
  intros H. unfold input, bind, emit, readline. simpl. rewrite H. reflexivity.
Qed.

Section Unreachable.

Variable py_float : string -> option float.

(** X19.  The operations that write, when [pyodbc.connect] fails: the
    report of [get_connection] is printed, then the operation's own error
    line, and the operation returns; the file is as it was and no statement
    was sent.  So for [register], [add_student], [update_student] and
    [delete_student]. *)
Theorem writing_operations_report_a_refused_connection w driver d cs :
  find_access_driver (host_drivers w) = Some driver ->
  file w = Some d ->
  connects w = false :: cs ->
  (forall u p rest,
     stdin w = u :: p :: rest ->
     PyStr.strip u <> "" -> PyStr.strip p <> "" ->
     register w
     = (Returned tt,
        after_refusal w driver 2
          ([ Prompt "Enter new username: "; Getpass "Enter new password: " ]
           ++ connect_report driver
           ++ [ Printf "Error during registration: {e}" [VExn PyodbcError] ])))
  /\ (forall i n s rest score,
        stdin w = i :: n :: s :: rest ->
        py_float (PyStr.strip s) = Some score ->
        add_student py_float w
        = (Returned tt,
           after_refusal w driver 3
             ([ Prompt "Student ID: "; Prompt "Name: ";
                Prompt "Score (0-100): " ]
              ++ connect_report driver
              ++ [ Printf "Error adding student: {e}" [VExn PyodbcError] ])))
  /\ (forall i rest,
        stdin w = i :: rest ->
        update_student py_float w
        = (Returned tt,
           after_refusal w driver 1
             ([ Prompt "Enter Student ID to update: " ]
              ++ connect_report driver
              ++ [ Printf "Error updating student: {e}" [VExn PyodbcError] ])))
  /\ (forall i rest,
        stdin w = i :: rest ->
        delete_student w
        = (Returned tt,
           after_refusal w driver 1
             ([ Prompt "Enter Student ID to delete: " ]
              ++ connect_report driver
              ++ [ Printf "Error deleting student: {e}" [VExn PyodbcError] ]))).
Proof.
  intros Hd Hf Hc.
  split; [|split; [|split]].
  - intros u p rest Hi Hu Hp. unfold register.
    erewrite bind_returned; [ | apply input_run; eassumption ].
    erewrite bind_returned; [ | apply getpass_run; reflexivity ].
    assert (Eu : PyStr.nonempty (PyStr.strip u) = true)
      by (destruct (PyStr.strip u); [contradiction | reflexivity]).
    assert (Ep : PyStr.nonempty (PyStr.strip p) = true)
      by (destruct (PyStr.strip p); [contradiction | reflexivity]).
    rewrite Eu, Ep. cbn [negb orb].
    erewrite try_raised.
    2:{ eapply bind_raised. eapply with_refused.
        eapply get_connection_refused; simpl; eassumption. }
    cbn [find catches fst snd]. unfold printf, emit, connect_report.
    same_world; rewrite ?Hi, ?Hc; reflexivity.
  - intros i n s rest score Hi Hs. unfold add_student.
    erewrite bind_returned; [ | apply input_run; eassumption ].
    erewrite bind_returned; [ | apply input_run; reflexivity ].
    erewrite bind_returned.
    2:{ apply try_returned.
        erewrite bind_returned; [ | apply input_run; reflexivity ].
        unfold float_. rewrite Hs. reflexivity. }
    cbv beta iota.
    erewrite try_raised.
    2:{ eapply bind_raised. eapply with_refused.
        eapply get_connection_refused; simpl; eassumption. }
    cbn [find catches fst snd]. unfold printf, emit, connect_report.
    same_world; rewrite ?Hi, ?Hc; reflexivity.
  - intros i rest Hi. unfold update_student.
    erewrite bind_returned; [ | apply input_run; eassumption ].
    erewrite try_raised.
    2:{ eapply with_refused.
        eapply get_connection_refused; simpl; eassumption. }
    cbn [find catches fst snd]. unfold printf, emit, connect_report.
    same_world; rewrite ?Hi, ?Hc; reflexivity.
  - intros i rest Hi. unfold delete_student.
    erewrite bind_returned; [ | apply input_run; eassumption ].
    erewrite try_raised.
    2:{ eapply with_refused.
        eapply get_connection_refused; simpl; eassumption. }
    cbn [find catches fst snd]. unfold printf, emit, connect_report.
    same_world; rewrite ?Hi, ?Hc; reflexivity.
Qed.

(** X20.  The end of the console input at the prompt for the new name of
    [update_student] does not leave the operation with [EOFError]: the
    prompt is inside the [try], the handler for [Exception] reports it and
    [update_student] returns, with nothing updated. *)
Theorem update_student_reports_end_of_input w driver d t i row :
  online 1 w driver d ->
  tbl_Students d = Some t ->
  stdin w = [i] ->
  let student_id := PyStr.strip i in
  find (has_student_id student_id) (rows t) = Some row ->
  update_student py_float w
  = (Returned tt,
     after w d 1
       [ Prompt "Enter Student ID to update: ";
         Printf "Current Name: {row.name}, Score: {row.score}"
           [ VStr (Students.name row); VFloat (Students.score row) ];
         Prompt "New name (leave blank to keep): ";
         Printf "Error updating student: {e}" [VExn EOFError] ]
       [ Connect driver; Execute (SelectStudents (StudentIdIs student_id)) ]).
Proof.
  intros Ho Ht Hi student_id Hrow. unfold update_student.
  erewrite bind_returned; [ | apply input_run; eassumption ].
  fold student_id.
  erewrite try_raised.
  2:{ erewrite with_run;
        [ reflexivity
        | eapply get_connection_opens with (n := 0) (d := d);
          destruct Ho; split; simpl; eassumption
        | erewrite bind_returned;
          [ | eapply execute_run; [reflexivity|];
              simpl; unfold Sql.on_Students; rewrite Ht; reflexivity ];
          unfold fetchone; cbn [fetched Sql.result];
          rewrite hd_error_filter;
          change (Sql.holds (StudentIdIs student_id))
            with (has_student_id student_id);
          rewrite Hrow;
          erewrite bind_returned; [ | reflexivity ];
          eapply bind_raised; apply input_eof; reflexivity ]. }
  cbn [find catches fst snd]. unfold printf, emit.
  same_world; rewrite Hi; reflexivity.
Qed.

End Unreachable.

Lemma writing_operations_report_a_refused_connection_witness :
  delete_student (unreachable_host ["S1"])
  = (Returned tt,
     after_refusal (unreachable_host ["S1"]) access_driver 1
       ([ Prompt "Enter Student ID to delete: " ]
        ++ connect_report access_driver
        ++ [ Printf "Error deleting student: {e}" [VExn PyodbcError] ])).
Proof.
  destruct (@writing_operations_report_a_refused_connection
              Literal.float_literal (unreachable_host ["S1"])
              access_driver (holding [] []) [])
    as (_ & _ & _ & H).
  - vm_compute. reflexivity.
  - reflexivity.
  - reflexivity.
  - exact (H "S1" [] eq_refl).
Defined.

Lemma update_student_reports_end_of_input_witness :
  fst (update_student Literal.float_literal
         (host (holding [] ann_and_bob) ["S2"]))
  = Returned tt.
Proof.
  rewrite (@update_student_reports_end_of_input Literal.float_literal
             (host (holding [] ann_and_bob) ["S2"])
             access_driver (holding [] ann_and_bob)
             {| rows := ann_and_bob; next_id := 3 |}
             "S2" (a_student 2 "S2" "Bob" 80%float)
             (host_online 1 _ _) eq_refl eq_refl eq_refl).
  reflexivity.
Defined.

(* ================================================================= *)
(** ** The menus *)

(** X21.  A choice that the menu does not know costs one turn and nothing
    else: "Invalid choice. Try again." is printed, pyodbc is not called,
    and the menu is shown again.  The choice is compared once stripped.
    So in [student_menu_loop] and in the loop of [main]. *)
Theorem unknown_choice_shows_the_menu_again py_float fuel w c rest :
  stdin w = c :: rest ->
  (~ In (PyStr.strip c) student_choices ->
   student_menu_loop py_float (S fuel) w
   = student_menu_loop py_float fuel
       (after_talk w 1
          (student_menu_lines
           ++ [ Prompt "Choose an option (1-11): ";
                Print "Invalid choice. Try again." ])))
  /\ (~ In (PyStr.strip c) ["1"; "2"; "3"] ->
      main_loop py_float (S fuel) w
      = main_loop py_float fuel
          (after_talk w 1
             (main_menu_lines
              ++ [ Prompt "Choose an option (1-3): ";
                   Print "Invalid choice. Try again." ]))).
Proof.
  intros Hi.
  assert (Hne : forall l k, ~ In (PyStr.strip c) l -> In k l ->
                  String.eqb (PyStr.strip c) k = false).
  { intros l k Hl Hk. apply String.eqb_neq. intros E. apply Hl.
    rewrite E. exact Hk. }
  split; intros Hnot.
  - cbn [student_menu_loop].
    erewrite bind_returned; [ | reflexivity ].
    erewrite bind_returned; [ | apply input_run; simpl; eassumption ].
    unfold student_menu_choice.
    rewrite !(Hne _ _ Hnot) by (simpl; tauto).
    erewrite bind_returned; [ | reflexivity ].
    cbv iota. f_equal. apply world_ext; fields.
    rewrite Hi. reflexivity.
  - cbn [main_loop].
    erewrite bind_returned; [ | reflexivity ].
    erewrite bind_returned; [ | apply input_run; simpl; eassumption ].
    cbv zeta.
    rewrite !(Hne _ _ Hnot) by (simpl; tauto).
    erewrite bind_returned; [ | reflexivity ].
    f_equal. apply world_ext; fields.
    rewrite Hi. reflexivity.
Qed.

Lemma unknown_choice_shows_the_menu_again_witness :
  main_loop Literal.float_literal 2 (host empty_database [" 4 "; "3"])
  = main_loop Literal.float_literal 1
      (after_talk (host empty_database [" 4 "; "3"]) 1
         (main_menu_lines
          ++ [ Prompt "Choose an option (1-3): ";
               Print "Invalid choice. Try again." ])).
Proof.
  apply (@unknown_choice_shows_the_menu_again Literal.float_literal 1
           (host empty_database [" 4 "; "3"]) " 4 " ["3"] eq_refl).
  simpl. intros [H | [H | [H | []]]]; discriminate H.
Defined.

(* ================================================================= *)
(** ** check_drivers.py and main.py *)

Lemma insert_sorted_In x y l : In y (insert_sorted x l) <-> y = x \/ In y l.
Proof.
  induction l as [|z l IH]; simpl.
  - intuition.
  - destruct (String.leb x z); simpl; [intuition|].
    rewrite IH. intuition.
Qed.

Lemma py_sorted_In y l : In y (py_sorted l) <-> In y l.
Proof.
  induction l as [|x l IH]; simpl; [reflexivity|].
  rewrite insert_sorted_In, IH. intuition.
Qed.

Lemma find_access_driver_none available :
  find_access_driver available = None <-> filter is_access_driver available = [].
Proof.
  unfold find_access_driver.
  destruct (filter is_access_driver available) as [|d l] eqn:E.
  - simpl. split; reflexivity.
  - destruct (first_preferred preferred_drivers (d :: l));
      split; intros H; discriminate H.
Qed.

Lemma check_drivers_run w :
  check_drivers w
  = (Returned tt,
     after_talk w 0
       (Print "Checking available ODBC drivers...\n"
        :: check_drivers_lines (host_drivers w))).
Proof.
  unfold check_drivers.
  erewrite bind_returned; [ | reflexivity ].
  cbn [host_drivers set_console]. unfold check_drivers_lines.
  destruct (host_drivers w) as [|d0 ds].
  - unfold print, emit. same_world.
  - erewrite bind_returned; [ | reflexivity ].
    erewrite bind_returned; [ | reflexivity ].
    erewrite bind_returned; [ | apply for_each_emit ].
    erewrite bind_returned; [ | reflexivity ].
    destruct (filter is_access_driver (d0 :: ds)) as [|a l].
    + unfold bind, print, emit. same_world.
    + erewrite bind_returned; [ | reflexivity ].
      rewrite for_each_emit. same_world.
Qed.

(** X22.  The script [check_drivers.py] and [main.py] agree on the host:
    the script lists every installed driver, and it announces Access
    drivers exactly when [find_access_driver] of [main.py] finds one, that
    is exactly when [get_connection] gets past its driver check instead of
    leaving with [sys.exit(1)]. *)
Theorem check_drivers_agrees_with_main w :
  let printed := check_drivers_lines (host_drivers w) in
  check_drivers w
  = (Returned tt,
     after_talk w 0 (Print "Checking available ODBC drivers...\n" :: printed))
  /\ (forall driver,
        In (driver_line driver) printed <-> In driver (host_drivers w))
  /\ (In (Print "\n✓ Microsoft Access drivers found:") printed
      <-> find_access_driver (host_drivers w) <> None)
  /\ (In (Print "\n✓ Microsoft Access drivers found:") printed
      <-> fst (get_connection w) <> Raised (SystemExit 1)).
Proof.
  intros printed.
  assert (Hg : find_access_driver (host_drivers w) <> None
               <-> fst (get_connection w) <> Raised (SystemExit 1)).
  { unfold get_connection.
    destruct (find_access_driver (host_drivers w)) as [driver|].
    - split; [intros _ | intros _; discriminate].
      unfold bind, try_, connect, ret, printf, print, emit, raise.
      destruct (file w); cbn [connects log set_console];
        destruct (connects w) as [|[] l]; cbn; discriminate.
    - split; [intros H; contradiction H; reflexivity|].
      intros H. contradiction H. reflexivity. }
  assert (Hmark : In (Print "\n✓ Microsoft Access drivers found:") printed
                  <-> find_access_driver (host_drivers w) <> None).
  { rewrite find_access_driver_none. subst printed.
    unfold check_drivers_lines.
    destruct (host_drivers w) as [|d0 ds].
    - split; [intros [H | []]; discriminate H|].
      intros H. contradiction H. reflexivity.
    - rewrite !in_app_iff, in_map_iff.
      destruct (filter is_access_driver (d0 :: ds)) as [|a l].
      + split; [|intros H; contradiction H; reflexivity].
        intros [[H | [H | []]] | [(x & H & _) | [[H | []] | H]]];
          try discriminate H.
        simpl in H. intuition discriminate.
      + split; [intros _; discriminate|].
        intros _. do 3 right. left. reflexivity. }
  split; [|split; [|split]].
  - apply check_drivers_run.
  - intros driver. subst printed. unfold check_drivers_lines.
    destruct (host_drivers w) as [|d0 ds].
    + split; [|intros []]. intros [H | []]. discriminate H.
    + rewrite !in_app_iff, in_map_iff. split.
      * intros [[H | [H | []]] | [(x & H & Hx) | [[H | []] | H]]];
          try discriminate H.
        -- injection H as ->. apply py_sorted_In. exact Hx.
        -- destruct (filter is_access_driver (d0 :: ds)) as [|a l] eqn:Ea.
           ++ simpl in H. intuition discriminate.
           ++ destruct H as [H | H]; [discriminate H|].
              apply in_map_iff in H. destruct H as (x & H & Hx).
              injection H as ->. rewrite <- Ea in Hx.
              apply filter_In in Hx. exact (proj1 Hx).
      * intros H. right. left. exists driver. split; [reflexivity|].
        apply py_sorted_In. exact H.
  - exact Hmark.
  - rewrite <- Hg. exact Hmark.
Qed.

(* ================================================================= *)
(** ** Without a driver *)

Lemma no_driver_leaves {A} (body : M A) hs w :
  find_access_driver (host_drivers w) = None ->
  try_ (with_ get_connection body) hs w
  = (Raised (SystemExit 1), set_console w (console w ++ driver_diagnostic)).
Proof.
  intros Hd.
  erewrite try_raised;
    [ | eapply with_refused; apply get_connection_no_driver; exact Hd ].
  assert (E : find (fun h => catches (fst h) (SystemExit 1)) hs = None).
  { clear. induction hs as [|[c h] hs IH]; [reflexivity|].
    cbn [find fst]. destruct c; exact IH. }
  rewrite E. reflexivity.
Qed.

(** X23.  On a host without an Access driver the [sys.exit(1)] of
    [get_connection] goes through the [except Exception] of the operation
    that asked for the connection: the operation prints the diagnostic of
    [get_connection] and leaves with status 1, without an error line of its
    own.  So for the five operations that ask nothing. *)
Theorem no_driver_exits_through_the_handlers w mark :
  find_access_driver (host_drivers w) = None ->
  let out :=
    (@Raised unit (SystemExit 1),
     set_console w (console w ++ driver_diagnostic)) in
  show_all_students w = out
  /\ count_students w = out
  /\ calculate_average_score w = out
  /\ show_passed_students mark w = out
  /\ show_failed_students mark w = out.
Proof.
  intros Hd out. subst out.
  repeat split; apply no_driver_leaves; exact Hd.
Qed.

Lemma no_driver_exits_through_the_handlers_witness :
  fst (count_students
         {| host_drivers := ["SQL Server"]; connects := [];
            file := Some (holding [] ann_and_bob); session := None;
            stdin := []; console := []; calls := [] |})
  = Raised (SystemExit 1).
Proof.
  destruct (@no_driver_exits_through_the_handlers
              {| host_drivers := ["SQL Server"]; connects := [];
                 file := Some (holding [] ann_and_bob); session := None;
                 stdin := []; console := []; calls := [] |}
              50%float eq_refl)
    as (_ & H & _).
  rewrite H. reflexivity.
Defined.
